(** * DataWarehouse: ingestion, indexing, retrieval and fusion (src/app.py)

    A shallow embedding of the [DataWarehouse] class of [src/app.py].
    The object's fields become a record that is passed explicitly, the
    methods that mutate [self] run in a small state/exception/log monad, and
    everything the class reaches outside the repository (the file system,
    pandas, the text splitter, the Chroma vector store, the chat model) is an
    interface whose behaviour is left arbitrary. *)

From Stdlib Require Import String Ascii List Bool Arith PeanoNat NArith ZArith.
From Stdlib Require Import Lia DecimalString Permutation Sorted SpecFloat.
Import ListNotations.
Open Scope string_scope.

Set Implicit Arguments.

(** ** Python values *)

(** The outcome of a call that may raise an [Exception]; [msg] is [str(e)]. *)
Inductive result (A : Type) : Type :=
| Ok (a : A)
| Raise (msg : string).
Arguments Ok {A} a.
Arguments Raise {A} msg.

Definition is_ok {A} (r : result A) : bool :=
  match r with Ok _ => true | Raise _ => false end.

(** [s.startswith(p)] *)
Definition startswith (s p : string) : bool := String.prefix p s.

(** [s.endswith(suf)] *)
Definition endswith (s suf : string) : bool :=
  let n := String.length s in
  let m := String.length suf in
  Nat.leb m n && String.eqb (substring (n - m) m s) suf.

(** [sep.join(l)] *)
Definition join (sep : string) (l : list string) : string := String.concat sep l.

(** [str(n)] and [{n}] inside an f-string, for a non-negative integer. *)
Definition str_of_nat (n : nat) : string :=
  NilEmpty.string_of_uint (Nat.to_uint n).

(** Truth value of a string: [if text:] *)
Definition nonempty (s : string) : bool := negb (String.eqb s "").

(** A [str] is held as its UTF-8 bytes.  A byte of the form [10xxxxxx]
    continues the character that the byte before it belongs to. *)
Definition continuation (c : ascii) : bool :=
  match c with
  | Ascii _ _ _ _ _ _ b6 b7 => b7 && negb b6
  end.

(** [len(s)]: the number of characters. *)
Fixpoint len (s : string) : nat :=
  match s with
  | EmptyString => 0
  | String c tl => if continuation c then len tl else S (len tl)
  end.

(** [s[:n]]: the first [n] characters. *)
Fixpoint take (n : nat) (s : string) : string :=
  match s with
  | EmptyString => EmptyString
  | String c tl =>
      if continuation c then String c (take n tl)
      else match n with
           | 0 => EmptyString
           | S m => String c (take m tl)
           end
  end.

(** [os.path.join(folder, file)] for a [file] that is a directory entry
    (it holds no separator). *)
Definition path_join (folder file : string) : string :=
  if String.eqb folder "" || endswith folder "/"
  then folder ++ file
  else folder ++ "/" ++ file.

(** ** Floats

    A Python [float] and a numpy [float64] are IEEE 754 binary64 numbers:
    53 bits of precision, every operation rounded to the nearest
    representable number, halves to the even neighbour. *)
Definition prec : Z := 53.
Definition emax : Z := 1024.

(** [float(n)], the conversion that [/] applies to an integer operand. *)
Definition float_of_nat (n : nat) : spec_float :=
  binary_normalize prec emax (Z.of_nat n) 0 false.

(** How the rounding of [SpecFloat] sees the quotient [N / D]: where it
    lies between the integers [N / D] and [N / D + 1], and the record that
    holds both. *)
Definition locate (N D : Z) : location :=
  if (N mod D =? 0)%Z then loc_Exact
  else loc_Inexact (2 * (N mod D) ?= D)%Z.

Definition located (N D : Z) : shr_record :=
  shr_record_of_loc (N / D) (locate N D).

(** [n / d] rounded to an integer, halves going to the even neighbour. *)
Definition round_half_even (n d : Z) : Z :=
  let q := (n / d)%Z in
  match (2 * (n mod d) ?= d)%Z with
  | Lt => q
  | Eq => if Z.even q then q else (q + 1)%Z
  | Gt => (q + 1)%Z
  end.

(** The number [m * 2**e] in tenths, rounded to an integer. *)
Definition tenths (m : positive) (e : Z) : Z :=
  match e with
  | Zneg p => round_half_even (10 * Zpos m) (Z.pow_pos 2 p)
  | _ => (10 * Zpos m * 2 ^ e)%Z
  end.

(** The digits of an integer that is tenths: [q // 10], a point, [q % 10]. *)
Definition one_decimal (q : Z) : string :=
  str_of_nat (Z.to_nat (q / 10)) ++ "." ++ str_of_nat (Z.to_nat (q mod 10)).

(** [f"{x:.1f}"]: the decimal expansion of the exact value of [x], rounded
    to one digit after the point. *)
Definition format_1f (x : spec_float) : string :=
  match x with
  | S754_nan => "nan"
  | S754_infinity s => if s then "-inf" else "inf"
  | S754_zero s => if s then "-0.0" else "0.0"
  | S754_finite s m e => (if s then "-" else "") ++ one_decimal (tenths m e)
  end.

(** ** Tables *)

(** Column dtypes that [read_csv] and [read_excel] infer. *)
Inductive dtype : Type :=
  int64 | uint64 | float64 | bool_ | object_ | datetime64.

Definition dtype_eqb (a b : dtype) : bool :=
  match a, b with
  | int64, int64 | uint64, uint64 | float64, float64 | bool_, bool_
  | object_, object_ | datetime64, datetime64 => true
  | _, _ => false
  end.

(** [str(dtype)] *)
Definition dtype_str (d : dtype) : string :=
  match d with
  | int64 => "int64"
  | uint64 => "uint64"
  | float64 => "float64"
  | bool_ => "bool"
  | object_ => "object"
  | datetime64 => "datetime64[ns]"
  end.

(** Membership in [np.number], the filter of [select_dtypes]. *)
Definition is_number (d : dtype) : bool :=
  match d with
  | int64 | uint64 | float64 => true
  | _ => false
  end.

(** A column: its label, dtype and cells; [None] is a missing value
    (what [isnull()] reports). *)
Record column : Type := {
  col_name : string;
  col_dtype : dtype;
  col_cells : list (option string)
}.

(** A [pd.DataFrame]: ordered columns and the number of rows, [len(df)]. *)
Record DataFrame : Type := {
  df_columns : list column;
  df_len : nat
}.

(** A column label as pandas holds it, a Python object.  [read_csv] labels
    every column with a [str]; [read_excel] takes the labels from the header
    row of the sheet, where a cell that holds a number gives an [int] or a
    [float] and a cell that holds a date gives a [datetime].  For a label of
    another type than [str] and [int], [type_name] is [type(l).__name__]. *)
Inductive label : Type :=
| str_label (s : string)
| int_label (n : Z)
| other_label (type_name : string).

(** [type(l).__name__] *)
Definition type_name (l : label) : string :=
  match l with
  | str_label _ => "str"
  | int_label _ => "int"
  | other_label name => name
  end.

(** [isinstance(l, str)] *)
Definition is_str (l : label) : bool :=
  match l with
  | str_label _ => true
  | _ => false
  end.

(** A column and a table under labels of any type. *)
Record labelled_column : Type := {
  lc_label : label;
  lc_dtype : dtype;
  lc_cells : list (option string)
}.

Record labelled_frame : Type := {
  lf_columns : list labelled_column;
  lf_len : nat
}.

(** [df.columns.tolist()] *)
Definition labels (df : labelled_frame) : list label :=
  map lc_label (lf_columns df).

(** The items of [sep.join(items)], from position [i] on: [join] raises
    [TypeError] at the first item that is not a [str]. *)
Fixpoint str_items (i : nat) (items : list label) : result (list string) :=
  match items with
  | [] => Ok []
  | str_label s :: tl =>
      match str_items (S i) tl with
      | Ok names => Ok (s :: names)
      | Raise e => Raise e
      end
  | item :: _ =>
      Raise ("sequence item " ++ str_of_nat i ++ ": expected str instance, "
             ++ type_name item ++ " found")
  end.

(** The table [df] once its labels are known to be the strings [names]. *)
Definition with_names (names : list string) (df : labelled_frame)
  : DataFrame :=
  {| df_columns :=
       map (fun nc => {| col_name := fst nc;
                         col_dtype := lc_dtype (snd nc);
                         col_cells := lc_cells (snd nc) |})
           (combine names (lf_columns df));
     df_len := lf_len df |}.

(** A table with string labels, among the tables of any labels. *)
Definition of_strings (df : DataFrame) : labelled_frame :=
  {| lf_columns :=
       map (fun c => {| lc_label := str_label (col_name c);
                        lc_dtype := col_dtype c;
                        lc_cells := col_cells c |})
           (df_columns df);
     lf_len := df_len df |}.

(** [df.columns.tolist()] *)
Definition columns (df : DataFrame) : list string :=
  map col_name (df_columns df).

(** [df.select_dtypes(include=[np.number]).columns]: the numeric columns, in
    the table's column order. *)
Definition numeric_cols (df : DataFrame) : list column :=
  filter (fun c => is_number (col_dtype c)) (df_columns df).

(** [df.head(n)] *)
Definition head (n : nat) (df : DataFrame) : DataFrame :=
  {| df_columns :=
       map (fun c => {| col_name := col_name c;
                        col_dtype := col_dtype c;
                        col_cells := firstn n (col_cells c) |})
           (df_columns df);
     df_len := Nat.min n (df_len df) |}.

(** One entry of [df.isnull().sum()]: the number of missing cells. *)
Definition null_count (c : column) : nat :=
  length (filter (fun x => match x with None => true | Some _ => false end)
                 (col_cells c)).

(** [df.isnull().sum()] as (label, count) pairs in column order. *)
Definition isnull_sum (df : DataFrame) : list (string * nat) :=
  map (fun c => (col_name c, null_count c)) (df_columns df).

(** [series.sum()] *)
Definition series_sum (s : list (string * nat)) : nat :=
  fold_right (fun p acc => snd p + acc) 0 s.

(** [df.dtypes.value_counts()]: one (dtype, count) pair per dtype that occurs,
    most frequent first.  Distinct dtypes are collected in order of first
    appearance and then sorted by decreasing count with a stable insertion
    sort. *)
Definition count_dtype (d : dtype) (l : list dtype) : nat :=
  length (filter (dtype_eqb d) l).

Fixpoint distinct_dtypes (l : list dtype) : list dtype :=
  match l with
  | [] => []
  | d :: tl => d :: filter (fun e => negb (dtype_eqb d e)) (distinct_dtypes tl)
  end.

Fixpoint insert_by_count (p : dtype * nat) (l : list (dtype * nat))
  : list (dtype * nat) :=
  match l with
  | [] => [p]
  | q :: tl => if Nat.leb (snd q) (snd p) then p :: q :: tl
               else q :: insert_by_count p tl
  end.

Definition sort_by_count (l : list (dtype * nat)) : list (dtype * nat) :=
  fold_right insert_by_count [] l.

Definition value_counts (l : list dtype) : list (dtype * nat) :=
  sort_by_count (map (fun d => (d, count_dtype d l)) (distinct_dtypes l)).

Definition dtypes (df : DataFrame) : list dtype :=
  map col_dtype (df_columns df).

(** ** Records of the warehouse *)

(** An entry of [self.documents]. *)
Record doc_record : Type := {
  filename : string;
  doc_type : string;
  content : string;
  chunks : list string
}.

(** The ['type'] key of an index entry's metadata. *)
Inductive content_kind : Type := document | structured_data_kind.

(** The metadata dictionary stored with every indexed text. *)
Record metadata : Type := {
  md_source : string;
  md_type : content_kind;
  md_chunk : nat;
  md_total_chunks : nat
}.

(** A langchain [Document], as the vector store returns it. *)
Record Document : Type := {
  page_content : string;
  doc_metadata : metadata
}.

(** [self.stats].  [data_size_mb] is kept in units of [1/1024**2] MB, that
    is in bytes: every summand of the source is a byte count divided by a
    power of two, which binary floating point does exactly. *)
Record stats_t : Type := {
  total_rows : nat;
  total_documents : nat;
  total_chunks : nat;
  data_size_mb : N
}.

Definition zero_stats : stats_t :=
  {| total_rows := 0; total_documents := 0; total_chunks := 0;
     data_size_mb := 0%N |}.

(** The dictionary returned by [get_summary]; [sum_data_size_mb] is in
    hundredths of a MB, the result of [round(_, 2)]. *)
Record summary : Type := {
  sum_structured_files : nat;
  sum_total_rows : nat;
  sum_documents : nat;
  sum_chunks_indexed : nat;
  sum_data_size_mb : N;
  sum_ready : bool
}.

(** [round(bytes / 1024**2, 2)] in hundredths, halves going to the even
    neighbour. *)
Definition round2 (bytes : N) : N :=
  let scaled := (bytes * 100)%N in
  let q := (scaled / 1048576)%N in
  let r := (scaled mod 1048576)%N in
  if (2 * r <? 1048576)%N then q
  else if (1048576 <? 2 * r)%N then (q + 1)%N
  else if N.even q then q else (q + 1)%N.

(** What the user interface is told and what leaves the process. *)
Inductive event : Type :=
| st_error (msg : string)
| st_warning (msg : string)
| call_from_texts (texts : list string) (metadatas : list metadata)
| call_similarity_search (query : string) (k : nat)
| call_pandas_agent (question : string)
| call_retrieval_qa (question : string)
| call_chat_completion (system_prompt question : string).

(** The events that reach a remote service. *)
Definition is_outbound (e : event) : bool :=
  match e with
  | st_error _ | st_warning _ => false
  | _ => true
  end.

(** ** Python dictionaries

    [self.structured_data] is a [dict]: iteration follows insertion order and
    assigning to a key that is present keeps its position. *)
Fixpoint dict_set {V} (k : string) (v : V) (d : list (string * V))
  : list (string * V) :=
  match d with
  | [] => [(k, v)]
  | (k', v') :: tl =>
      if String.eqb k' k then (k, v) :: tl else (k', v') :: dict_set k v tl
  end.

Definition dict_values {V} (d : list (string * V)) : list V := map snd d.
Definition dict_keys {V} (d : list (string * V)) : list string := map fst d.

(** [d.get(k)] *)
Fixpoint dict_get {V} (k : string) (d : list (string * V)) : option V :=
  match d with
  | [] => None
  | (k', v) :: tl => if String.eqb k' k then Some v else dict_get k tl
  end.

(** ** The world outside the repository *)

(** What [docx.Document(path)] exposes: paragraph texts, and tables as rows
    of cell texts. *)
Record docx : Type := {
  paragraphs : list string;
  tables : list (list (list string))
}.

(** Files and their readers.  [PdfReader] gives, for each page, the outcome
    of [extract_text()]. *)
Class FileSystem : Type := {
  path_exists : string -> bool;
  listdir : string -> result (list string);
  read_text : string -> result string;
  PdfReader : string -> result (list (result string));
  DocxDocument : string -> result docx
}.

(** pandas: the readers, and the renderings whose value is a float or a
    layout decision of the library. *)
Class Pandas : Type := {
  read_csv : string -> result DataFrame;
  read_excel : string -> result DataFrame;
  memory_usage : DataFrame -> N;
  fmt_mean : column -> string;
  fmt_std : column -> string;
  fmt_min : column -> string;
  fmt_max : column -> string;
  to_string : DataFrame -> string
}.

(** langchain, Chroma and OpenAI.  [split_text] is the configured
    [RecursiveCharacterTextSplitter]; [from_texts] embeds and stores, and
    raises when the embedding service does; [pandas_agent] creates the agent
    over the tables and runs it; [set_order] is the order in which a [set]
    built from a list is iterated. *)
Class Services (VectorStore : Type) : Type := {
  split_text : string -> list string;
  from_texts : list string -> list metadata -> result VectorStore;
  similarity_search : VectorStore -> string -> nat -> result (list Document);
  pandas_agent : list DataFrame -> string -> result string;
  retrieval_qa : VectorStore -> string -> result (string * list Document);
  chat_completion : string -> string -> result string;
  set_order : list string -> list string
}.


(** ** The warehouse object *)

(** The fields of [self] that the methods read and write. *)
Record warehouse (VectorStore : Type) : Type := {
  structured_data : list (string * DataFrame);
  documents : list doc_record;
  vectorstore : option VectorStore;
  stats : stats_t
}.
Arguments Build_warehouse {VectorStore}.

Definition nl : string := String (ascii_of_nat 10) "".
Definition tab : string := String (ascii_of_nat 9) "".

(** ** The monad of the methods: state, exceptions and a log of events *)

Definition M (S A : Type) : Type := S -> result A * S * list event.

Definition ret {S A} (a : A) : M S A := fun w => (Ok a, w, []).

Definition bind {S A B} (m : M S A) (f : A -> M S B) : M S B :=
  fun w =>
    match m w with
    | (Ok a, w1, l1) => let '(r, w2, l2) := f a w1 in (r, w2, (l1 ++ l2)%list)
    | (Raise e, w1, l1) => (Raise e, w1, l1)
    end.

Declare Scope py_scope.
Delimit Scope py_scope with py.
Notation "x <- m ;; k" := (bind m (fun x => k))
  (at level 61, m at next level, right associativity) : py_scope.
Notation "m ;; k" := (bind m (fun _ => k))
  (at level 61, right associativity) : py_scope.
Open Scope py_scope.

Definition get {S} : M S S := fun w => (Ok w, w, []).
Definition modify {S} (f : S -> S) : M S unit := fun w => (Ok tt, f w, []).
Definition emit {S} (e : event) : M S unit := fun w => (Ok tt, w, [e]).

(** The outcome of a call into a library that touches no field of [self]. *)
Definition lift {S A} (r : result A) : M S A := fun w => (r, w, []).

(** The same for a call that reaches a remote service. *)
Definition remote {S A} (e : event) (r : result A) : M S A :=
  fun w => (r, w, [e]).

(** [try: body  except Exception as e: handler(str(e))] *)
Definition try_except {S A} (body : M S A) (handler : string -> M S A)
  : M S A :=
  fun w =>
    match body w with
    | (Ok a, w1, l1) => (Ok a, w1, l1)
    | (Raise e, w1, l1) =>
        let '(r, w2, l2) := handler e w1 in (r, w2, (l1 ++ l2)%list)
    end.

(** [for x in l: body(x)] *)
Fixpoint for_each {S A} (l : list A) (body : A -> M S unit) : M S unit :=
  match l with
  | [] => ret tt
  | x :: tl => body x ;; for_each tl body
  end.

Section DataWarehouse.

Variable VectorStore : Type.
Context {fs : FileSystem} {pd : Pandas} {sv : Services VectorStore}.

Local Notation "'state'" := (warehouse VectorStore).
Local Notation "'Method'" := (M (warehouse VectorStore)).

(** [DataWarehouse.__init__] *)
Definition __init__ : state :=
  {| structured_data := [];
     documents := [];
     vectorstore := None;
     stats := zero_stats |}.

Definition set_stats (f : stats_t -> stats_t) : Method unit :=
  modify (fun w =>
    {| structured_data := structured_data w;
       documents := documents w;
       vectorstore := vectorstore w;
       stats := f (stats w) |}).

Definition set_structured_data
  (f : list (string * DataFrame) -> list (string * DataFrame)) : Method unit :=
  modify (fun w =>
    {| structured_data := f (structured_data w);
       documents := documents w;
       vectorstore := vectorstore w;
       stats := stats w |}).

Definition set_documents (f : list doc_record -> list doc_record)
  : Method unit :=
  modify (fun w =>
    {| structured_data := structured_data w;
       documents := f (documents w);
       vectorstore := vectorstore w;
       stats := stats w |}).

Definition set_vectorstore (vs : VectorStore) : Method unit :=
  modify (fun w =>
    {| structured_data := structured_data w;
       documents := documents w;
       vectorstore := Some vs;
       stats := stats w |}).

Definition add_total_rows (n : nat) (s : stats_t) : stats_t :=
  {| total_rows := total_rows s + n;
     total_documents := total_documents s;
     total_chunks := total_chunks s;
     data_size_mb := data_size_mb s |}.

Definition add_total_documents (n : nat) (s : stats_t) : stats_t :=
  {| total_rows := total_rows s;
     total_documents := total_documents s + n;
     total_chunks := total_chunks s;
     data_size_mb := data_size_mb s |}.

Definition set_total_chunks (n : nat) (s : stats_t) : stats_t :=
  {| total_rows := total_rows s;
     total_documents := total_documents s;
     total_chunks := n;
     data_size_mb := data_size_mb s |}.

Definition add_data_size_mb (b : N) (s : stats_t) : stats_t :=
  {| total_rows := total_rows s;
     total_documents := total_documents s;
     total_chunks := total_chunks s;
     data_size_mb := (data_size_mb s + b)%N |}.

(** *** [_process_structured_data] *)

(** [self.structured_data[file] = df; self.stats['total_rows'] += len(df)] *)
Definition store_table (file : string) (df : DataFrame) : Method unit :=
  set_structured_data (dict_set file df) ;;
  set_stats (add_total_rows (df_len df)).

(** The body of the loop over [os.listdir(folder_path)]. *)
Definition load_structured_file (folder_path file : string) : Method unit :=
  if startswith file "." then ret tt
  else
    let file_path := path_join folder_path file in
    try_except
      (if endswith file ".csv" then
         df <- lift (read_csv file_path) ;; store_table file df
       else if endswith file ".xlsx" || endswith file ".xls" then
         df <- lift (read_excel file_path) ;; store_table file df
       else ret tt)
      (fun e => emit (st_warning ("Could not load " ++ file ++ ": " ++ e))).

Definition _process_structured_data (folder_path : string) : Method unit :=
  files <- lift (listdir folder_path) ;;
  for_each files (load_structured_file folder_path) ;;
  w <- get ;;
  for_each (dict_values (structured_data w))
    (fun df => set_stats (add_data_size_mb (memory_usage df))).

(** *** [_parse_pdf] and [_parse_docx] *)

(** The loop over [enumerate(pdf_reader.pages)]: the text gathered so far and
    the exception that stopped the loop, if one did. *)
Fixpoint pdf_pages (pages : list (result string)) (page_num : nat)
  (text : string) : string * option string :=
  match pages with
  | [] => (text, None)
  | Ok page_text :: tl =>
      pdf_pages tl (S page_num)
        (if nonempty page_text
         then text ++ nl ++ "--- Page " ++ str_of_nat (page_num + 1)
                   ++ " ---" ++ nl ++ page_text
         else text)
  | Raise e :: _ => (text, Some e)
  end.

(** The [try] block of [_parse_pdf]: the text it has built when it ends, and
    the exception that ended it, if one did. *)
Definition pdf_try (file_path : string) : string * option string :=
  match PdfReader file_path with
  | Raise e => ("", Some e)
  | Ok pages => pdf_pages pages 0 ""
  end.

Definition _parse_pdf (file_path : string) : Method string :=
  match pdf_try file_path with
  | (text, Some e) =>
      emit (st_error ("Error parsing PDF " ++ file_path ++ ": " ++ e)) ;;
      ret text
  | (text, None) => ret text
  end.

(** The text of a Word document: every paragraph followed by a newline, then
    every table row as tab-terminated cells followed by a newline. *)
Definition docx_text (d : docx) : string :=
  String.concat "" (map (fun p => p ++ nl) (paragraphs d))
  ++ String.concat ""
       (map (fun row => String.concat "" (map (fun cell => cell ++ tab) row)
                        ++ nl)
            (List.concat (tables d))).

(** The [try] block of [_parse_docx], read the same way. *)
Definition docx_try (file_path : string) : string * option string :=
  match DocxDocument file_path with
  | Raise e => ("", Some e)
  | Ok d => (docx_text d, None)
  end.

Definition _parse_docx (file_path : string) : Method string :=
  match docx_try file_path with
  | (text, Some e) =>
      emit (st_error ("Error parsing DOCX " ++ file_path ++ ": " ++ e)) ;;
      ret text
  | (text, None) => ret text
  end.

(** *** [_process_documents] *)

(** [if text: self.documents.append({...}); total_documents += 1] *)
Definition append_document (file kind text : string) : Method unit :=
  if nonempty text then
    set_documents (fun docs =>
      (docs ++ [{| filename := file; doc_type := kind; content := text;
                   chunks := [] |}])%list) ;;
    set_stats (add_total_documents 1)
  else ret tt.

(** The body of the loop over [os.listdir(folder_path)]. *)
Definition parse_document_file (folder_path file : string) : Method unit :=
  if startswith file "." then ret tt
  else
    let file_path := path_join folder_path file in
    try_except
      (if endswith file ".pdf" then
         text <- _parse_pdf file_path ;; append_document file "pdf" text
       else if endswith file ".docx" then
         text <- _parse_docx file_path ;; append_document file "docx" text
       else if endswith file ".txt" then
         text <- lift (read_text file_path) ;; append_document file "txt" text
       else ret tt)
      (fun e => emit (st_warning ("Could not parse " ++ file ++ ": " ++ e))).

Definition _process_documents (folder_path : string) : Method unit :=
  files <- lift (listdir folder_path) ;;
  for_each files (parse_document_file folder_path).

(** *** [_create_dataset_description] *)

(** The line of a numeric column under [Summary Statistics:]. *)
Definition stat_line (col : column) : string :=
  "  " ++ col_name col ++ ": mean=" ++ fmt_mean col ++ ", "
  ++ "std=" ++ fmt_std col ++ ", "
  ++ "min=" ++ fmt_min col ++ ", "
  ++ "max=" ++ fmt_max col.

(** The line of a dtype under [Data Types:]. *)
Definition type_line (dc : dtype * nat) : string :=
  "  " ++ dtype_str (fst dc) ++ ": " ++ str_of_nat (snd dc) ++ " columns".

(** [count/len(df)*100] *)
Definition percentage (count rows : nat) : spec_float :=
  SFmul prec emax
    (SFdiv prec emax (float_of_nat count) (float_of_nat rows))
    (float_of_nat 100).

(** The line of a column under [Missing Values:]. *)
Definition missing_line (rows : nat) (cc : string * nat) : string :=
  "  " ++ fst cc ++ ": " ++ str_of_nat (snd cc) ++ " ("
  ++ format_1f (percentage (snd cc) rows) ++ "%)".

(** [missing[missing > 0]] *)
Definition above_zero (s : list (string * nat)) : list (string * nat) :=
  filter (fun p => Nat.ltb 0 (snd p)) s.

(** The method on a table whose column labels are all strings. *)
Definition _create_dataset_description (filename : string) (df : DataFrame)
  : string :=
  let description_parts :=
    [ "Dataset: " ++ filename;
      "Shape: " ++ str_of_nat (df_len df) ++ " rows × "
      ++ str_of_nat (length (df_columns df)) ++ " columns";
      "Columns: " ++ join ", " (columns df);
      "" ] in
  let numeric := numeric_cols df in
  let description_parts :=
    if Nat.ltb 0 (length numeric)
    then (description_parts ++ ["Summary Statistics:"]
          ++ map stat_line (firstn 10 numeric))%list
    else description_parts in
  let description_parts :=
    (description_parts ++ [(nl ++ "Data Types:")%string]
     ++ map type_line (value_counts (dtypes df)))%list in
  let missing := isnull_sum df in
  let description_parts :=
    if Nat.ltb 0 (series_sum missing)
    then (description_parts ++ [(nl ++ "Missing Values:")%string]
          ++ map (missing_line (df_len df)) (above_zero missing))%list
    else description_parts in
  let description_parts :=
    (description_parts ++ [(nl ++ "Sample Data (first 3 rows):")%string]
     ++ [to_string (head 3 df)])%list in
  join nl description_parts.

(** *** [_create_vector_index] *)

(** [doc['chunks'] = self.text_splitter.split_text(doc['content'])] *)
Definition chunk_document (doc : doc_record) : doc_record :=
  {| filename := filename doc;
     doc_type := doc_type doc;
     content := content doc;
     chunks := split_text (content doc) |}.

(** The texts and metadata appended for one chunked document, by
    [enumerate(chunks)]. *)
Definition document_entries (doc : doc_record) : list (string * metadata) :=
  map (fun ic =>
         (snd ic,
          {| md_source := filename doc;
             md_type := document;
             md_chunk := fst ic;
             md_total_chunks := length (chunks doc) |}))
      (combine (seq 0 (length (chunks doc))) (chunks doc)).

(** The text and metadata appended for one table. *)
Definition table_entry (kv : string * DataFrame) : string * metadata :=
  (_create_dataset_description (fst kv) (snd kv),
   {| md_source := fst kv;
      md_type := structured_data_kind;
      md_chunk := 0;
      md_total_chunks := 1 |}).

(** [all_texts] zipped with [all_metadatas], for chunked documents [docs]. *)
Definition index_entries (docs : list doc_record)
  (tables_ : list (string * DataFrame)) : list (string * metadata) :=
  (flat_map document_entries docs ++ map table_entry tables_)%list.

Definition _create_vector_index : Method unit :=
  set_documents (map chunk_document) ;;
  w <- get ;;
  let entries := index_entries (documents w) (structured_data w) in
  let all_texts := map fst entries in
  let all_metadatas := map snd entries in
  match all_texts with
  | [] => ret tt
  | _ :: _ =>
      try_except
        (vs <- remote (call_from_texts all_texts all_metadatas)
                 (from_texts all_texts all_metadatas) ;;
         set_vectorstore vs ;;
         set_stats (set_total_chunks (length all_texts)))
        (fun e => emit (st_error ("Error creating vector store: " ++ e)))
  end.

(** *** [get_summary] and [process_all_data] *)

Definition get_summary : Method summary :=
  w <- get ;;
  ret {| sum_structured_files := length (structured_data w);
         sum_total_rows := total_rows (stats w);
         sum_documents := total_documents (stats w);
         sum_chunks_indexed := total_chunks (stats w);
         sum_data_size_mb := round2 (data_size_mb (stats w));
         sum_ready := match vectorstore w with
                      | Some _ => true
                      | None => false
                      end |}.

Definition process_all_data (folder_path : string) : Method (option summary) :=
  if negb (path_exists folder_path) then
    emit (st_error ("Folder " ++ folder_path ++ " does not exist!")) ;;
    ret None
  else
    set_stats (fun _ => zero_stats) ;;
    _process_structured_data folder_path ;;
    _process_documents folder_path ;;
    _create_vector_index ;;
    s <- get_summary ;;
    ret (Some s).

(** *** [search] *)

Definition search (query : string) (k : nat) : Method (list Document) :=
  w <- get ;;
  match vectorstore w with
  | None => ret []
  | Some vs =>
      try_except
        (remote (call_similarity_search query k)
           (similarity_search vs query k))
        (fun e => emit (st_error ("Search error: " ++ e)) ;; ret [])
  end.

(** *** [ask_structured_data] *)

Definition ask_structured_data (question : string) : Method string :=
  w <- get ;;
  match structured_data w with
  | [] => ret "No structured data loaded."
  | _ :: _ =>
      let dfs := dict_values (structured_data w) in
      try_except
        (remote (call_pandas_agent question) (pandas_agent dfs question))
        (fun e => ret ("Error analyzing structured data: " ++ e))
  end.

(** *** [ask_documents] *)

Definition sources_prefix : string := nl ++ nl ++ "📄 **Sources:** ".

Definition ask_documents (question : string) : Method string :=
  w <- get ;;
  match vectorstore w with
  | None => ret "No documents indexed."
  | Some vs =>
      try_except
        (result <- remote (call_retrieval_qa question)
                     (retrieval_qa vs question) ;;
         let answer := fst result in
         let sources :=
           set_order (map (fun doc => md_source (doc_metadata doc))
                          (snd result)) in
         match sources with
         | [] => ret answer
         | _ :: _ => ret (answer ++ sources_prefix ++ join ", " sources)
         end)
        (fun e => ret ("Error searching documents: " ++ e))
  end.

(** *** [get_structured_data_summary] and [ask_unified] *)

Definition ellipsis {A} (l : list A) : string :=
  if Nat.ltb 5 (length l) then "..." else "".

(** The lines of one table whose labels are strings; [Labelled] below has
    the tables of other labels. *)
Definition table_summary (kv : string * DataFrame) : string :=
  let name := fst kv in
  let df := snd kv in
  let numeric := map col_name (numeric_cols df) in
  "**" ++ name ++ "**: " ++ str_of_nat (df_len df) ++ " rows, "
  ++ str_of_nat (length (df_columns df)) ++ " columns" ++ nl
  ++ "  Columns: " ++ join ", " (firstn 5 (columns df))
  ++ ellipsis (columns df) ++ nl
  ++ "  Numeric fields: " ++ join ", " (firstn 5 numeric) ++ ellipsis numeric.

Definition get_structured_data_summary (w : state) : string :=
  match structured_data w with
  | [] => "No structured data loaded."
  | _ :: _ => join nl (map table_summary (structured_data w))
  end.

Definition system_prompt (full_context : string) : string :=
  "You are a private equity analyst with access to company data and documents."
  ++ nl ++ nl ++ "Based on this context:" ++ nl ++ full_context ++ nl ++ nl
  ++ "Provide specific, quantitative answers when possible. Cite sources when available.".

(** Step 1 of [ask_unified]: what the document search adds to
    [context_parts]. *)
Definition document_context (question : string) : Method (list string) :=
  w <- get ;;
  match vectorstore w with
  | None => ret []
  | Some _ =>
      try_except
        (relevant_docs <- search question 3 ;;
         match relevant_docs with
         | [] => ret []
         | _ :: _ =>
             let doc_context :=
               join nl (map (fun doc => take 500 (page_content doc))
                            relevant_docs) in
             ret ["**Relevant document excerpts:**" ++ nl ++ doc_context]
         end)
        (fun e => emit (st_warning ("Document search error: " ++ e)) ;;
                  ret [])
  end.

(** Step 2 of [ask_unified]: what the loaded tables add. *)
Definition dataset_context (w : state) : list string :=
  match structured_data w with
  | [] => []
  | _ :: _ => ["**Available datasets:**" ++ nl ++ get_structured_data_summary w]
  end.

Definition no_data_message : string :=
  "No data available to answer this question.".

Definition ask_unified (question : string) : Method string :=
  from_documents <- document_context question ;;
  w <- get ;;
  let context_parts := (from_documents ++ dataset_context w)%list in
  match context_parts with
  | [] => ret no_data_message
  | _ :: _ =>
      let full_context := join (nl ++ nl) context_parts in
      try_except
        (remote (call_chat_completion (system_prompt full_context) question)
           (chat_completion (system_prompt full_context) question))
        (fun e => ret ("Error generating response: " ++ e))
  end.

End DataWarehouse.

Arguments chunk_document {VectorStore sv} doc.

(** ** The two describers on tables with labels of any type

    The first thing [_create_dataset_description] evaluates that can fail is
    [', '.join(df.columns.tolist())].  Every other use of a label is a
    replacement field of an f-string, which formats any object; so a table
    that gets past the [join] has string labels only, and the rest of the
    method runs as [_create_dataset_description] above describes it.  The
    labels of a table are taken to be distinct, as [read_csv] and
    [read_excel] make them by renaming a header that occurs twice.

    [get_structured_data_summary] joins the first five labels of a table and
    then the labels of its first five numeric columns, table after table; the
    first [join] that meets a label that is not a [str] ends the call. *)
Module Labelled.

Definition _create_dataset_description {pd : Pandas} (filename : string)
  (df : labelled_frame) : result string :=
  match str_items 0 (labels df) with
  | Raise e => Raise e
  | Ok names => Ok (_create_dataset_description filename (with_names names df))
  end.

Definition table_summary (kv : string * labelled_frame) : result string :=
  let name := fst kv in
  let df := snd kv in
  let numeric :=
    map lc_label
        (filter (fun c => is_number (lc_dtype c)) (lf_columns df)) in
  match str_items 0 (firstn 5 (labels df)) with
  | Raise e => Raise e
  | Ok shown =>
      match str_items 0 (firstn 5 numeric) with
      | Raise e => Raise e
      | Ok fields =>
          Ok ("**" ++ name ++ "**: " ++ str_of_nat (lf_len df) ++ " rows, "
              ++ str_of_nat (length (lf_columns df)) ++ " columns" ++ nl
              ++ "  Columns: " ++ join ", " shown
              ++ ellipsis (labels df) ++ nl
              ++ "  Numeric fields: " ++ join ", " fields
              ++ ellipsis numeric)
      end
  end.

Fixpoint summaries (tables : list (string * labelled_frame))
  : result (list string) :=
  match tables with
  | [] => Ok []
  | kv :: tl =>
      match table_summary kv with
      | Raise e => Raise e
      | Ok text =>
          match summaries tl with
          | Raise e => Raise e
          | Ok texts => Ok (text :: texts)
          end
      end
  end.

Definition get_structured_data_summary
  (tables : list (string * labelled_frame)) : result string :=
  match tables with
  | [] => Ok "No structured data loaded."
  | _ :: _ =>
      match summaries tables with
      | Raise e => Raise e
      | Ok texts => Ok (join nl texts)
      end
  end.

End Labelled.

(** ** Reading the outcome of a method call *)

Definition value {S A} (x : result A * S * list event) : result A :=
  fst (fst x).
Definition final {S A} (x : result A * S * list event) : S := snd (fst x).
Definition trace {S A} (x : result A * S * list event) : list event := snd x.

(** ** What a directory entry contributes

    The loop bodies of the two passes, run on a warehouse that holds
    nothing: the table, respectively the document record, that an entry of
    the folder yields, if it yields one. *)
Section Contributions.

Context {fs : FileSystem} {pd : Pandas}.

Definition new_table (folder_path file : string) : option DataFrame :=
  option_map snd
    (hd_error
       (structured_data
          (final (load_structured_file folder_path file (__init__ unit))))).

Definition new_document (folder_path file : string) : option doc_record :=
  hd_error
    (documents
       (final (parse_document_file folder_path file (__init__ unit)))).

End Contributions.

(** The warehouse after [store_table]. *)
Definition with_table {VS} (file : string) (t : option DataFrame)
  (w : warehouse VS) : warehouse VS :=
  match t with
  | None => w
  | Some df =>
      {| structured_data := dict_set file df (structured_data w);
         documents := documents w;
         vectorstore := vectorstore w;
         stats := add_total_rows (df_len df) (stats w) |}
  end.

(** The warehouse after [append_document] of a non-empty text. *)
Definition with_document {VS} (d : option doc_record) (w : warehouse VS)
  : warehouse VS :=
  match d with
  | None => w
  | Some doc =>
      {| structured_data := structured_data w;
         documents := (documents w ++ [doc])%list;
         vectorstore := vectorstore w;
         stats := add_total_documents 1 (stats w) |}
  end.

(** The warehouse after the reset of [self.stats]. *)
Definition reset {VS} (w : warehouse VS) : warehouse VS :=
  {| structured_data := structured_data w;
     documents := documents w;
     vectorstore := vectorstore w;
     stats := zero_stats |}.

(** The warehouse after the loop that adds up the size of every table. *)
Definition sized {pd : Pandas} {VS} (w : warehouse VS) : warehouse VS :=
  fold_left
    (fun s df =>
       {| structured_data := structured_data s;
          documents := documents s;
          vectorstore := vectorstore s;
          stats := add_data_size_mb (memory_usage df) (stats s) |})
    (dict_values (structured_data w)) w.

(** The warehouse after the loops of the two passes over [files]. *)
Definition tables_pass {fs : FileSystem} {pd : Pandas} {VS}
  (folder_path : string) (files : list string) (w : warehouse VS)
  : warehouse VS :=
  fold_left (fun s file => with_table file (new_table folder_path file) s)
            files w.

Definition documents_pass {fs : FileSystem} {VS}
  (folder_path : string) (files : list string) (w : warehouse VS)
  : warehouse VS :=
  fold_left (fun s file => with_document (new_document folder_path file) s)
            files w.

(** The warehouse after every document has been chunked. *)
Definition chunked {VS} {sv : Services VS} (w : warehouse VS)
  : warehouse VS :=
  {| structured_data := structured_data w;
     documents := map chunk_document (documents w);
     vectorstore := vectorstore w;
     stats := stats w |}.

(** The warehouse after a successful [Chroma.from_texts] over [n] texts. *)
Definition indexed {VS} (vs : VS) (n : nat) (w : warehouse VS)
  : warehouse VS :=
  {| structured_data := structured_data w;
     documents := documents w;
     vectorstore := Some vs;
     stats := set_total_chunks n (stats w) |}.

(** [all_texts] zipped with [all_metadatas], as [_create_vector_index]
    builds them from a warehouse. *)
Definition submitted {pd : Pandas} {VS} {sv : Services VS} (w : warehouse VS)
  : list (string * metadata) :=
  index_entries (documents (chunked w)) (structured_data w).

(** The records the document pass appends for the entries [files]. *)
Definition folder_documents {fs : FileSystem} (folder_path : string)
  (files : list string) : list doc_record :=
  flat_map (fun file => match new_document folder_path file with
                        | Some doc => [doc]
                        | None => []
                        end) files.

(** [self.structured_data] after the structured pass over [files]. *)
Definition load_tables {fs : FileSystem} {pd : Pandas} (folder_path : string)
  (files : list string) (d : list (string * DataFrame))
  : list (string * DataFrame) :=
  fold_left (fun acc file => match new_table folder_path file with
                             | Some df => dict_set file df acc
                             | None => acc
                             end) files d.

(** The rows the structured pass counts over [files]. *)
Definition folder_rows {fs : FileSystem} {pd : Pandas} (folder_path : string)
  (files : list string) : nat :=
  fold_right (fun file acc => match new_table folder_path file with
                              | Some df => df_len df + acc
                              | None => acc
                              end) 0 files.

(** The size, in bytes, of the tables of a dictionary. *)
Definition tables_size {pd : Pandas} (d : list (string * DataFrame)) : N :=
  fold_right (fun df acc => (memory_usage df + acc)%N) 0%N (dict_values d).

(** The number of chunks the splitter makes of a list of documents. *)
Definition chunk_count {VS} {sv : Services VS} (docs : list doc_record)
  : nat :=
  length (flat_map (fun d => split_text (content d)) docs).

(** A document file from which no text comes out: the parser of its kind
    ends with the empty text. *)
Definition parses_to_empty_text {fs : FileSystem} (folder_path file : string)
  : Prop :=
  (endswith file ".pdf" = true
   /\ fst (pdf_try (path_join folder_path file)) = "")
  \/ (endswith file ".docx" = true
      /\ fst (docx_try (path_join folder_path file)) = "")
  \/ (endswith file ".txt" = true
      /\ read_text (path_join folder_path file) = Ok "").

(** The dictionary [get_summary] builds from a warehouse. *)
Definition summary_of {VS} (w : warehouse VS) : summary :=
  {| sum_structured_files := length (structured_data w);
     sum_total_rows := total_rows (stats w);
     sum_documents := total_documents (stats w);
     sum_chunks_indexed := total_chunks (stats w);
     sum_data_size_mb := round2 (data_size_mb (stats w));
     sum_ready := match vectorstore w with
                  | Some _ => true
                  | None => false
                  end |}.

(** An event that stays inside the process. *)
Definition quiet (e : event) : Prop := is_outbound e = false.

(** The ['source'] of each retrieved chunk. *)
Definition sources_of (docs : list Document) : list string :=
  map (fun doc => md_source (doc_metadata doc)) docs.

(** A call that ends an operation outright: it raises, or it returns [None]
    where a summary was expected. *)
Definition fatal (r : result (option summary)) : Prop :=
  match r with
  | Ok (Some _) => False
  | Ok None => True
  | Raise _ => True
  end.

(** ** A small world to run the methods in

    Two folders: [data] holds a text file, an empty text file, a hidden file
    and a table with one missing cell; [empty] holds nothing.  The services
    are either all up or all down.  The splitter of this world returns a
    non-empty text as a single chunk. *)
Module Example.

Definition sales : DataFrame :=
  {| df_columns :=
       [ {| col_name := "region"; col_dtype := object_;
            col_cells := [Some "north"; Some "south"] |};
         {| col_name := "units"; col_dtype := int64;
            col_cells := [Some "3"; None] |} ];
     df_len := 2 |}.

#[local] Instance files : FileSystem :=
  {| path_exists p := String.eqb p "data" || String.eqb p "empty";
     listdir p :=
       if String.eqb p "data"
       then Ok ["notes.txt"; "blank.txt"; ".hidden.txt"; "sales.csv"]
       else if String.eqb p "empty" then Ok []
       else Raise "No such file or directory";
     read_text p :=
       if String.eqb p "data/notes.txt" then Ok "quarterly revenue grew"
       else if String.eqb p "data/blank.txt" then Ok ""
       else Raise "No such file or directory";
     PdfReader _ := Raise "EOF marker not found";
     DocxDocument _ := Raise "Package not found" |}.

#[local] Instance pandas : Pandas :=
  {| read_csv p :=
       if String.eqb p "data/sales.csv" then Ok sales
       else Raise "No such file or directory";
     read_excel _ := Raise "No such file or directory";
     memory_usage _ := 3145728%N;
     fmt_mean _ := "3.00";
     fmt_std _ := "nan";
     fmt_min _ := "3.00";
     fmt_max _ := "3.00";
     to_string _ := "  region  units" |}.

Definition store : Type := list (string * metadata).

Definition as_documents (vs : store) : list Document :=
  map (fun e => {| page_content := fst e; doc_metadata := snd e |}) vs.

Definition down {A} : result A := Raise "Connection error.".

#[local] Instance services (up : bool) : Services store :=
  {| split_text s := if nonempty s then [s] else [];
     from_texts texts metadatas :=
       if up then Ok (combine texts metadatas) else down;
     similarity_search vs _ k :=
       if up then Ok (firstn k (as_documents vs)) else down;
     pandas_agent _ _ := if up then Ok "2 rows" else down;
     retrieval_qa vs _ :=
       if up then Ok ("Revenue grew.", firstn 5 (as_documents vs)) else down;
     chat_completion _ _ := if up then Ok "Revenue grew." else down;
     set_order := nodup string_dec |}.

(** A warehouse that has ingested [data] with the services up. *)
Definition loaded : warehouse store :=
  final (@process_all_data _ files pandas (services true) "data"
           (__init__ store)).

(** An index holding two chunks of one file, and a warehouse over it. *)
Definition memo_store : store :=
  [ ("a", {| md_source := "memo.pdf"; md_type := document;
             md_chunk := 0; md_total_chunks := 2 |});
    ("b", {| md_source := "memo.pdf"; md_type := document;
             md_chunk := 1; md_total_chunks := 2 |}) ].

Definition memo_indexed : warehouse store :=
  {| structured_data := [];
     documents := [];
     vectorstore := Some memo_store;
     stats := zero_stats |}.

End Example.


(** ** A second world: a folder of documents

    [docs] holds a PDF of five pages, the second without text and the
    fourth unreadable, and a Word document whose only paragraph is blank;
    [report.txt] exists but is a file, not a folder. *)
Module Scenes.

Definition memo_pages : list (result string) :=
  [Ok "Intro"; Ok ""; Ok "Terms"; Raise "bad page"; Ok "Annex"].

Definition blank_docx : docx := {| paragraphs := [""]; tables := [] |}.

#[local] Instance files : FileSystem :=
  {| path_exists p := String.eqb p "docs" || String.eqb p "report.txt";
     listdir p :=
       if String.eqb p "docs" then Ok ["memo.pdf"; "blank.docx"]
       else Raise "Not a directory";
     read_text _ := Raise "No such file or directory";
     PdfReader p :=
       if String.eqb p "docs/memo.pdf" then Ok memo_pages
       else Raise "EOF marker not found";
     DocxDocument p :=
       if String.eqb p "docs/blank.docx" then Ok blank_docx
       else Raise "Package not found" |}.

End Scenes.

(** ** A third world: two workbooks

    [funds.xlsx] has the header cells [fund], [irr] and [vintage] and three
    rows, the second without an [irr].  The header row of [revenue.xlsx]
    reads [company], [2021], [2022]: [read_excel] labels its second and third
    column with the integers 2021 and 2022. *)
Module Workbooks.

Definition funds : DataFrame :=
  {| df_columns :=
       [ {| col_name := "fund"; col_dtype := object_;
            col_cells := [Some "Alpha"; Some "Beta"; Some "Gamma"] |};
         {| col_name := "irr"; col_dtype := float64;
            col_cells := [Some "0.1"; None; Some "0.2"] |};
         {| col_name := "vintage"; col_dtype := int64;
            col_cells := [Some "2019"; Some "2020"; Some "2021"] |} ];
     df_len := 3 |}.

Definition revenue : labelled_frame :=
  {| lf_columns :=
       [ {| lc_label := str_label "company"; lc_dtype := object_;
            lc_cells := [Some "Acme"; Some "Borg"] |};
         {| lc_label := int_label 2021; lc_dtype := float64;
            lc_cells := [Some "1.5"; Some "2.5"] |};
         {| lc_label := int_label 2022; lc_dtype := float64;
            lc_cells := [Some "1.8"; None] |} ];
     lf_len := 2 |}.

Definition funds_head : string :=
  "    fund  irr  vintage" ++ nl
  ++ "0  Alpha  0.1     2019" ++ nl
  ++ "1   Beta  NaN     2020" ++ nl
  ++ "2  Gamma  0.2     2021".

#[local] Instance pandas : Pandas :=
  {| read_csv _ := Raise "No such file or directory";
     read_excel p :=
       if String.eqb p "books/funds.xlsx" then Ok funds
       else Raise "No such file or directory";
     memory_usage _ := 561%N;
     fmt_mean c := if String.eqb (col_name c) "irr" then "0.15" else "2020.00";
     fmt_std c := if String.eqb (col_name c) "irr" then "0.07" else "1.00";
     fmt_min c := if String.eqb (col_name c) "irr" then "0.10" else "2019.00";
     fmt_max c := if String.eqb (col_name c) "irr" then "0.20" else "2021.00";
     to_string _ := funds_head |}.

(** The description of [funds.xlsx], line by line. *)
Definition funds_description : string :=
  join nl
    [ "Dataset: funds.xlsx";
      "Shape: 3 rows × 3 columns";
      "Columns: fund, irr, vintage";
      "";
      "Summary Statistics:";
      "  irr: mean=0.15, std=0.07, min=0.10, max=0.20";
      "  vintage: mean=2020.00, std=1.00, min=2019.00, max=2021.00";
      "";
      "Data Types:";
      "  object: 1 columns";
      "  float64: 1 columns";
      "  int64: 1 columns";
      "";
      "Missing Values:";
      "  irr: 1 (33.3%)";
      "";
      "Sample Data (first 3 rows):";
      funds_head ].

End Workbooks.

(** ** A fourth world: a folder that changes

    [inbox] holds [memo.txt] and [scan.pdf].  The scan cannot be opened as a
    PDF.  The memo has a text on the first day and is empty on the second. *)
Module Inbox.

#[local] Instance first_day : FileSystem :=
  {| path_exists p := String.eqb p "inbox";
     listdir p :=
       if String.eqb p "inbox" then Ok ["memo.txt"; "scan.pdf"]
       else Raise "No such file or directory";
     read_text p :=
       if String.eqb p "inbox/memo.txt" then Ok "call the bank"
       else Raise "No such file or directory";
     PdfReader _ := Raise "EOF marker not found";
     DocxDocument _ := Raise "Package not found" |}.

#[local] Instance second_day : FileSystem :=
  {| path_exists p := String.eqb p "inbox";
     listdir p :=
       if String.eqb p "inbox" then Ok ["memo.txt"; "scan.pdf"]
       else Raise "No such file or directory";
     read_text p :=
       if String.eqb p "inbox/memo.txt" then Ok ""
       else Raise "No such file or directory";
     PdfReader _ := Raise "EOF marker not found";
     DocxDocument _ := Raise "Package not found" |}.

(** The warehouse after the ingestion of the first day. *)
Definition ingested : warehouse Example.store :=
  final (@process_all_data _ first_day Example.pandas (Example.services true)
           "inbox" (__init__ Example.store)).

End Inbox.

(** ** Warehouses of a session

    The warehouses a session can hold: the one [__init__] builds, and the
    one any call of [process_all_data] leaves behind, whatever the folder
    and whatever the world does during that call. *)
Inductive reachable {VS : Type} : warehouse VS -> Prop :=
| reach_init : reachable (__init__ VS)
| reach_ingest (fs : FileSystem) (pd : Pandas) (sv : Services VS)
    (folder_path : string) (w : warehouse VS) :
    reachable w ->
    reachable (final (@process_all_data VS fs pd sv folder_path w)).

(** The extension of a table file, and the extension and ['type'] of a
    document record. *)
Definition table_name (file : string) : Prop :=
  startswith file "." = false
  /\ (endswith file ".csv" = true
      \/ endswith file ".xlsx" = true
      \/ endswith file ".xls" = true).

Definition document_name (file kind : string) : Prop :=
  startswith file "." = false
  /\ ((kind = "pdf" /\ endswith file ".pdf" = true)
      \/ (kind = "docx" /\ endswith file ".docx" = true)
      \/ (kind = "txt" /\ endswith file ".txt" = true)).

(** The outbound events of a log. *)
Definition outbound (log : list event) : list event :=
  filter is_outbound log.

(** The summary of a warehouse that holds nothing. *)
Definition empty_summary : summary :=
  {| sum_structured_files := 0; sum_total_rows := 0; sum_documents := 0;
     sum_chunks_indexed := 0; sum_data_size_mb := 0; sum_ready := false |}.

(** What [_parse_pdf] appends for the page at position [page_num], from 0,
    whose extracted text is [page_text]. *)
Definition page_block (page_num : nat) (page_text : string) : string :=
  if nonempty page_text
  then nl ++ "--- Page " ++ str_of_nat (page_num + 1) ++ " ---" ++ nl
          ++ page_text
  else "".

(** [enumerate(l)] *)
Definition enumerate {A} (l : list A) : list (nat * A) :=
  combine (seq 0 (length l)) l.

(** ** Identifiers of the sample data

    [create_sample_data] names its 500 sample companies by position; the
    ticker of the company at position [i] is
    [chr(65+i%26)], [chr(65+(i//26)%26)], [chr(65+(i//676)%26)]. *)
Definition letter (n : nat) : ascii := ascii_of_nat (65 + n).

Definition ticker (i : nat) : string :=
  String (letter (i mod 26))
    (String (letter ((i / 26) mod 26))
       (String (letter ((i / 676) mod 26)) "")).

(** The ['Ticker'] column: one ticker for every [i] in [range(500)]. *)
Definition tickers : list string := map ticker (seq 0 500).

(** * Properties *)

Unset Implicit Arguments.

Section Queries.

Variable VectorStore : Type.
Context {sv : Services VectorStore}.

Local Notation "'state'" := (warehouse VectorStore).

(** ** Retrieval *)

Lemma search_without_index (query : string) (k : nat) (w : state) :
  vectorstore w = None -> search query k w = (Ok [], w, []).
Proof.
  intros Hno. unfold search, bind, get. now rewrite Hno.
Qed.

Lemma search_when_backend_raises (query : string) (k : nat) (w : state)
  (vs : VectorStore) (e : string) :
  vectorstore w = Some vs ->
  similarity_search vs query k = Raise e ->
  search query k w =
    (Ok [], w, [call_similarity_search query k;
                st_error ("Search error: " ++ e)]).
Proof.
  intros Hvs Hraise. unfold search, bind, get. rewrite Hvs. cbn.
  unfold try_except, remote. now rewrite Hraise.
Qed.

Lemma search_returns (query : string) (k : nat) (w : state) :
  exists docs log, search query k w = (Ok docs, w, log).
Proof.
  unfold search, bind, get. destruct (vectorstore w) as [vs|]; cbn.
  - unfold try_except, remote.
    destruct (similarity_search vs query k) as [docs|e]; cbn; eauto.
  - eauto.
Qed.

(** C5. [search] answers with the empty list, and does not raise, when no
    index exists and when the similarity search of the vector store raises;
    in no case does it raise or change the warehouse. *)
Theorem search_degrades_to_empty (query : string) (k : nat) (w : state) :
  (vectorstore w = None -> search query k w = (Ok [], w, []))
  /\ (forall vs e,
        vectorstore w = Some vs ->
        similarity_search vs query k = Raise e ->
        value (search query k w) = Ok []
        /\ final (search query k w) = w
        /\ trace (search query k w) =
             [call_similarity_search query k;
              st_error ("Search error: " ++ e)])
  /\ (exists docs, value (search query k w) = Ok docs).
Proof.
  split; [apply search_without_index|]. split.
  - intros vs e Hvs Hraise.
    now rewrite (search_when_backend_raises query k w vs e Hvs Hraise).
  - destruct (search_returns query k w) as (docs & log & H).
    exists docs. now rewrite H.
Qed.

(** ** Tabular reasoner *)

Lemma ask_structured_data_returns (question : string) (w : state) :
  exists text log, ask_structured_data question w = (Ok text, w, log).
Proof.
  unfold ask_structured_data, bind, get.
  destruct (structured_data w) as [|kv tl]; cbn; eauto.
  unfold try_except, remote.
  destruct (pandas_agent _ question) as [text|e]; cbn; eauto.
Qed.

(** C8. Without tables [ask_structured_data] returns the fixed message and
    the agent is not invoked; with tables, a failure of the agent comes back
    as the text of an error message; every call returns text. *)
Theorem ask_structured_data_always_text (question : string) (w : state) :
  (structured_data w = [] ->
   ask_structured_data question w = (Ok "No structured data loaded.", w, []))
  /\ (forall e,
        structured_data w <> [] ->
        pandas_agent (dict_values (structured_data w)) question = Raise e ->
        value (ask_structured_data question w) =
          Ok ("Error analyzing structured data: " ++ e))
  /\ (exists text, value (ask_structured_data question w) = Ok text).
Proof.
  split; [|split].
  - intros Hnone. unfold ask_structured_data, bind, get. now rewrite Hnone.
  - intros e Hsome Hraise. unfold ask_structured_data, bind, get.
    destruct (structured_data w) as [|kv tl] eqn:E; [contradiction|].
    cbn in Hraise |- *. unfold try_except, remote. now rewrite Hraise.
  - destruct (ask_structured_data_returns question w) as (text & log & H).
    exists text. now rewrite H.
Qed.

(** ** Fusion answerer *)

(** C4. With no vector index and no table, [ask_unified] returns the fixed
    no-data message and its log is empty: no search, no chat completion, no
    other call leaves the process. *)
Theorem ask_unified_without_data (question : string) (w : state) :
  vectorstore w = None ->
  structured_data w = [] ->
  ask_unified question w =
    (Ok "No data available to answer this question.", w, []).
Proof.
  intros Hvs Hsd.
  unfold ask_unified, document_context, dataset_context, bind, get.
  rewrite Hvs. cbn. now rewrite Hsd.
Qed.

(** ** Source attribution *)


End Queries.

(** ** Floats

    Division and multiplication of binary64 numbers round the exact result
    to 53 bits; the percentage of a dataset description is two such
    operations followed by the rounding of [.1f]. *)
Section Floats.

Local Open Scope Z_scope.

(** The number of binary digits of a positive number. *)
Lemma digits2_pos_bounds (p : positive) :
  2 ^ (Zpos (digits2_pos p) - 1) <= Zpos p < 2 ^ Zpos (digits2_pos p).
Proof.
  induction p as [p IH|p IH|]; cbn [digits2_pos].
  - rewrite Pos2Z.inj_succ.
    replace (Z.succ (Zpos (digits2_pos p)) - 1)
      with (Z.succ (Zpos (digits2_pos p) - 1)) by lia.
    rewrite !Z.pow_succ_r by lia. lia.
  - rewrite Pos2Z.inj_succ.
    replace (Z.succ (Zpos (digits2_pos p)) - 1)
      with (Z.succ (Zpos (digits2_pos p) - 1)) by lia.
    rewrite !Z.pow_succ_r by lia. lia.
  - cbn. lia.
Qed.

Lemma Zdigits2_unique (z n : Z) :
  0 < n -> 2 ^ (n - 1) <= z < 2 ^ n -> Zdigits2 z = n.
Proof.
  intros Hn [Hlo Hhi].
  assert (0 < z) by (pose proof (Z.pow_pos_nonneg 2 (n - 1)); lia).
  destruct z as [|p|p]; try lia. cbn [Zdigits2].
  pose proof (digits2_pos_bounds p) as [Hl Hh].
  set (d := Zpos (digits2_pos p)) in *.
  assert (0 < d) by (unfold d; lia).
  destruct (Z.lt_trichotomy d n) as [Hlt|[Heq|Hgt]]; [|exact Heq|].
  - exfalso.
    assert (2 ^ d <= 2 ^ (n - 1)) by (apply Z.pow_le_mono_r; lia). lia.
  - exfalso.
    assert (2 ^ n <= 2 ^ (d - 1)) by (apply Z.pow_le_mono_r; lia). lia.
Qed.

Lemma loc_of_located (m : Z) (l : location) :
  loc_of_shr_record (shr_record_of_loc m l) = l.
Proof. destruct l as [|[| |]]; reflexivity. Qed.

Lemma shr_m_located (m : Z) (l : location) :
  shr_m (shr_record_of_loc m l) = m.
Proof. destruct l as [|[| |]]; reflexivity. Qed.

(** One step of the shift to the right: the mantissa is halved, the bit
    that falls off becomes the round bit and the sticky bit absorbs the old
    round bit. *)
Lemma shr_1_halves (m : Z) (r s : bool) :
  0 <= m ->
  shr_1 {| shr_m := m; shr_r := r; shr_s := s |} =
    {| shr_m := m / 2; shr_r := Z.odd m; shr_s := r || s |}.
Proof.
  intro Hm. rewrite <- Z.div2_div.
  destruct m as [|[p|p|]|p]; try lia; reflexivity.
Qed.

Lemma locate_twice (N D : Z) :
  0 <= N -> 0 < D ->
  N / (2 * D) = N / D / 2
  /\ locate N (2 * D) =
       if Z.odd (N / D)
       then loc_Inexact (if N mod D =? 0 then Eq else Gt)
       else if N mod D =? 0 then loc_Exact else loc_Inexact Lt.
Proof.
  intros HN HD.
  pose proof (Z.div_mod N D ltac:(lia)) as Hdm.
  pose proof (Z.mod_pos_bound N D HD) as Hr.
  set (q := N / D) in *. set (r := N mod D) in *.
  pose proof (Z.div_mod q 2 ltac:(lia)) as Hdm2.
  pose proof (Z.mod_pos_bound q 2 ltac:(lia)) as Hr2.
  assert (Hq2 : N / (2 * D) = q / 2)
    by (unfold q; rewrite Z.mul_comm; now rewrite Z.div_div by lia).
  assert (Hm2 : N mod (2 * D) = (q mod 2) * D + r).
  { symmetry. apply Z.mod_unique_pos with (q := q / 2); [nia|].
    rewrite Hdm at 1. nia. }
  split; [exact Hq2|].
  unfold locate. rewrite Hm2.
  rewrite Zodd_mod.
  destruct (Z.eqb_spec (q mod 2) 1) as [E|E];
    destruct (Z.eqb_spec r 0) as [Er|Er];
    destruct (Z.eqb_spec (q mod 2 * D + r) 0) as [E0|E0]; try nia;
    try reflexivity; f_equal;
    destruct (Z.compare_spec (2 * (q mod 2 * D + r)) (2 * D)); try nia;
    reflexivity.
Qed.

(** A step of the shift locates the same quotient at twice the scale. *)
Lemma shr_1_located (N D : Z) :
  0 <= N -> 0 < D -> shr_1 (located N D) = located N (2 * D).
Proof.
  intros HN HD. unfold located.
  destruct (locate_twice N D HN HD) as [-> ->].
  pose proof (Z.div_pos N D HN HD) as Hq.
  unfold locate at 1.
  destruct (N mod D =? 0);
    [|destruct (2 * (N mod D) ?= D)];
    cbn [shr_record_of_loc]; rewrite shr_1_halves by exact Hq;
    destruct (Z.odd (N / D)); reflexivity.
Qed.

Lemma iter_pos_commute {A} (f : A -> A) (p : positive) (x : A) :
  iter_pos f p (f x) = f (iter_pos f p x).
Proof.
  revert x. induction p as [p IH|p IH|]; intro x; cbn [iter_pos].
  - now rewrite !IH.
  - now rewrite !IH.
  - reflexivity.
Qed.

Lemma iter_pos_succ {A} (f : A -> A) (p : positive) (x : A) :
  iter_pos f (Pos.succ p) x = f (iter_pos f p x).
Proof.
  revert x. induction p as [p IH|p IH|]; intro x; cbn [iter_pos Pos.succ].
  - rewrite !IH. now rewrite !iter_pos_commute.
  - now rewrite !iter_pos_commute.
  - reflexivity.
Qed.

Lemma iter_shr_1_located (N D : Z) (p : positive) :
  0 <= N -> 0 < D ->
  iter_pos shr_1 p (located N D) = located N (D * 2 ^ Zpos p).
Proof.
  intros HN HD. induction p as [|p IH] using Pos.peano_ind.
  - cbn [iter_pos]. rewrite shr_1_located by assumption.
    f_equal. rewrite Z.pow_1_r. lia.
  - rewrite iter_pos_succ, IH, shr_1_located; try assumption.
    + f_equal. rewrite Pos2Z.inj_succ, Z.pow_succ_r by lia. lia.
    + pose proof (Z.pow_pos_nonneg 2 (Zpos p)). nia.
Qed.

(** Rounding a located quotient gives an integer nearest to it. *)
Lemma round_nearest_even_located (N D : Z) :
  0 <= N -> 0 < D ->
  let R := round_nearest_even (N / D) (locate N D) in
  2 * Z.abs (R * D - N) <= D /\ N / D <= R <= N / D + 1.
Proof.
  intros HN HD. cbv zeta. unfold locate.
  pose proof (Z.div_mod N D ltac:(lia)) as Hdm.
  pose proof (Z.mod_pos_bound N D HD) as Hr.
  set (q := N / D) in *. set (r := N mod D) in *.
  destruct (r =? 0) eqn:Er.
  - apply Z.eqb_eq in Er. cbn [round_nearest_even]. split; nia.
  - apply Z.eqb_neq in Er. cbn [round_nearest_even].
    destruct (Z.compare_spec (2 * r) D) as [Ec|Ec|Ec].
    + destruct (Z.even q); split; nia.
    + split; nia.
    + split; nia.
Qed.

(** The location that the division computes from its remainder. *)
Lemma new_location_located (D r : Z) :
  0 < D -> 0 <= r < D ->
  new_location D r =
    if r =? 0 then loc_Exact else loc_Inexact (2 * r ?= D).
Proof.
  intros HD Hr. unfold new_location, new_location_even, new_location_odd.
  destruct (Z.even D) eqn:Ev; destruct (r =? 0) eqn:Er; try reflexivity.
  f_equal.
  assert (Hodd : Z.odd D = true) by (rewrite <- Z.negb_even, Ev; reflexivity).
  apply Z.odd_spec in Hodd. destruct Hodd as [k Hk].
  destruct (Z.compare_spec (2 * r + 1) D) as [E1|E1|E1];
    destruct (Z.compare_spec (2 * r) D) as [E2|E2|E2];
    try reflexivity; lia.
Qed.

Lemma Zdigits2_bounds (z : Z) :
  0 < z -> 2 ^ (Zdigits2 z - 1) <= z < 2 ^ Zdigits2 z.
Proof.
  destruct z as [|p|p]; try lia. intros _. apply digits2_pos_bounds.
Qed.

Lemma shr_located (N D e k : Z) :
  0 <= N -> 0 < D -> 0 <= k ->
  shr (located N D) e k = (located N (D * 2 ^ k), e + k).
Proof.
  intros HN HD Hk. destruct k as [|p|p]; try lia; cbn [shr].
  - now rewrite Z.mul_1_r, Z.add_0_r.
  - now rewrite iter_shr_1_located.
Qed.

Lemma fexp_normal (e : Z) :
  -1074 <= e - 53 -> fexp prec emax e = e - 53.
Proof. intro H. unfold fexp, emin, prec, emax. lia. Qed.

(** The rounding of a quotient of at least 53 bits, away from the ends of
    the exponent range: the quotient is located at the scale that leaves 53
    bits, rounded there, and shifted once more when the rounding carries
    into a 54th bit. *)
Lemma binary_round_aux_located (sx : bool) (N D ex : Z) :
  0 <= N -> 0 < D -> 2 ^ 52 <= N / D ->
  let k := Zdigits2 (N / D) - 53 in
  -1074 <= ex + k -> ex + k < 971 ->
  let R := round_nearest_even (N / (D * 2 ^ k)) (locate N (D * 2 ^ k)) in
  0 <= k
  /\ 2 ^ 52 <= R <= 2 ^ 53
  /\ binary_round_aux prec emax sx (N / D) ex (locate N D) =
       if R <? 2 ^ 53 then S754_finite sx (Z.to_pos R) (ex + k)
       else S754_finite sx (Z.to_pos (2 ^ 52)) (ex + k + 1).
Proof.
  intros HN HD Hbig k Hlo Hhi R.
  assert (Hpos : 0 < N / D) by (pose proof (Z.pow_pos_nonneg 2 52); lia).
  pose proof (Zdigits2_bounds (N / D) Hpos) as [Hdl Hdh]. fold k in Hdl, Hdh.
  assert (Hk : 0 <= k).
  { unfold k. destruct (Z.le_gt_cases 53 (Zdigits2 (N / D))) as [H|H]; [lia|].
    exfalso. assert (2 ^ Zdigits2 (N / D) <= 2 ^ 52) by (apply Z.pow_le_mono_r; lia).
    lia. }
  assert (Hd : Zdigits2 (N / D) = k + 53) by (unfold k; lia).
  rewrite Hd in Hdl, Hdh.
  assert (H2k : 0 < 2 ^ k) by (apply Z.pow_pos_nonneg; lia).
  assert (Hm1 : N / (D * 2 ^ k) = (N / D) / 2 ^ k) by (now rewrite Z.div_div by lia).
  assert (Hrange : 2 ^ 52 <= N / (D * 2 ^ k) < 2 ^ 53).
  { rewrite Hm1.
    replace (k + 53 - 1) with (52 + k) in Hdl by lia.
    replace (k + 53) with (53 + k) in Hdh by lia.
    rewrite Z.pow_add_r in Hdl, Hdh by lia.
    split.
    - apply Z.div_le_lower_bound; lia.
    - apply Z.div_lt_upper_bound; lia. }
  assert (HD' : 0 < D * 2 ^ k) by nia.
  destruct (round_nearest_even_located N (D * 2 ^ k) HN HD') as [_ HR].
  fold R in HR.
  split; [exact Hk|]. split; [lia|].
  unfold binary_round_aux, shr_fexp.
  rewrite fexp_normal by lia.
  replace (Zdigits2 (N / D) + ex - 53 - ex) with k by lia.
  change (shr_record_of_loc (N / D) (locate N D)) with (located N D).
  rewrite shr_located by assumption. cbv beta iota.
  unfold located. rewrite !shr_m_located, !loc_of_located. fold R.
  destruct (R <? 2 ^ 53) eqn:ER.
  - apply Z.ltb_lt in ER.
    assert (HdR : Zdigits2 R = 53) by (apply Zdigits2_unique; [lia | cbn; lia]).
    rewrite HdR, fexp_normal by lia.
    replace (53 + (ex + k) - 53 - (ex + k)) with 0 by lia.
    cbn [shr shr_record_of_loc shr_m].
    destruct R as [|r|r]; try lia.
    replace (ex + k <=? emax - prec) with true
      by (symmetry; apply Z.leb_le; unfold emax, prec; lia).
    reflexivity.
  - apply Z.ltb_ge in ER. assert (HR53 : R = 2 ^ 53) by lia.
    rewrite HR53.
    replace (Zdigits2 (2 ^ 53)) with 54 by reflexivity.
    rewrite fexp_normal by lia.
    replace (54 + (ex + k) - 53 - (ex + k)) with 1 by lia.
    cbn -[Z.leb emax prec].
    replace (ex + k + 1 <=? emax - prec) with true
      by (symmetry; apply Z.leb_le; unfold emax, prec; lia).
    reflexivity.
Qed.

(** The result is a normal number within half a unit in the last place of
    the quotient. *)
Lemma binary_round_aux_rounds (sx : bool) (N D ex : Z) :
  0 <= N -> 0 < D -> 2 ^ 52 <= N / D ->
  let k := Zdigits2 (N / D) - 53 in
  -1074 <= ex + k -> ex + k < 971 ->
  exists M j,
    binary_round_aux prec emax sx (N / D) ex (locate N D) =
      S754_finite sx M (ex + j)
    /\ 2 ^ 52 <= Zpos M < 2 ^ 53
    /\ k <= j <= k + 1
    /\ 2 * Z.abs (Zpos M * (D * 2 ^ j) - N) <= D * 2 ^ j.
Proof.
  intros HN HD Hbig k Hlo Hhi.
  destruct (binary_round_aux_located sx N D ex HN HD Hbig Hlo Hhi)
    as (Hk & HR & Heq).
  fold k in Heq, HR.
  assert (H2k : 0 < 2 ^ k) by (apply Z.pow_pos_nonneg; lia).
  assert (HD' : 0 < D * 2 ^ k) by nia.
  destruct (round_nearest_even_located N (D * 2 ^ k) HN HD') as [Herr _].
  set (R := round_nearest_even (N / (D * 2 ^ k)) (locate N (D * 2 ^ k))) in *.
  destruct (R <? 2 ^ 53) eqn:ER.
  - apply Z.ltb_lt in ER. exists (Z.to_pos R), k.
    rewrite Z2Pos.id by lia. repeat split; try lia. exact Heq.
  - apply Z.ltb_ge in ER. assert (HR53 : R = 2 ^ 53) by lia.
    exists (Z.to_pos (2 ^ 52)), (k + 1).
    rewrite Z2Pos.id by lia.
    replace (ex + (k + 1)) with (ex + k + 1) by lia.
    repeat split; try lia; [exact Heq|].
    rewrite Z.pow_add_r, Z.pow_1_r by lia.
    rewrite HR53 in Herr.
    replace (2 ^ 52 * (D * (2 ^ k * 2))) with (2 ^ 53 * (D * 2 ^ k))
      by (change (2 ^ 53) with (2 ^ 52 * 2); ring).
    lia.
Qed.

Lemma pos_iter_xO (p n : positive) :
  Zpos (Pos.iter xO p n) = Zpos p * 2 ^ Zpos n.
Proof.
  induction n as [|n IH] using Pos.peano_ind.
  - cbn [Pos.iter]. rewrite Z.pow_1_r. lia.
  - rewrite Pos.iter_succ, Pos2Z.inj_xO, IH, Pos2Z.inj_succ.
    rewrite Z.pow_succ_r by lia. ring.
Qed.

Lemma binary_round_aux_exact (sx : bool) (N e : Z) :
  2 ^ 52 <= N < 2 ^ 53 -> -1074 <= e < 971 ->
  binary_round_aux prec emax sx N e loc_Exact = S754_finite sx (Z.to_pos N) e.
Proof.
  intros HN He.
  assert (H0 : 0 <= N) by lia.
  assert (Hd : Zdigits2 N = 53) by (apply Zdigits2_unique; [lia | cbn; lia]).
  pose proof (binary_round_aux_located sx N 1 e H0 ltac:(lia)) as H.
  cbv zeta in H. rewrite Z.div_1_r in H. rewrite Hd in H.
  replace (53 - 53) with 0 in H by lia.
  rewrite Z.pow_0_r, Z.mul_1_r, !Z.add_0_r, Z.div_1_r in H.
  assert (Hloc : locate N 1 = loc_Exact)
    by (unfold locate; now rewrite Z.mod_1_r).
  rewrite Hloc in H. cbn [round_nearest_even] in H.
  destruct (H ltac:(lia) ltac:(lia) ltac:(lia)) as (_ & _ & Heq).
  rewrite Heq.
  replace (N <? 2 ^ 53) with true by (symmetry; apply Z.ltb_lt; lia).
  reflexivity.
Qed.

(** [float(n)] for a positive [n] below [2**53] is exact. *)
Lemma float_of_Z_exact (n : Z) :
  0 < n < 2 ^ 53 ->
  exists s,
    0 <= s <= 52
    /\ 2 ^ 52 <= n * 2 ^ s < 2 ^ 53
    /\ binary_normalize prec emax n 0 false =
         S754_finite false (Z.to_pos (n * 2 ^ s)) (- s).
Proof.
  intros Hn. destruct n as [|p|p]; try lia.
  pose proof (digits2_pos_bounds p) as [Hl Hh].
  set (d := Zpos (digits2_pos p)) in *.
  assert (Hd1 : 1 <= d) by (unfold d; lia).
  assert (Hd53 : d <= 53).
  { destruct (Z.le_gt_cases d 53) as [H|H]; [exact H|].
    exfalso. assert (2 ^ 53 <= 2 ^ (d - 1)) by (apply Z.pow_le_mono_r; lia).
    lia. }
  exists (53 - d). split; [lia|].
  assert (Hscaled : 2 ^ 52 <= Zpos p * 2 ^ (53 - d) < 2 ^ 53).
  { assert (H2s : 0 < 2 ^ (53 - d)) by (apply Z.pow_pos_nonneg; lia).
    assert (E52 : 2 ^ 52 = 2 ^ (d - 1) * 2 ^ (53 - d))
      by (rewrite <- Z.pow_add_r by lia; f_equal; lia).
    assert (E53 : 2 ^ 53 = 2 ^ d * 2 ^ (53 - d))
      by (rewrite <- Z.pow_add_r by lia; f_equal; lia).
    rewrite E52, E53. split; nia. }
  split; [exact Hscaled|].
  cbn [binary_normalize]. unfold binary_round.
  fold d. rewrite fexp_normal by lia.
  unfold shl_align.
  replace (d + 0 - 53 - 0) with (d - 53) by lia.
  destruct (d - 53) as [|q|q] eqn:Eq; try lia.
  - assert (d = 53) by lia.
    replace (53 - d) with 0 in * by lia.
    rewrite Z.pow_0_r, Z.mul_1_r in *.
    rewrite binary_round_aux_exact by lia. reflexivity.
  - assert (Hs : 53 - d = Zpos q) by lia.
    rewrite Hs in *.
    rewrite <- pos_iter_xO in Hscaled |- *.
    replace (d + 0 - 53) with (- Zpos q) by lia.
    rewrite binary_round_aux_exact by lia.
    reflexivity.
Qed.

(** Division of two normal numbers. *)
Lemma SFdiv_normal (m1 m2 : positive) (e1 e2 : Z) :
  2 ^ 52 <= Zpos m1 < 2 ^ 53 ->
  2 ^ 52 <= Zpos m2 < 2 ^ 53 ->
  -500 <= e1 <= 0 -> -500 <= e2 <= 0 ->
  exists M j,
    SFdiv prec emax (S754_finite false m1 e1) (S754_finite false m2 e2) =
      S754_finite false M (e1 - e2 - 53 + j)
    /\ 2 ^ 52 <= Zpos M < 2 ^ 53
    /\ 0 <= j <= 2
    /\ 2 * Z.abs (Zpos M * (Zpos m2 * 2 ^ j) - Zpos m1 * 2 ^ 53)
       <= Zpos m2 * 2 ^ j.
Proof.
  intros H1 H2 He1 He2.
  assert (Hd1 : Zdigits2 (Zpos m1) = 53)
    by (apply Zdigits2_unique; [lia | cbn; lia]).
  assert (Hd2 : Zdigits2 (Zpos m2) = 53)
    by (apply Zdigits2_unique; [lia | cbn; lia]).
  cbn [SFdiv xorb]. unfold SFdiv_core_binary. rewrite Hd1, Hd2.
  rewrite fexp_normal by lia.
  replace (Z.min (53 + e1 - (53 + e2) - 53) (e1 - e2)) with (e1 - e2 - 53)
    by lia.
  replace (e1 - e2 - (e1 - e2 - 53)) with 53 by lia.
  rewrite Z.shiftl_mul_pow2 by lia.
  set (N := Zpos m1 * 2 ^ 53).
  assert (HN : 0 <= N) by (unfold N; lia).
  assert (Hq : 2 ^ 52 <= N / Zpos m2 < 2 ^ 54).
  { split.
    - apply Z.div_le_lower_bound; [lia|]. unfold N. nia.
    - apply Z.div_lt_upper_bound; [lia|]. unfold N.
      change (2 ^ 54) with (2 * 2 ^ 53). nia. }
  pose proof (Z.mod_pos_bound N (Zpos m2) ltac:(lia)) as Hr.
  assert (Hde : Z.div_eucl N (Zpos m2) = (N / Zpos m2, N mod Zpos m2)).
  { unfold Z.div, Z.modulo. now destruct (Z.div_eucl N (Zpos m2)). }
  rewrite Hde.
  rewrite new_location_located by lia.
  change (if N mod Zpos m2 =? 0 then loc_Exact
          else loc_Inexact (2 * (N mod Zpos m2) ?= Zpos m2))
    with (locate N (Zpos m2)).
  assert (Hpos : 0 < N / Zpos m2) by lia.
  pose proof (Zdigits2_bounds (N / Zpos m2) Hpos) as [Hdl Hdh].
  assert (Hk : 53 <= Zdigits2 (N / Zpos m2) <= 54).
  { split.
    - destruct (Z.le_gt_cases 53 (Zdigits2 (N / Zpos m2))) as [H|H]; [lia|].
      exfalso.
      assert (2 ^ Zdigits2 (N / Zpos m2) <= 2 ^ 52)
        by (apply Z.pow_le_mono_r; lia).
      lia.
    - destruct (Z.le_gt_cases (Zdigits2 (N / Zpos m2)) 54) as [H|H]; [lia|].
      exfalso.
      assert (2 ^ 54 <= 2 ^ (Zdigits2 (N / Zpos m2) - 1))
        by (apply Z.pow_le_mono_r; lia).
      lia. }
  destruct (binary_round_aux_rounds false N (Zpos m2) (e1 - e2 - 53)
              HN ltac:(lia) ltac:(lia) ltac:(lia) ltac:(lia))
    as (M & j & Heq & HM & Hj & Herr).
  exists M, j. repeat split; try lia. exact Heq.
Qed.

(** Multiplication of two normal numbers. *)
Lemma SFmul_normal (m1 m2 : positive) (e1 e2 : Z) :
  2 ^ 52 <= Zpos m1 < 2 ^ 53 ->
  2 ^ 52 <= Zpos m2 < 2 ^ 53 ->
  -500 <= e1 <= 0 -> -500 <= e2 <= 0 ->
  exists M j,
    SFmul prec emax (S754_finite false m1 e1) (S754_finite false m2 e2) =
      S754_finite false M (e1 + e2 + j)
    /\ 2 ^ 52 <= Zpos M < 2 ^ 53
    /\ 52 <= j <= 54
    /\ 2 * Z.abs (Zpos M * 2 ^ j - Zpos m1 * Zpos m2) <= 2 ^ j.
Proof.
  intros H1 H2 He1 He2.
  cbn [SFmul xorb]. rewrite Pos2Z.inj_mul.
  set (N := Zpos m1 * Zpos m2).
  assert (HN : 0 <= N) by (unfold N; lia).
  assert (Hq : 2 ^ 104 <= N < 2 ^ 106).
  { change (2 ^ 104) with (2 ^ 52 * 2 ^ 52).
    change (2 ^ 106) with (2 ^ 53 * 2 ^ 53). unfold N. split; nia. }
  assert (Hpos : 0 < N) by lia.
  pose proof (Zdigits2_bounds N Hpos) as [Hdl Hdh].
  assert (Hk : 105 <= Zdigits2 N <= 106).
  { split.
    - destruct (Z.le_gt_cases 105 (Zdigits2 N)) as [H|H]; [lia|].
      exfalso.
      assert (2 ^ Zdigits2 N <= 2 ^ 104) by (apply Z.pow_le_mono_r; lia).
      lia.
    - destruct (Z.le_gt_cases (Zdigits2 N) 106) as [H|H]; [lia|].
      exfalso.
      assert (2 ^ 106 <= 2 ^ (Zdigits2 N - 1))
        by (apply Z.pow_le_mono_r; lia).
      lia. }
  pose proof (binary_round_aux_rounds false N 1 (e1 + e2) HN ltac:(lia)) as H.
  cbv zeta in H. rewrite Z.div_1_r in H.
  assert (Hloc : locate N 1 = loc_Exact)
    by (unfold locate; now rewrite Z.mod_1_r).
  rewrite Hloc in H.
  destruct H as (M & j & Heq & HM & Hj & Herr); try lia.
  exists M, j. rewrite Z.mul_1_l in Herr. repeat split; try lia. exact Heq.
Qed.


Lemma abs_scale (c x : Z) : 0 <= c -> Z.abs (c * x) = c * Z.abs x.
Proof. intro H. now rewrite Z.abs_mul, (Z.abs_eq c). Qed.

(** The three roundings of a percentage, by the division, by the
    multiplication and by the format, leave tenths that are nearest to the
    exact percentage.  [Sa], [Sb], [P1], [P2] and [T] stand for the powers of
    two by which the operands and the results are scaled. *)
Lemma tenths_are_nearest (a b Sa Sb P1 P2 T M1 M2 q : Z) :
  0 < a <= b -> b < 2 ^ 32 ->
  1 <= Sb <= Sa -> 1 <= P1 <= 4 -> 1 <= P2 <= 2 ^ 54 -> 0 < T ->
  T * P2 * P1 * Sb = 2 ^ 99 * Sa ->
  2 * Z.abs (M1 * (b * Sb * P1) - a * Sa * 2 ^ 53) <= b * Sb * P1 ->
  2 * Z.abs (M2 * P2 - M1 * (100 * 2 ^ 46)) <= P2 ->
  2 * Z.abs (q * T - 10 * M2) <= T ->
  2 * Z.abs (q * b - 1000 * a) <= b.
Proof.
  intros Hab Hb HS HP1 HP2 HT Hrel H3 H2 H1.
  set (B := b * Sb * P1) in *.
  set (e3 := M1 * B - a * Sa * 2 ^ 53) in *.
  set (e2 := M2 * P2 - M1 * (100 * 2 ^ 46)) in *.
  set (e1 := q * T - 10 * M2) in *.
  set (U := 10 * b * M2 - 1000 * a * T).
  set (W := P2 * Sb * P1).
  assert (HB : 0 < B) by (unfold B; nia).
  assert (HW : 0 < W) by (unfold W; nia).
  assert (HBle : B <= 2 ^ 34 * Sa).
  { unfold B. assert (b * Sb <= 2 ^ 32 * Sa) by nia. nia. }
  assert (HTW : T * W = 2 ^ 99 * Sa) by (unfold W; rewrite <- Hrel; ring).
  assert (HI : U * W = 10 * (100 * 2 ^ 46) * e3 + 10 * B * e2).
  { transitivity (10 * b * M2 * (P2 * Sb * P1) - 1000 * a * (T * P2 * P1 * Sb)).
    - unfold U, W. ring.
    - rewrite Hrel. unfold e3, e2, B. ring. }
  assert (HU : 2 * Z.abs U * W <= 10 * B * (100 * 2 ^ 46 + P2)).
  { assert (Habs : Z.abs U * W = Z.abs (U * W))
      by (rewrite Z.abs_mul, (Z.abs_eq W) by lia; reflexivity).
    replace (2 * Z.abs U * W) with (2 * (Z.abs U * W)) by ring.
    rewrite Habs, HI.
    assert (Z.abs (10 * (100 * 2 ^ 46) * e3 + 10 * B * e2)
            <= 10 * (100 * 2 ^ 46) * Z.abs e3 + 10 * B * Z.abs e2).
    { eapply Z.le_trans; [apply Z.abs_triangle|].
      rewrite (abs_scale (10 * (100 * 2 ^ 46))) by lia.
      rewrite (abs_scale (10 * B)) by lia. lia. }
    assert (10 * B * (2 * Z.abs e2) <= 10 * B * P2) by (apply Z.mul_le_mono_nonneg_l; lia).
    lia. }
  assert (HU2 : 2 * Z.abs U < T).
  { apply Z.mul_lt_mono_pos_r with (p := W); [exact HW|].
    rewrite HTW.
    assert (10 * B * (100 * 2 ^ 46 + P2) <= 10 * (2 ^ 34 * Sa) * (2 ^ 55)).
    { apply Z.mul_le_mono_nonneg; lia. }
    lia. }
  assert (HE : (q * b - 1000 * a) * T = b * e1 + U)
    by (unfold e1, U; ring).
  assert (HF : 2 * Z.abs (q * b - 1000 * a) * T < (b + 1) * T).
  { replace (2 * Z.abs (q * b - 1000 * a) * T)
      with (2 * Z.abs ((q * b - 1000 * a) * T))
      by (rewrite Z.abs_mul, (Z.abs_eq T) by lia; ring).
    rewrite HE.
    assert (Z.abs (b * e1 + U) <= b * Z.abs e1 + Z.abs U).
    { eapply Z.le_trans; [apply Z.abs_triangle|].
      rewrite (abs_scale b) by lia. lia. }
    assert (b * (2 * Z.abs e1) <= b * T) by (apply Z.mul_le_mono_nonneg_l; lia).
    lia. }
  apply Z.mul_lt_mono_pos_r in HF; lia.
Qed.


(** The rounding of the format. *)
Lemma round_half_even_nearest (n d : Z) :
  0 <= n -> 0 < d ->
  0 <= round_half_even n d
  /\ 2 * Z.abs (round_half_even n d * d - n) <= d.
Proof.
  intros Hn Hd. unfold round_half_even.
  pose proof (Z.div_mod n d ltac:(lia)) as Hdm.
  pose proof (Z.mod_pos_bound n d Hd) as Hr.
  pose proof (Z.div_pos n d Hn Hd) as Hq.
  set (q := n / d) in *. set (r := n mod d) in *.
  destruct (Z.compare_spec (2 * r) d) as [Ec|Ec|Ec];
    [destruct (Z.even q)| |]; split; nia.
Qed.

(** The smaller of two numbers is scaled by the larger power of two. *)
Lemma scaling_order (a b sa sb : Z) :
  0 < a <= b -> 0 <= sa -> 0 <= sb ->
  2 ^ 52 <= a * 2 ^ sa < 2 ^ 53 ->
  2 ^ 52 <= b * 2 ^ sb < 2 ^ 53 ->
  sb <= sa.
Proof.
  intros Hab Hsa Hsb Ha Hb.
  destruct (Z.le_gt_cases sb sa) as [H|H]; [exact H|]. exfalso.
  assert (2 ^ (sa + 1) <= 2 ^ sb) by (apply Z.pow_le_mono_r; lia).
  rewrite Z.pow_add_r, Z.pow_1_r in H0 by lia.
  assert (0 < 2 ^ sa) by (apply Z.pow_pos_nonneg; lia).
  assert (a * (2 ^ sa * 2) <= b * 2 ^ sb) by nia.
  change (2 ^ 53) with (2 ^ 52 * 2) in *. lia.
Qed.

(** [count/len(df)*100] is a positive number below [2**7], and its tenths
    are nearest to the exact percentage. *)
Lemma percentage_is_rounded (count rows : nat) :
  (0 < count <= rows)%nat ->
  Z.of_nat rows < 2 ^ 32 ->
  exists M p,
    percentage count rows = S754_finite false M (Zneg p)
    /\ 0 <= tenths M (Zneg p)
    /\ 2 * Z.abs (tenths M (Zneg p) * Z.of_nat rows - 1000 * Z.of_nat count)
       <= Z.of_nat rows.
Proof.
  intros Hcount Hrows.
  set (a := Z.of_nat count) in *. set (b := Z.of_nat rows) in *.
  assert (Hab : 0 < a <= b) by (unfold a, b; lia).
  destruct (float_of_Z_exact a) as (sa & Hsa & Hma & Hfa);
    [change (2 ^ 53) with (2 ^ 32 * 2 ^ 21); lia|].
  destruct (float_of_Z_exact b) as (sb & Hsb & Hmb & Hfb);
    [change (2 ^ 53) with (2 ^ 32 * 2 ^ 21); lia|].
  pose proof (scaling_order a b sa sb Hab ltac:(lia) ltac:(lia) Hma Hmb) as Hs.
  unfold percentage, float_of_nat. fold a b. rewrite Hfa, Hfb.
  destruct (SFdiv_normal (Z.to_pos (a * 2 ^ sa)) (Z.to_pos (b * 2 ^ sb))
              (- sa) (- sb))
    as (M1 & j1 & Hdiv & HM1 & Hj1 & H3);
    try (rewrite Z2Pos.id by lia); try lia.
  rewrite !Z2Pos.id in H3 by lia.
  rewrite Hdiv.
  change (binary_normalize prec emax (Z.of_nat 100) 0 false)
    with (S754_finite false 7036874417766400 (-46)).
  destruct (SFmul_normal M1 7036874417766400 (- sa - - sb - 53 + j1) (-46))
    as (M2 & j2 & Hmul & HM2 & Hj2 & H2); try lia.
  rewrite Hmul.
  set (E2 := - sa - - sb - 53 + j1 + -46 + j2) in *.
  assert (HE2 : E2 < 0) by (unfold E2; lia).
  destruct E2 as [|p|p] eqn:EE; try lia.
  exists M2, p. split; [reflexivity|].
  cbn [tenths]. rewrite Z.pow_pos_fold.
  set (T := 2 ^ Zpos p).
  assert (HT : 0 < T) by (apply Z.pow_pos_nonneg; lia).
  pose proof (round_half_even_nearest (10 * Zpos M2) T ltac:(lia) HT)
    as [H0 H1].
  set (q := round_half_even (10 * Zpos M2) T) in *.
  split; [exact H0|].
  assert (HSa : 0 < 2 ^ sa) by (apply Z.pow_pos_nonneg; lia).
  assert (HSb : 0 < 2 ^ sb) by (apply Z.pow_pos_nonneg; lia).
  assert (HSab : 2 ^ sb <= 2 ^ sa) by (apply Z.pow_le_mono_r; lia).
  assert (HP1 : 1 <= 2 ^ j1 <= 4).
  { split; [pose proof (Z.pow_pos_nonneg 2 j1); lia|].
    change 4 with (2 ^ 2). apply Z.pow_le_mono_r; lia. }
  assert (HP2 : 1 <= 2 ^ j2 <= 2 ^ 54).
  { split; [pose proof (Z.pow_pos_nonneg 2 j2); lia|].
    apply Z.pow_le_mono_r; lia. }
  apply (tenths_are_nearest a b (2 ^ sa) (2 ^ sb) (2 ^ j1) (2 ^ j2) T
           (Zpos M1) (Zpos M2) q); try lia.
  unfold T. rewrite <- !Z.pow_add_r by lia. f_equal. lia.
Qed.

End Floats.

(** ** Dataset describer *)

Lemma dtype_eqb_eq (a b : dtype) : dtype_eqb a b = true <-> a = b.
Proof. destruct a, b; cbn; split; intro H; congruence. Qed.

Lemma dtype_eqb_refl (a : dtype) : dtype_eqb a a = true.
Proof. now apply dtype_eqb_eq. Qed.

Lemma count_dtype_pos (d : dtype) (l : list dtype) :
  0 < count_dtype d l <-> In d l.
Proof.
  unfold count_dtype. induction l as [|x l IH]; cbn.
  - split; [lia | tauto].
  - destruct (dtype_eqb d x) eqn:E; cbn.
    + apply dtype_eqb_eq in E. subst. split; [now left | lia].
    + rewrite IH. split; [now right|].
      intros [->|H]; [|exact H]. rewrite dtype_eqb_refl in E. discriminate.
Qed.

Lemma distinct_dtypes_In (d : dtype) (l : list dtype) :
  In d (distinct_dtypes l) <-> In d l.
Proof.
  induction l as [|x l IH]; cbn; [tauto|].
  rewrite filter_In, IH. split.
  - intros [H|[H _]]; tauto.
  - intros [H|H]; [now left|].
    destruct (dtype_eqb x d) eqn:E.
    + left. now apply dtype_eqb_eq.
    + right. now split.
Qed.

Lemma distinct_dtypes_NoDup (l : list dtype) : NoDup (distinct_dtypes l).
Proof.
  induction l as [|x l IH]; cbn; constructor.
  - rewrite filter_In. intros [_ H]. now rewrite dtype_eqb_refl in H.
  - now apply NoDup_filter.
Qed.

Lemma insert_by_count_perm (p : dtype * nat) (l : list (dtype * nat)) :
  Permutation (p :: l) (insert_by_count p l).
Proof.
  induction l as [|q l IH]; cbn; [reflexivity|].
  destruct (Nat.leb (snd q) (snd p)); [reflexivity|].
  rewrite perm_swap. now constructor.
Qed.

Lemma sort_by_count_perm (l : list (dtype * nat)) :
  Permutation l (sort_by_count l).
Proof.
  induction l as [|p l IH]; cbn; [constructor|].
  rewrite <- insert_by_count_perm. now constructor.
Qed.

(** The histogram has one entry per dtype that occurs, with its number of
    columns. *)
Lemma value_counts_In (d : dtype) (n : nat) (l : list dtype) :
  In (d, n) (value_counts l) <-> In d l /\ n = count_dtype d l.
Proof.
  unfold value_counts. split.
  - intro H. apply (Permutation_in _ (Permutation_sym (sort_by_count_perm _)))
      in H.
    apply in_map_iff in H. destruct H as (d' & Heq & Hin).
    inversion Heq; subst. now rewrite <- distinct_dtypes_In.
  - intros [Hin ->]. apply (Permutation_in _ (sort_by_count_perm _)).
    apply in_map_iff. exists d. now rewrite distinct_dtypes_In.
Qed.

Lemma value_counts_NoDup (l : list dtype) : NoDup (map fst (value_counts l)).
Proof.
  unfold value_counts.
  eapply Permutation_NoDup;
    [apply Permutation_map, sort_by_count_perm|].
  rewrite map_map. cbn. rewrite map_id. apply distinct_dtypes_NoDup.
Qed.

(** The histogram is ordered by decreasing count and its counts add up to
    the number of columns. *)
Lemma list_sum_perm (a b : list nat) :
  Permutation a b -> list_sum a = list_sum b.
Proof.
  induction 1 as [|x l l' _ IH|x y l|l l' l'' _ IH1 _ IH2].
  - reflexivity.
  - change (x + list_sum l = x + list_sum l'). now rewrite IH.
  - change (y + (x + list_sum l) = x + (y + list_sum l)). lia.
  - now rewrite IH1.
Qed.

Lemma list_sum_cons (a : nat) (l : list nat) :
  list_sum (a :: l) = a + list_sum l.
Proof. reflexivity. Qed.

Lemma count_dtype_cons (d x : dtype) (l : list dtype) :
  count_dtype d (x :: l) =
  (if dtype_eqb d x then 1 else 0) + count_dtype d l.
Proof. unfold count_dtype. cbn. now destruct (dtype_eqb d x). Qed.

Lemma one_hit (x : dtype) (ds : list dtype) :
  NoDup ds -> In x ds ->
  list_sum (map (fun d => if dtype_eqb d x then 1 else 0) ds) = 1.
Proof.
  induction 1 as [|d ds Hnotin Hnd IH]; [contradiction|].
  intros [->|Hin]; cbn [map]; rewrite list_sum_cons.
  - rewrite dtype_eqb_refl.
    replace (list_sum (map (fun d => if dtype_eqb d x then 1 else 0) ds))
      with 0; [reflexivity|].
    clear IH Hnd. induction ds as [|e ds IH]; [reflexivity|].
    cbn [map]. rewrite list_sum_cons.
    destruct (dtype_eqb e x) eqn:E.
    + apply dtype_eqb_eq in E. subst e. exfalso. apply Hnotin. now left.
    + apply IH. intro H. apply Hnotin. now right.
  - destruct (dtype_eqb d x) eqn:E.
    + apply dtype_eqb_eq in E. subst d. contradiction.
    + now apply IH.
Qed.

Lemma counts_cover (ds l : list dtype) :
  NoDup ds -> (forall x, In x l -> In x ds) ->
  list_sum (map (fun d => count_dtype d l) ds) = length l.
Proof.
  intros Hnd. induction l as [|x l IH]; intro Hall.
  - clear. induction ds as [|d ds IHd]; [reflexivity|].
    cbn [map]. now rewrite list_sum_cons, IHd.
  - assert (Hsplit :
      list_sum (map (fun d => count_dtype d (x :: l)) ds) =
      list_sum (map (fun d => if dtype_eqb d x then 1 else 0) ds)
      + list_sum (map (fun d => count_dtype d l) ds)).
    { clear. induction ds as [|d ds IHd]; [reflexivity|].
      cbn [map]. rewrite !list_sum_cons, IHd, count_dtype_cons. lia. }
    rewrite Hsplit, one_hit, IH; cbn; auto.
    + intros y Hy. apply Hall. now right.
    + apply Hall. now left.
Qed.

Lemma insert_by_count_sorted (p : dtype * nat) (l : list (dtype * nat)) :
  Sorted (fun a b => snd b <= snd a) l ->
  Sorted (fun a b => snd b <= snd a) (insert_by_count p l).
Proof.
  induction l as [|q l IH]; intro Hs; cbn.
  - repeat constructor.
  - destruct (Nat.leb (snd q) (snd p)) eqn:E.
    + apply Nat.leb_le in E. constructor; [exact Hs|]. now constructor.
    + apply Nat.leb_gt in E. inversion Hs as [|? ? Hs' Hhd]; subst.
      constructor; [now apply IH|].
      destruct l as [|r l]; cbn.
      * constructor. lia.
      * destruct (Nat.leb (snd r) (snd p)); constructor; [lia|].
        now inversion Hhd.
Qed.

Lemma value_counts_total (l : list dtype) :
  list_sum (map snd (value_counts l)) = length l.
Proof.
  unfold value_counts.
  rewrite <- (list_sum_perm _ _ (Permutation_map snd (sort_by_count_perm _))).
  rewrite map_map. cbn [snd]. apply counts_cover.
  - apply distinct_dtypes_NoDup.
  - intros x Hx. now apply distinct_dtypes_In.
Qed.

Lemma value_counts_sorted (l : list dtype) :
  Sorted (fun a b => snd b <= snd a) (value_counts l).
Proof.
  unfold value_counts, sort_by_count.
  induction (map _ (distinct_dtypes l)) as [|p tl IH]; cbn.
  - constructor.
  - now apply insert_by_count_sorted.
Qed.

(** ** Labels *)

Lemma str_items_of_strings (i : nat) (names : list string) :
  str_items i (map str_label names) = Ok names.
Proof.
  revert i. induction names as [|s names IH]; intro i; cbn; [reflexivity|].
  now rewrite IH.
Qed.

Lemma str_items_raises (items : list label) (i k : nat) (l : label) :
  nth_error items k = Some l ->
  is_str l = false ->
  (forall j, j < k -> exists s, nth_error items j = Some (str_label s)) ->
  str_items i items =
    Raise ("sequence item " ++ str_of_nat (i + k)
           ++ ": expected str instance, " ++ type_name l ++ " found").
Proof.
  revert i k. induction items as [|x items IH]; intros i k Hnth Hl Hbefore.
  - destruct k; discriminate.
  - destruct k as [|k].
    + cbn in Hnth. inversion Hnth; subst x. rewrite Nat.add_0_r.
      destruct l; [discriminate | reflexivity | reflexivity].
    + destruct (Hbefore 0 ltac:(lia)) as [s Hs]. cbn in Hs.
      inversion Hs; subst x. cbn [str_items].
      rewrite (IH (S i) k Hnth Hl).
      * now replace (S i + k) with (i + S k) by lia.
      * intros j Hj. apply (Hbefore (S j)). lia.
Qed.

Lemma with_names_of_strings (t : DataFrame) :
  with_names (map col_name (df_columns t)) (of_strings t) = t.
Proof.
  destruct t as [cols rows]. unfold with_names, of_strings. cbn. f_equal.
  induction cols as [|c cols IH]; cbn; [reflexivity|].
  rewrite IH. now destruct c.
Qed.

Lemma labels_of_strings (t : DataFrame) :
  labels (of_strings t) = map str_label (map col_name (df_columns t)).
Proof. unfold labels, of_strings. cbn. now rewrite !map_map. Qed.

Lemma numeric_labels_of_strings (t : DataFrame) :
  map lc_label
      (filter (fun c => is_number (lc_dtype c)) (lf_columns (of_strings t)))
  = map str_label (map col_name (numeric_cols t)).
Proof.
  unfold numeric_cols, of_strings. cbn [lf_columns].
  induction (df_columns t) as [|c cols IH]; cbn; [reflexivity|].
  destruct (is_number (col_dtype c)); cbn; now rewrite IH.
Qed.

(** On tables with string labels the summary is the one that
    [get_structured_data_summary] of the warehouse gives. *)
Lemma table_summary_of_strings (name : string) (t : DataFrame) :
  Labelled.table_summary (name, of_strings t) = Ok (table_summary (name, t)).
Proof.
  unfold Labelled.table_summary, table_summary, columns. cbn [fst snd].
  rewrite numeric_labels_of_strings, labels_of_strings.
  rewrite !firstn_map, !str_items_of_strings.
  unfold ellipsis. cbn [lf_columns lf_len of_strings].
  rewrite !length_map. reflexivity.
Qed.

Lemma structured_data_summary_of_strings
  (tables : list (string * DataFrame)) :
  Labelled.get_structured_data_summary
    (map (fun kv => (fst kv, of_strings (snd kv))) tables)
  = Ok match tables with
       | [] => "No structured data loaded."
       | _ :: _ => join nl (map table_summary tables)
       end.
Proof.
  assert (H : Labelled.summaries
                (map (fun kv => (fst kv, of_strings (snd kv))) tables)
              = Ok (map table_summary tables)).
  { induction tables as [|[name t] tables IH]; [reflexivity|].
    cbn [map Labelled.summaries fst snd].
    now rewrite table_summary_of_strings, IH. }
  destruct tables as [|kv tables]; [reflexivity|].
  unfold Labelled.get_structured_data_summary.
  rewrite H. reflexivity.
Qed.

(** A label that is not a string, among the first five of a table, ends the
    summary of the tables. *)
Lemma structured_data_summary_raises :
  Labelled.get_structured_data_summary
    [("funds.xlsx", of_strings Workbooks.funds);
     ("revenue.xlsx", Workbooks.revenue)]
  = Raise "sequence item 1: expected str instance, int found".
Proof. reflexivity. Qed.

Section Describer.

Context {pd : Pandas}.

Lemma series_sum_pos (s : list (string * nat)) :
  Nat.ltb 0 (series_sum s) = false -> above_zero s = [].
Proof.
  induction s as [|[c n] s IH]; intro H; [reflexivity|].
  apply Nat.ltb_ge in H. cbn [series_sum fold_right snd] in H.
  fold (series_sum s) in H.
  assert (n = 0) as -> by lia. cbn -[Nat.ltb]. apply IH. apply Nat.ltb_ge. lia.
Qed.

Lemma series_sum_positive (s : list (string * nat)) :
  Nat.ltb 0 (series_sum s) = true -> above_zero s <> [].
Proof.
  intros H Hnil. induction s as [|[c n] s IH]; [discriminate|].
  unfold above_zero in Hnil. cbn [filter snd] in Hnil.
  destruct (Nat.ltb 0 n) eqn:E; [discriminate|].
  apply Nat.ltb_ge in E. apply IH; [|exact Hnil].
  apply Nat.ltb_lt. apply Nat.ltb_lt in H.
  cbn [series_sum fold_right snd] in H. fold (series_sum s) in H. lia.
Qed.

Lemma above_zero_isnull_sum (df : DataFrame) :
  above_zero (isnull_sum df) =
  map (fun c => (col_name c, null_count c))
      (filter (fun c => Nat.ltb 0 (null_count c)) (df_columns df)).
Proof.
  unfold above_zero, isnull_sum.
  induction (df_columns df) as [|c l IH]; cbn -[Nat.ltb]; [reflexivity|].
  destruct (Nat.ltb 0 (null_count c)); cbn -[Nat.ltb]; now rewrite IH.
Qed.

Lemma null_count_pos (c : column) :
  Nat.ltb 0 (null_count c) = true <-> In None (col_cells c).
Proof.
  unfold null_count. rewrite Nat.ltb_lt.
  induction (col_cells c) as [|[x|] l IH]; cbn.
  - split; [lia | tauto].
  - rewrite IH. split; [now right|]. intros [H|H]; [discriminate | exact H].
  - split; [now left | lia].
Qed.

Lemma is_number_dtypes (d : dtype) :
  is_number d = true <-> d = int64 \/ d = uint64 \/ d = float64.
Proof.
  destruct d; cbn; split; intro H; try discriminate; auto;
    destruct H as [H|[H|H]]; discriminate.
Qed.

(** The description of a table with string labels, block by block. *)
Lemma description_of_strings (filename : string) (t : DataFrame) :
  _create_dataset_description filename t =
    join nl
      (List.concat
         [ [ "Dataset: " ++ filename;
             "Shape: " ++ str_of_nat (df_len t) ++ " rows × "
             ++ str_of_nat (length (df_columns t)) ++ " columns";
             "Columns: " ++ join ", " (map col_name (df_columns t));
             "" ];
           match filter (fun c => is_number (col_dtype c)) (df_columns t) with
           | [] => []
           | c :: cs =>
               "Summary Statistics:" :: map stat_line (firstn 10 (c :: cs))
           end;
           (nl ++ "Data Types:") :: map type_line (value_counts (dtypes t));
           match filter (fun c => Nat.ltb 0 (null_count c)) (df_columns t) with
           | [] => []
           | c :: cs =>
               (nl ++ "Missing Values:")
               :: map (fun c => missing_line (df_len t)
                                  (col_name c, null_count c)) (c :: cs)
           end;
           [ nl ++ "Sample Data (first 3 rows):"; to_string (head 3 t) ] ]).
Proof.
  unfold _create_dataset_description, numeric_cols, columns. cbv zeta.
  f_equal.
  assert (Hmissing :
    (if Nat.ltb 0 (series_sum (isnull_sum t))
     then (nl ++ "Missing Values:")
          :: map (missing_line (df_len t)) (above_zero (isnull_sum t))
     else []) =
    match filter (fun c => Nat.ltb 0 (null_count c)) (df_columns t) with
    | [] => []
    | c :: cs =>
        (nl ++ "Missing Values:")
        :: map (fun c => missing_line (df_len t) (col_name c, null_count c))
               (c :: cs)
    end).
  { destruct (Nat.ltb 0 (series_sum (isnull_sum t))) eqn:E.
    - apply series_sum_positive in E. rewrite above_zero_isnull_sum in E |- *.
      destruct (filter _ (df_columns t)) as [|c cs]; [now contradiction E|].
      now rewrite map_map.
    - apply series_sum_pos in E. rewrite above_zero_isnull_sum in E.
      destruct (filter _ (df_columns t)) as [|c cs]; [reflexivity|].
      discriminate. }
  cbn [List.concat]. rewrite <- Hmissing, app_nil_r.
  destruct (filter (fun c => is_number (col_dtype c)) (df_columns t))
    as [|c cs];
    destruct (Nat.ltb 0 (series_sum (isnull_sum t)));
    cbn -[Nat.ltb firstn nl value_counts]; rewrite <- ?app_assoc;
    cbn -[Nat.ltb firstn nl value_counts]; rewrite ?app_nil_r;
    reflexivity.
Qed.

(** C7. On a table with a column label that is not a string,
    [_create_dataset_description] produces no summary: it raises the
    [TypeError] of [str.join], which names the position and the type of the
    first such label.  On a table whose labels are distinct strings, as the
    readers make them for a sheet with a header row of texts, it returns the
    newline-joined lines of five blocks: the table name, the row and column
    counts, the full list of column names and a blank line; when the table
    has a numeric column, a header and the mean, standard deviation, minimum
    and maximum of the first ten numeric columns, in column order; a header
    and the histogram of dtypes, which gives every dtype that occurs once,
    with its number of columns, most frequent first, the counts adding up to
    the number of columns; when a cell is missing, a header and, for exactly
    the columns with a missing value, the name, the count and the
    percentage; a header and the rendering of the first three rows.  The
    percentage of [count] missing values among [rows] rows, for a table of
    fewer than [2**32] rows, is printed as the tenths [q] nearest to
    [100 * count / rows]: [q // 10], a point, [q % 10]. *)
Theorem dataset_description_contents (filename : string) :
  (forall (df : labelled_frame) (i : nat) (l : label),
     nth_error (labels df) i = Some l ->
     is_str l = false ->
     (forall j, j < i ->
                exists s, nth_error (labels df) j = Some (str_label s)) ->
     Labelled._create_dataset_description filename df =
       Raise ("sequence item " ++ str_of_nat i
              ++ ": expected str instance, " ++ type_name l ++ " found"))
  /\ (forall t : DataFrame,
        NoDup (map col_name (df_columns t)) ->
        let numeric :=
          filter (fun c => is_number (col_dtype c)) (df_columns t) in
        let histogram := value_counts (dtypes t) in
        let incomplete :=
          filter (fun c => Nat.ltb 0 (null_count c)) (df_columns t) in
        Labelled._create_dataset_description filename (of_strings t) =
          Ok (join nl
                (List.concat
                   [ [ "Dataset: " ++ filename;
                       "Shape: " ++ str_of_nat (df_len t) ++ " rows × "
                       ++ str_of_nat (length (df_columns t)) ++ " columns";
                       "Columns: " ++ join ", " (map col_name (df_columns t));
                       "" ];
                     match numeric with
                     | [] => []
                     | _ :: _ =>
                         "Summary Statistics:"
                         :: map (fun c =>
                                   "  " ++ col_name c
                                   ++ ": mean=" ++ fmt_mean c
                                   ++ ", std=" ++ fmt_std c
                                   ++ ", min=" ++ fmt_min c
                                   ++ ", max=" ++ fmt_max c)
                                (firstn 10 numeric)
                     end;
                     (nl ++ "Data Types:")
                     :: map (fun dc =>
                               "  " ++ dtype_str (fst dc) ++ ": "
                               ++ str_of_nat (snd dc) ++ " columns")
                            histogram;
                     match incomplete with
                     | [] => []
                     | _ :: _ =>
                         (nl ++ "Missing Values:")
                         :: map (fun c =>
                                   "  " ++ col_name c ++ ": "
                                   ++ str_of_nat (null_count c) ++ " ("
                                   ++ format_1f
                                        (percentage (null_count c) (df_len t))
                                   ++ "%)")
                                incomplete
                     end;
                     [ nl ++ "Sample Data (first 3 rows):";
                       to_string (head 3 t) ] ]))
        /\ (forall c,
              In c numeric <->
              In c (df_columns t)
              /\ (col_dtype c = int64 \/ col_dtype c = uint64
                  \/ col_dtype c = float64))
        /\ NoDup (map fst histogram)
        /\ (forall d n,
              In (d, n) histogram <->
              In d (dtypes t) /\ n = count_dtype d (dtypes t))
        /\ Sorted (fun a b => snd b <= snd a) histogram
        /\ list_sum (map snd histogram) = length (df_columns t)
        /\ (forall c,
              In c incomplete <->
              In c (df_columns t) /\ In None (col_cells c)))
  /\ (forall count rows : nat,
        0 < count <= rows ->
        (Z.of_nat rows < 2 ^ 32)%Z ->
        exists q : Z,
          (0 <= q)%Z
          /\ format_1f (percentage count rows) =
               str_of_nat (Z.to_nat (q / 10)) ++ "."
               ++ str_of_nat (Z.to_nat (q mod 10))
          /\ (2 * Z.abs (q * Z.of_nat rows - 1000 * Z.of_nat count)
              <= Z.of_nat rows)%Z)
  /\ map dtype_str [int64; uint64; float64; bool_; object_; datetime64] =
       ["int64"; "uint64"; "float64"; "bool"; "object"; "datetime64[ns]"].
Proof.
  split; [|split; [|split; [|reflexivity]]]; cycle 2.
  { intros count rows Hcount Hrows.
    destruct (percentage_is_rounded count rows Hcount Hrows)
      as (M & p & Heq & Hq & Herr).
    exists (tenths M (Zneg p)). rewrite Heq. now split. }
  - intros df i l Hnth Hl Hbefore. unfold Labelled._create_dataset_description.
    now rewrite (str_items_raises (labels df) 0 i l Hnth Hl Hbefore).
  - intros t _. cbv zeta. split; [|split; [|split; [|split; [|split; [|split]]]]].
    + unfold Labelled._create_dataset_description.
      rewrite labels_of_strings, str_items_of_strings.
      rewrite with_names_of_strings, description_of_strings.
      do 3 f_equal.
      destruct (filter (fun c => is_number (col_dtype c)) (df_columns t));
        destruct (filter (fun c => Nat.ltb 0 (null_count c)) (df_columns t));
        reflexivity.
    + intro c. now rewrite filter_In, is_number_dtypes.
    + apply value_counts_NoDup.
    + intros d n. apply value_counts_In.
    + apply value_counts_sorted.
    + unfold dtypes. now rewrite value_counts_total, length_map.
    + intro c. now rewrite filter_In, null_count_pos.
Qed.

End Describer.

(** ** Loops of the ingestion passes *)

Lemma bind_ok {S A B} (m : M S A) (f : A -> M S B) (w : S) (a : A) :
  value (m w) = Ok a ->
  bind m f w =
    (value (f a (final (m w))), final (f a (final (m w))),
     (trace (m w) ++ trace (f a (final (m w))))%list).
Proof.
  unfold bind. destruct (m w) as [[r w1] l1]. cbn. intros ->.
  now destruct (f a w1) as [[r2 w2] l2].
Qed.

Lemma for_each_run {S A} (body : A -> M S unit) (l : list A) (w : S) :
  (forall x w', value (body x w') = Ok tt) ->
  value (for_each l body w) = Ok tt
  /\ final (for_each l body w) = fold_left (fun s x => final (body x s)) l w.
Proof.
  intro Hok. revert w. induction l as [|x l IH]; intro w; cbn.
  - now split.
  - unfold bind. specialize (Hok x w).
    destruct (body x w) as [[r w1] l1]. cbn in Hok. subst r.
    specialize (IH w1).
    destruct (for_each l body w1) as [[r2 w2] l2]. cbn in *. exact IH.
Qed.

Lemma for_each_trace {S A} (P : event -> Prop) (body : A -> M S unit)
  (l : list A) (w : S) :
  (forall x w', Forall P (trace (body x w'))) ->
  Forall P (trace (for_each l body w)).
Proof.
  intro Hall. revert w. induction l as [|x l IH]; intro w; cbn.
  - constructor.
  - unfold bind. specialize (Hall x w).
    destruct (body x w) as [[[a|e] w1] l1]; cbn in *; [|exact Hall].
    specialize (IH w1).
    destruct (for_each l body w1) as [[r2 w2] l2]. cbn in *.
    apply Forall_app. now split.
Qed.

Lemma fold_left_invariant {S A} (I : S -> Prop) (step : S -> A -> S)
  (l : list A) (w : S) :
  (forall s x, I s -> I (step s x)) -> I w -> I (fold_left step l w).
Proof.
  intro Hstep. revert w. induction l as [|x l IH]; intros w Hw; cbn; auto.
Qed.

(** ** File name suffixes *)

Lemma endswith_last (s suf : string) :
  endswith s suf = true ->
  suf <> "" ->
  String.get (String.length s - 1) s =
  String.get (String.length suf - 1) suf.
Proof.
  unfold endswith. intros H Hne.
  apply andb_true_iff in H. destruct H as [Hle Heq].
  apply Nat.leb_le in Hle. apply String.eqb_eq in Heq.
  assert (Hpos : 0 < String.length suf).
  { destruct suf; [congruence | cbn; lia]. }
  set (n := String.length s) in *. set (m := String.length suf) in *.
  replace (String.get (m - 1) suf)
    with (String.get (m - 1) (substring (n - m) m s)) by now rewrite Heq.
  rewrite substring_correct1 by lia. f_equal. lia.
Qed.

Lemma endswith_exclusive (s a b : string) :
  a <> "" -> b <> "" ->
  String.get (String.length a - 1) a <> String.get (String.length b - 1) b ->
  endswith s a = true -> endswith s b = false.
Proof.
  intros Ha Hb Hdiff H. destruct (endswith s b) eqn:E; [|reflexivity].
  exfalso. apply Hdiff.
  rewrite <- (endswith_last s a H Ha). now apply endswith_last.
Qed.

Lemma docx_is_not_pdf (s : string) :
  endswith s ".docx" = true -> endswith s ".pdf" = false.
Proof. apply endswith_exclusive; cbn; congruence. Qed.

Lemma txt_is_not_pdf (s : string) :
  endswith s ".txt" = true -> endswith s ".pdf" = false.
Proof. apply endswith_exclusive; cbn; congruence. Qed.

Lemma txt_is_not_docx (s : string) :
  endswith s ".txt" = true -> endswith s ".docx" = false.
Proof. apply endswith_exclusive; cbn; congruence. Qed.

(** ** What the document pass appends *)

Section NewDocuments.

Context {fs : FileSystem}.

Lemma new_document_of_empty_text (folder_path file : string) :
  parses_to_empty_text folder_path file ->
  new_document folder_path file = None.
Proof.
  unfold new_document, parse_document_file.
  intros [[Hsuf Htext]|[[Hsuf Htext]|[Hsuf Htext]]];
    destruct (startswith file "."); try reflexivity;
    unfold try_except, bind, lift, _parse_pdf, _parse_docx, append_document.
  - rewrite Hsuf.
    destruct (pdf_try (path_join folder_path file)) as [text [e|]];
      cbn in Htext; subst text; reflexivity.
  - rewrite (docx_is_not_pdf file Hsuf), Hsuf.
    destruct (docx_try (path_join folder_path file)) as [text [e|]];
      cbn in Htext; subst text; reflexivity.
  - rewrite (txt_is_not_pdf file Hsuf), (txt_is_not_docx file Hsuf), Hsuf.
    rewrite Htext. reflexivity.
Qed.

Lemma new_document_is_of_file (folder_path file : string) (d : doc_record) :
  new_document folder_path file = Some d ->
  filename d = file /\ nonempty (content d) = true /\ chunks d = [].
Proof.
  unfold new_document, parse_document_file.
  destruct (startswith file "."); [discriminate|].
  unfold try_except.
  destruct (endswith file ".pdf");
    [|destruct (endswith file ".docx"); [|destruct (endswith file ".txt")]];
    unfold bind, lift, _parse_pdf, _parse_docx, append_document.
  - destruct (pdf_try (path_join folder_path file)) as [text [e|]]; cbn;
      destruct (nonempty text) eqn:E; cbn; intro H; inversion H; now cbn.
  - destruct (docx_try (path_join folder_path file)) as [text [e|]]; cbn;
      destruct (nonempty text) eqn:E; cbn; intro H; inversion H; now cbn.
  - destruct (read_text (path_join folder_path file)) as [text|e]; cbn;
      [|discriminate].
    destruct (nonempty text) eqn:E; cbn; intro H; inversion H; now cbn.
  - discriminate.
Qed.

End NewDocuments.

(** ** Dictionaries *)

Lemma dict_get_set_same {V} (k : string) (v : V) (d : list (string * V)) :
  dict_get k (dict_set k v d) = Some v.
Proof.
  induction d as [|[k' v'] d IH]; cbn.
  - now rewrite String.eqb_refl.
  - destruct (String.eqb k' k) eqn:E; cbn.
    + now rewrite String.eqb_refl.
    + now rewrite E.
Qed.

Lemma dict_get_set_other {V} (k k0 : string) (v : V)
  (d : list (string * V)) :
  k <> k0 -> dict_get k0 (dict_set k v d) = dict_get k0 d.
Proof.
  intro Hne. induction d as [|[k' v'] d IH]; cbn.
  - apply String.eqb_neq in Hne. now rewrite Hne.
  - destruct (String.eqb k' k) eqn:E; cbn.
    + apply String.eqb_eq in E. subst k'.
      apply String.eqb_neq in Hne. now rewrite Hne.
    + now rewrite IH.
Qed.

Lemma dict_set_present {V} (k : string) (v : V) (d : list (string * V)) :
  dict_get k d = Some v -> dict_set k v d = d.
Proof.
  induction d as [|[k' v'] d IH]; cbn; [discriminate|].
  destruct (String.eqb k' k) eqn:E.
  - apply String.eqb_eq in E. subst k'. intro H. now inversion H.
  - intro H. now rewrite IH.
Qed.

Section Ingestion.

Variable VectorStore : Type.
Context {fs : FileSystem} {pd : Pandas} {sv : Services VectorStore}.

Local Notation "'state'" := (warehouse VectorStore).

(** One entry of the folder in the structured pass. *)
Lemma load_structured_file_run (folder_path file : string) (w : state) :
  value (load_structured_file folder_path file w) = Ok tt
  /\ final (load_structured_file folder_path file w) =
       with_table file (new_table folder_path file) w
  /\ Forall quiet (trace (load_structured_file folder_path file w)).
Proof.
  unfold new_table, load_structured_file.
  destruct (startswith file "."); [cbn; auto|].
  unfold try_except.
  destruct (endswith file ".csv");
    [|destruct (endswith file ".xlsx" || endswith file ".xls")];
    unfold bind, lift;
    try (destruct (read_csv (path_join folder_path file)));
    try (destruct (read_excel (path_join folder_path file)));
    cbn; repeat split; repeat constructor.
Qed.

(** One entry of the folder in the document pass. *)
Lemma parse_document_file_run (folder_path file : string) (w : state) :
  value (parse_document_file folder_path file w) = Ok tt
  /\ final (parse_document_file folder_path file w) =
       with_document (new_document folder_path file) w
  /\ Forall quiet (trace (parse_document_file folder_path file w)).
Proof.
  unfold new_document, parse_document_file.
  destruct (startswith file "."); [cbn; auto|].
  unfold try_except.
  destruct (endswith file ".pdf");
    [|destruct (endswith file ".docx"); [|destruct (endswith file ".txt")]];
    unfold bind, lift, _parse_pdf, _parse_docx, append_document.
  - destruct (pdf_try (path_join folder_path file)) as [text [e|]]; cbn;
      destruct (nonempty text); cbn; repeat split; repeat constructor.
  - destruct (docx_try (path_join folder_path file)) as [text [e|]]; cbn;
      destruct (nonempty text); cbn; repeat split; repeat constructor.
  - destruct (read_text (path_join folder_path file)) as [text|e]; cbn;
      [|repeat split; repeat constructor].
    destruct (nonempty text); cbn; repeat split; repeat constructor.
  - cbn. repeat split; repeat constructor.
Qed.

Lemma tables_pass_run (folder_path : string) (files : list string)
  (w : state) :
  value (for_each files (load_structured_file folder_path) w) = Ok tt
  /\ final (for_each files (load_structured_file folder_path) w) =
       tables_pass folder_path files w
  /\ Forall quiet (trace (for_each files (load_structured_file folder_path) w)).
Proof.
  pose proof (for_each_run (load_structured_file folder_path) files w
                (fun x s => proj1 (load_structured_file_run folder_path x s)))
    as [Hv Hf].
  split; [exact Hv|]. split.
  - rewrite Hf. unfold tables_pass. clear.
    revert w. induction files as [|x l IH]; intro w; cbn; [reflexivity|].
    rewrite (proj1 (proj2 (load_structured_file_run folder_path x w))).
    apply IH.
  - apply for_each_trace. intros x s.
    apply (load_structured_file_run folder_path x s).
Qed.

Lemma sized_run (w : state) :
  for_each (dict_values (structured_data w))
    (fun df => set_stats (add_data_size_mb (memory_usage df))) w =
  (Ok tt, sized w, []).
Proof.
  unfold sized. generalize (dict_values (structured_data w)) as l.
  intro l. revert w. induction l as [|df l IH]; intro w; [reflexivity|].
  cbn [for_each fold_left].
  rewrite (bind_ok _ _ w (tt)) by reflexivity.
  cbn [set_stats modify final trace value fst snd app].
  now rewrite IH.
Qed.

(** The structured pass. *)
Lemma _process_structured_data_run (folder_path : string)
  (files : list string) (w : state) :
  listdir folder_path = Ok files ->
  value (_process_structured_data folder_path w) = Ok tt
  /\ final (_process_structured_data folder_path w) =
       sized (tables_pass folder_path files w)
  /\ Forall quiet (trace (_process_structured_data folder_path w)).
Proof.
  intro Hls. unfold _process_structured_data.
  rewrite (bind_ok _ _ w (files)) by (unfold lift; now rewrite Hls).
  destruct (tables_pass_run folder_path files w) as (Hv & Hf & Ht).
  unfold lift at 1 2 3 4. cbn [final trace value fst snd app].
  rewrite !(bind_ok _ _ w tt Hv).
  cbn [final trace value fst snd]. rewrite Hf.
  unfold bind at 1 2 3, get. cbn [app].
  rewrite (sized_run (tables_pass folder_path files w)).
  cbn. rewrite app_nil_r. auto.
Qed.

(** The document pass. *)
Lemma _process_documents_run (folder_path : string) (files : list string)
  (w : state) :
  listdir folder_path = Ok files ->
  value (_process_documents folder_path w) = Ok tt
  /\ final (_process_documents folder_path w) =
       documents_pass folder_path files w
  /\ Forall quiet (trace (_process_documents folder_path w)).
Proof.
  intro Hls. unfold _process_documents, bind, lift. rewrite Hls.
  pose proof (for_each_run (parse_document_file folder_path) files w
                (fun x s => proj1 (parse_document_file_run folder_path x s)))
    as [Hv Hf].
  pose proof (for_each_trace quiet (parse_document_file folder_path) files w
                (fun x s => proj2 (proj2
                   (parse_document_file_run folder_path x s)))) as Ht.
  destruct (for_each files (parse_document_file folder_path) w)
    as [[r1 w1] l1].
  cbn in *. subst r1. split; [reflexivity|]. split; [|exact Ht].
  rewrite Hf. unfold documents_pass. clear.
  revert w. induction files as [|x l IH]; intro w; cbn; [reflexivity|].
  rewrite (proj1 (proj2 (parse_document_file_run folder_path x w))).
  apply IH.
Qed.

(** Building the index. *)
Lemma _create_vector_index_run (w : state) :
  _create_vector_index w =
    match submitted w with
    | [] => (Ok tt, chunked w, [])
    | _ :: _ =>
        let all_texts := map fst (submitted w) in
        let all_metadatas := map snd (submitted w) in
        match from_texts all_texts all_metadatas with
        | Ok vs =>
            (Ok tt, indexed vs (length all_texts) (chunked w),
             [call_from_texts all_texts all_metadatas])
        | Raise e =>
            (Ok tt, chunked w,
             [call_from_texts all_texts all_metadatas;
              st_error ("Error creating vector store: " ++ e)])
        end
    end.
Proof.
  unfold _create_vector_index.
  rewrite (bind_ok _ _ w (tt)) by reflexivity.
  cbn [set_documents modify final trace value fst snd app].
  fold (chunked w).
  rewrite (bind_ok _ _ (chunked w) (chunked w)) by reflexivity.
  cbn [get final trace value fst snd app].
  change (index_entries (documents (chunked w)) (structured_data (chunked w)))
    with (submitted w).
  destruct (submitted w) as [|entry entries]; [reflexivity|].
  cbn [map]. unfold try_except, bind, remote.
  destruct (from_texts _ _) as [vs|e]; reflexivity.
Qed.

Lemma _create_vector_index_ok (w : state) :
  value (_create_vector_index w) = Ok tt.
Proof.
  rewrite _create_vector_index_run.
  destruct (submitted w); [reflexivity|].
  cbv zeta. now destruct (from_texts _ _).
Qed.

(** A whole ingestion run over a folder that can be listed. *)
Lemma process_all_data_run (folder_path : string) (files : list string)
  (w : state) :
  path_exists folder_path = true ->
  listdir folder_path = Ok files ->
  let parsed :=
    documents_pass folder_path files
      (sized (tables_pass folder_path files (reset w))) in
  value (process_all_data folder_path w) =
    Ok (Some (summary_of (final (_create_vector_index parsed))))
  /\ final (process_all_data folder_path w) =
       final (_create_vector_index parsed)
  /\ exists log,
       trace (process_all_data folder_path w) =
         (log ++ trace (_create_vector_index parsed))%list
       /\ Forall quiet log.
Proof.
  intros Hex Hls parsed. unfold process_all_data. rewrite Hex. cbn [negb].
  rewrite (bind_ok _ _ w (tt)) by reflexivity.
  cbn [set_stats modify final trace value fst snd app]. fold (reset w).
  destruct (_process_structured_data_run folder_path files (reset w) Hls) as (Hv1 & Hf1 & Ht1).
  rewrite !(bind_ok _ _ (reset w) tt Hv1). rewrite Hf1.
  set (w1 := sized (tables_pass folder_path files (reset w))).
  destruct (_process_documents_run folder_path files w1 Hls) as (Hv2 & Hf2 & Ht2).
  rewrite !(bind_ok _ _ w1 tt Hv2). rewrite Hf2. fold parsed.
  rewrite !(bind_ok _ _ parsed tt (_create_vector_index_ok parsed)).
  cbn [final trace value fst snd].
  unfold get_summary, bind, get, ret. cbn.
  split; [reflexivity|]. split; [reflexivity|].
  exists (trace (_process_structured_data folder_path (reset w))
          ++ trace (_process_documents folder_path w1))%list.
  split.
  - now rewrite !app_nil_r, app_assoc.
  - apply Forall_app. now split.
Qed.

(** ** What each pass leaves alone *)

Lemma tables_pass_frame (folder_path : string) (files : list string)
  (w : state) :
  let w' := tables_pass folder_path files w in
  documents w' = documents w
  /\ vectorstore w' = vectorstore w
  /\ total_documents (stats w') = total_documents (stats w)
  /\ total_chunks (stats w') = total_chunks (stats w)
  /\ data_size_mb (stats w') = data_size_mb (stats w).
Proof.
  cbv zeta. unfold tables_pass.
  apply (fold_left_invariant
           (fun s : state =>
              documents s = documents w
              /\ vectorstore s = vectorstore w
              /\ total_documents (stats s) = total_documents (stats w)
              /\ total_chunks (stats s) = total_chunks (stats w)
              /\ data_size_mb (stats s) = data_size_mb (stats w))).
  - intros s x H. destruct (new_table folder_path x); exact H.
  - repeat split.
Qed.

Lemma sized_frame (w : state) :
  structured_data (sized w) = structured_data w
  /\ documents (sized w) = documents w
  /\ vectorstore (sized w) = vectorstore w
  /\ total_rows (stats (sized w)) = total_rows (stats w)
  /\ total_documents (stats (sized w)) = total_documents (stats w)
  /\ total_chunks (stats (sized w)) = total_chunks (stats w).
Proof.
  unfold sized.
  apply (fold_left_invariant
           (fun s : state =>
              structured_data s = structured_data w
              /\ documents s = documents w
              /\ vectorstore s = vectorstore w
              /\ total_rows (stats s) = total_rows (stats w)
              /\ total_documents (stats s) = total_documents (stats w)
              /\ total_chunks (stats s) = total_chunks (stats w))).
  - intros s x H. exact H.
  - repeat split.
Qed.

Lemma documents_pass_frame (folder_path : string) (files : list string)
  (w : state) :
  let w' := documents_pass folder_path files w in
  structured_data w' = structured_data w
  /\ vectorstore w' = vectorstore w
  /\ total_rows (stats w') = total_rows (stats w)
  /\ total_chunks (stats w') = total_chunks (stats w)
  /\ data_size_mb (stats w') = data_size_mb (stats w).
Proof.
  cbv zeta. unfold documents_pass.
  apply (fold_left_invariant
           (fun s : state =>
              structured_data s = structured_data w
              /\ vectorstore s = vectorstore w
              /\ total_rows (stats s) = total_rows (stats w)
              /\ total_chunks (stats s) = total_chunks (stats w)
              /\ data_size_mb (stats s) = data_size_mb (stats w))).
  - intros s x H. destruct (new_document folder_path x); exact H.
  - repeat split.
Qed.

(** The document pass appends the records of the folder and counts them. *)
Lemma documents_pass_documents (folder_path : string) (files : list string)
  (w : state) :
  let w' := documents_pass folder_path files w in
  documents w' = (documents w ++ folder_documents folder_path files)%list
  /\ total_documents (stats w') =
       total_documents (stats w) + length (folder_documents folder_path files).
Proof.
  cbv zeta. unfold documents_pass, folder_documents. revert w.
  induction files as [|x l IH]; intro w; cbn [fold_left flat_map].
  - now rewrite app_nil_r, Nat.add_0_r.
  - destruct (IH (with_document (new_document folder_path x) w)) as [Hd Hn].
    rewrite Hd, Hn.
    destruct (new_document folder_path x) as [d|]; cbn.
    + rewrite <- app_assoc. split; [reflexivity | lia].
    + now split.
Qed.

(** The state in which the index is built, and what it holds from the
    warehouse the run started in. *)
Lemma parsed_frame (folder_path : string) (files : list string) (w : state) :
  let parsed :=
    documents_pass folder_path files
      (sized (tables_pass folder_path files (reset w))) in
  vectorstore parsed = vectorstore w
  /\ total_chunks (stats parsed) = 0
  /\ documents parsed =
       (documents w ++ folder_documents folder_path files)%list
  /\ total_documents (stats parsed) =
       length (folder_documents folder_path files).
Proof.
  cbv zeta.
  set (w1 := tables_pass folder_path files (reset w)).
  destruct (tables_pass_frame folder_path files (reset w))
    as (Hd1 & Hv1 & Hn1 & Hc1 & _). fold w1 in Hd1, Hv1, Hn1, Hc1.
  destruct (sized_frame w1) as (_ & Hd2 & Hv2 & _ & Hn2 & Hc2).
  destruct (documents_pass_frame folder_path files (sized w1))
    as (_ & Hv3 & _ & Hc3 & _).
  destruct (documents_pass_documents folder_path files (sized w1))
    as (Hd3 & Hn3).
  cbv zeta in *.
  rewrite Hv3, Hv2, Hv1, Hc3, Hc2, Hc1, Hd3, Hd2, Hd1, Hn3, Hn2, Hn1.
  repeat split.
Qed.

(** ** A build that fails *)

Lemma failed_build_run (w : state) :
  (forall texts metadatas, is_ok (from_texts texts metadatas) = false) ->
  value (_create_vector_index w) = Ok tt
  /\ final (_create_vector_index w) = chunked w
  /\ (submitted w <> [] ->
      exists e,
        trace (_create_vector_index w) =
          [call_from_texts (map fst (submitted w)) (map snd (submitted w));
           st_error ("Error creating vector store: " ++ e)]).
Proof.
  intro Hdown. rewrite _create_vector_index_run.
  destruct (submitted w) as [|entry entries] eqn:E.
  - repeat split. intro H. now contradiction H.
  - cbv zeta. specialize (Hdown (map fst (entry :: entries))
                                (map snd (entry :: entries))).
    destruct (from_texts _ _) as [vs|e]; [discriminate|].
    repeat split. intros _. now exists e.
Qed.

(** C2 (amended). When [Chroma.from_texts] raises on whatever it is given,
    an ingestion run over a folder that can be listed reports the error and
    completes: it returns a summary, with [chunks_indexed] 0 and a [ready]
    flag that tells whether the warehouse held an index before the run; the
    index of the warehouse is the one it held before the run, and
    [total_chunks] is 0. *)
Theorem failed_build_keeps_previous_index (folder_path : string)
  (files : list string) (w : state) :
  path_exists folder_path = true ->
  listdir folder_path = Ok files ->
  (forall texts metadatas, is_ok (from_texts texts metadatas) = false) ->
  vectorstore (final (process_all_data folder_path w)) = vectorstore w
  /\ total_chunks (stats (final (process_all_data folder_path w))) = 0
  /\ (exists s,
        value (process_all_data folder_path w) = Ok (Some s)
        /\ sum_chunks_indexed s = 0
        /\ sum_ready s = match vectorstore w with
                         | Some _ => true
                         | None => false
                         end)
  /\ (forall texts metadatas,
        In (call_from_texts texts metadatas)
           (trace (process_all_data folder_path w)) ->
        exists e,
          In (st_error ("Error creating vector store: " ++ e))
             (trace (process_all_data folder_path w))).
Proof.
  intros Hex Hls Hdown.
  destruct (process_all_data_run folder_path files w Hex Hls)
    as (Hv & Hf & log & Ht & Hquiet).
  cbv zeta in Hv, Hf, Ht.
  set (parsed := documents_pass folder_path files
                   (sized (tables_pass folder_path files (reset w)))) in *.
  destruct (failed_build_run parsed Hdown) as (_ & Hfinal & Htrace).
  destruct (parsed_frame folder_path files w) as (Hvs & Hchunks & _).
  fold parsed in Hvs, Hchunks.
  rewrite Hf, Hv, Ht, Hfinal. cbn [chunked vectorstore stats].
  split; [exact Hvs|]. split; [exact Hchunks|]. split.
  - eexists. split; [reflexivity|]. cbn. rewrite Hvs, Hchunks. now split.
  - intros texts metadatas Hin. apply in_app_or in Hin.
    destruct Hin as [Hin|Hin].
    + rewrite Forall_forall in Hquiet. apply Hquiet in Hin. discriminate.
    + destruct (submitted parsed) as [|entry entries] eqn:E.
      * rewrite _create_vector_index_run, E in Hin. contradiction.
      * destruct Htrace as [e He]; [discriminate|].
        exists e. apply in_or_app. right. rewrite He. right. now left.
Qed.

(** ** Files without text *)

Lemma _create_vector_index_frame (w : state) :
  documents (final (_create_vector_index w)) =
    map chunk_document (documents w)
  /\ structured_data (final (_create_vector_index w)) = structured_data w
  /\ total_rows (stats (final (_create_vector_index w))) =
       total_rows (stats w)
  /\ total_documents (stats (final (_create_vector_index w))) =
       total_documents (stats w)
  /\ data_size_mb (stats (final (_create_vector_index w))) =
       data_size_mb (stats w).
Proof.
  rewrite _create_vector_index_run.
  destruct (submitted w); [now cbn|].
  cbv zeta. destruct (from_texts _ _); now cbn.
Qed.

Lemma _create_vector_index_calls (w : state) (texts : list string)
  (metadatas : list metadata) :
  In (call_from_texts texts metadatas) (trace (_create_vector_index w)) ->
  texts = map fst (submitted w) /\ metadatas = map snd (submitted w).
Proof.
  rewrite _create_vector_index_run.
  destruct (submitted w) as [|entry entries]; [contradiction|].
  cbv zeta. destruct (from_texts _ _); cbn.
  - intros [H|[]]. inversion H. now split.
  - intros [H|[H|[]]]; [|discriminate]. inversion H. now split.
Qed.

Lemma document_entry_source (docs : list doc_record)
  (tables_ : list (string * DataFrame)) (m : metadata) :
  In m (map snd (index_entries docs tables_)) ->
  md_type m = document ->
  exists doc, In doc docs /\ md_source m = filename doc.
Proof.
  unfold index_entries. rewrite map_app, in_app_iff.
  intros [H|H] Hkind.
  - apply in_map_iff in H. destruct H as ([t m'] & Heq & Hin).
    cbn in Heq. subst m'.
    apply in_flat_map in Hin. destruct Hin as (doc & Hdoc & Hin).
    exists doc. split; [exact Hdoc|].
    unfold document_entries in Hin. apply in_map_iff in Hin.
    destruct Hin as (ic & Heq & _). now inversion Heq.
  - rewrite map_map in H. apply in_map_iff in H.
    destruct H as (kv & Heq & _). subst m. discriminate.
Qed.

Lemma folder_documents_In (folder_path : string) (files : list string)
  (d : doc_record) :
  In d (folder_documents folder_path files) <->
  exists file, In file files /\ new_document folder_path file = Some d.
Proof.
  unfold folder_documents. rewrite in_flat_map. split.
  - intros (file & Hfile & Hin). exists file. split; [exact Hfile|].
    destruct (new_document folder_path file) as [d'|]; [|contradiction].
    destruct Hin as [->|[]]. reflexivity.
  - intros (file & Hfile & Hnew). exists file. split; [exact Hfile|].
    rewrite Hnew. now left.
Qed.

Lemma folder_documents_skip_empty (folder_path file : string)
  (files : list string) (d : doc_record) :
  parses_to_empty_text folder_path file ->
  In d (folder_documents folder_path files) ->
  filename d <> file.
Proof.
  intros Hempty Hin Heq. apply folder_documents_In in Hin.
  destruct Hin as (x & _ & Hnew).
  destruct (new_document_is_of_file folder_path x d Hnew) as (Hname & _).
  rewrite Heq in Hname. subst x.
  rewrite (new_document_of_empty_text folder_path file Hempty) in Hnew.
  discriminate.
Qed.

Lemma parse_document_file_report (folder_path file : string) (w : state) :
  parses_to_empty_text folder_path file ->
  let file_path := path_join folder_path file in
  (startswith file "." = true \/ endswith file ".txt" = true ->
   trace (parse_document_file folder_path file w) = [])
  /\ (startswith file "." = false ->
      endswith file ".pdf" = true ->
      trace (parse_document_file folder_path file w) =
        match snd (pdf_try file_path) with
        | Some e => [st_error ("Error parsing PDF " ++ file_path ++ ": " ++ e)]
        | None => []
        end)
  /\ (startswith file "." = false ->
      endswith file ".docx" = true ->
      trace (parse_document_file folder_path file w) =
        match snd (docx_try file_path) with
        | Some e =>
            [st_error ("Error parsing DOCX " ++ file_path ++ ": " ++ e)]
        | None => []
        end).
Proof.
  intros Hempty file_path. subst file_path. unfold parse_document_file.
  destruct (startswith file ".").
  - split; [reflexivity|]. split; discriminate.
  - unfold try_except, bind, lift, _parse_pdf, _parse_docx, append_document.
    destruct Hempty as [[Hsuf Htext]|[[Hsuf Htext]|[Hsuf Htext]]].
    + rewrite Hsuf.
      destruct (pdf_try (path_join folder_path file)) as [text [e|]] eqn:E;
        cbn in Htext; subst text; cbn [snd trace];
        (split; [intros [H|H];
                   [discriminate
                   | now rewrite (txt_is_not_pdf file H) in Hsuf]|]);
        (split; [reflexivity|]);
        intros _ H; now rewrite (docx_is_not_pdf file H) in Hsuf.
    + rewrite (docx_is_not_pdf file Hsuf), Hsuf.
      destruct (docx_try (path_join folder_path file)) as [text [e|]] eqn:E;
        cbn in Htext; subst text; cbn [snd trace];
        (split; [intros [H|H];
                   [discriminate
                   | now rewrite (txt_is_not_docx file H) in Hsuf]|]);
        (split; [|reflexivity]);
        intros _ H; discriminate H.
    + rewrite (txt_is_not_pdf file Hsuf), (txt_is_not_docx file Hsuf), Hsuf.
      rewrite Htext. cbn [trace].
      split; [reflexivity|].
      split; intros _ H; discriminate H.
Qed.

(** C10 (amended). A document file whose parser ends with the empty text
    leaves the warehouse as it was when the document pass reaches it: no
    record is appended and [total_documents] is not incremented.  The user is
    told nothing at a text file, at an entry whose name starts with a dot,
    which is skipped, and at a PDF or Word document that was read to its
    end; the user is told the error of the parser, once, when it was not.
    After a run over the folder, the document
    records are the ones held before the run followed by the ones of the
    folder, none of which has the name of that file; [total_documents]
    counts the records of the folder; and a document entry submitted to the
    index under the name of that file comes from a record that was held
    before the run. *)
Theorem empty_text_file_is_omitted (folder_path file : string)
  (files : list string) (w : state) :
  parses_to_empty_text folder_path file ->
  (value (parse_document_file folder_path file w) = Ok tt
   /\ final (parse_document_file folder_path file w) = w
   /\ (startswith file "." = true \/ endswith file ".txt" = true ->
       trace (parse_document_file folder_path file w) = [])
   /\ (startswith file "." = false ->
       endswith file ".pdf" = true ->
       trace (parse_document_file folder_path file w) =
         match snd (pdf_try (path_join folder_path file)) with
         | Some e =>
             [st_error ("Error parsing PDF " ++ path_join folder_path file
                        ++ ": " ++ e)]
         | None => []
         end)
   /\ (startswith file "." = false ->
       endswith file ".docx" = true ->
       trace (parse_document_file folder_path file w) =
         match snd (docx_try (path_join folder_path file)) with
         | Some e =>
             [st_error ("Error parsing DOCX " ++ path_join folder_path file
                        ++ ": " ++ e)]
         | None => []
         end))
  /\ (path_exists folder_path = true ->
      listdir folder_path = Ok files ->
      documents (final (process_all_data folder_path w)) =
        map chunk_document
            (documents w ++ folder_documents folder_path files)%list
      /\ (forall d,
            In d (folder_documents folder_path files) -> filename d <> file)
      /\ total_documents (stats (final (process_all_data folder_path w))) =
           length (folder_documents folder_path files)
      /\ (forall texts metadatas m,
            In (call_from_texts texts metadatas)
               (trace (process_all_data folder_path w)) ->
            In m metadatas ->
            md_type m = document ->
            md_source m = file ->
            exists d, In d (documents w) /\ filename d = file)).
Proof.
  intro Hempty. split.
  - destruct (parse_document_file_run folder_path file w) as (Hv & Hf & _).
    split; [exact Hv|]. split.
    + now rewrite Hf, (new_document_of_empty_text folder_path file Hempty).
    + exact (parse_document_file_report folder_path file w Hempty).
  - intros Hex Hls.
    destruct (process_all_data_run folder_path files w Hex Hls)
      as (_ & Hf & log & Ht & Hquiet).
    cbv zeta in Hf, Ht.
    set (parsed := documents_pass folder_path files
                     (sized (tables_pass folder_path files (reset w)))) in *.
    destruct (parsed_frame folder_path files w) as (_ & _ & Hdocs & Hcount).
    fold parsed in Hdocs, Hcount.
    destruct (_create_vector_index_frame parsed) as (Hd & _ & _ & Hn & _).
    rewrite Hf, Ht, Hd, Hn, Hcount, Hdocs.
    split; [reflexivity|]. split.
    + intros d. now apply folder_documents_skip_empty.
    + split; [reflexivity|].
      intros texts metadatas m Hcall Hm Hkind Hsource.
      apply in_app_or in Hcall. destruct Hcall as [Hcall|Hcall].
      * rewrite Forall_forall in Hquiet. apply Hquiet in Hcall.
        discriminate.
      * apply _create_vector_index_calls in Hcall.
        destruct Hcall as [_ ->].
        apply document_entry_source in Hm; [|exact Hkind].
        destruct Hm as (doc & Hdoc & Hname).
        cbn [chunked documents] in Hdoc. apply in_map_iff in Hdoc.
        destruct Hdoc as (d0 & <- & Hin). cbn [chunk_document filename] in Hname.
        rewrite Hdocs in Hin. apply in_app_or in Hin.
        destruct Hin as [Hin|Hin].
        -- exists d0. split; [exact Hin | congruence].
        -- exfalso.
           apply (folder_documents_skip_empty folder_path file files d0
                    Hempty Hin).
           congruence.
Qed.

(** ** Ingesting a folder again *)

Lemma tables_pass_tables (folder_path : string) (files : list string)
  (w : state) :
  structured_data (tables_pass folder_path files w) =
    load_tables folder_path files (structured_data w)
  /\ total_rows (stats (tables_pass folder_path files w)) =
       total_rows (stats w) + folder_rows folder_path files.
Proof.
  unfold tables_pass, load_tables, folder_rows. revert w.
  induction files as [|x l IH]; intro w; cbn [fold_left fold_right].
  - split; [reflexivity | lia].
  - destruct (IH (with_table x (new_table folder_path x) w)) as [Hd Hn].
    rewrite Hd, Hn.
    destruct (new_table folder_path x) as [df|]; cbn;
      split; try reflexivity; lia.
Qed.

Lemma sized_size (w : state) :
  data_size_mb (stats (sized w)) =
  (data_size_mb (stats w) + tables_size (structured_data w))%N.
Proof.
  unfold sized, tables_size.
  generalize (dict_values (structured_data w)) as l. intro l. revert w.
  induction l as [|df l IH]; intro w; cbn [fold_left fold_right].
  - lia.
  - rewrite IH. cbn. lia.
Qed.

Lemma load_tables_keeps (folder_path x : string) (df : DataFrame)
  (files : list string) (d : list (string * DataFrame)) :
  new_table folder_path x = Some df ->
  dict_get x d = Some df ->
  dict_get x (load_tables folder_path files d) = Some df.
Proof.
  intros Hx. unfold load_tables. revert d.
  induction files as [|y l IH]; intros d Hd; cbn; [exact Hd|].
  apply IH. destruct (new_table folder_path y) as [dfy|] eqn:Ey;
    [|exact Hd].
  destruct (string_dec y x) as [->|Hne].
  - rewrite Hx in Ey. inversion Ey. subst dfy. apply dict_get_set_same.
  - now rewrite dict_get_set_other.
Qed.

Lemma load_tables_holds (folder_path x : string) (df : DataFrame)
  (files : list string) (d : list (string * DataFrame)) :
  In x files ->
  new_table folder_path x = Some df ->
  dict_get x (load_tables folder_path files d) = Some df.
Proof.
  intros Hin Hx. revert d. induction files as [|y l IH]; intro d;
    [contradiction|].
  destruct Hin as [->|Hin].
  - change (load_tables folder_path (x :: l) d)
      with (load_tables folder_path l
              (match new_table folder_path x with
               | Some df0 => dict_set x df0 d
               | None => d
               end)).
    rewrite Hx. apply load_tables_keeps; [exact Hx|].
    apply dict_get_set_same.
  - apply (IH Hin).
Qed.

Lemma load_tables_fixed (folder_path : string) (files : list string)
  (d : list (string * DataFrame)) :
  (forall x df, In x files -> new_table folder_path x = Some df ->
                dict_get x d = Some df) ->
  load_tables folder_path files d = d.
Proof.
  unfold load_tables. induction files as [|y l IH]; intro H; cbn;
    [reflexivity|].
  destruct (new_table folder_path y) as [dfy|] eqn:Ey.
  - rewrite (dict_set_present y dfy d) by (apply H; [now left | exact Ey]).
    apply IH. intros x df Hin. apply H. now right.
  - apply IH. intros x df Hin. apply H. now right.
Qed.

(** Loading the tables of a folder into a dictionary that holds them
    already changes nothing. *)
Lemma load_tables_idempotent (folder_path : string) (files : list string)
  (d : list (string * DataFrame)) :
  load_tables folder_path files (load_tables folder_path files d) =
  load_tables folder_path files d.
Proof.
  apply load_tables_fixed. intros x df Hin Hx.
  now apply load_tables_holds.
Qed.

Lemma document_entries_length (doc : doc_record) :
  length (document_entries (chunk_document doc)) =
  length (split_text (content doc)).
Proof.
  unfold document_entries. cbn.
  rewrite length_map, length_combine, length_seq. apply Nat.min_id.
Qed.

Lemma chunk_count_app (a b : list doc_record) :
  chunk_count (a ++ b) = chunk_count a + chunk_count b.
Proof.
  unfold chunk_count. now rewrite flat_map_app, length_app.
Qed.

Lemma chunk_count_chunked (docs : list doc_record) :
  chunk_count (map chunk_document docs) = chunk_count docs.
Proof.
  unfold chunk_count. induction docs as [|d docs IH]; cbn; [reflexivity|].
  rewrite !length_app. cbn in IH. now rewrite IH.
Qed.

Lemma submitted_length (w : state) :
  length (submitted w) =
  chunk_count (documents w) + length (structured_data w).
Proof.
  unfold submitted, index_entries, chunk_count, chunked.
  cbn [documents structured_data].
  rewrite length_app, length_map. f_equal.
  induction (documents w) as [|d docs IH]; [reflexivity|].
  cbn [map flat_map].
  now rewrite !length_app, document_entries_length, IH.
Qed.

(** The warehouse after a run during which the embedding service is up. *)
Lemma process_all_data_up (folder_path : string) (files : list string)
  (w : state) :
  path_exists folder_path = true ->
  listdir folder_path = Ok files ->
  (forall texts metadatas, is_ok (from_texts texts metadatas) = true) ->
  let w' := final (process_all_data folder_path w) in
  let docs := (documents w ++ folder_documents folder_path files)%list in
  let tables_ := load_tables folder_path files (structured_data w) in
  value (process_all_data folder_path w) = Ok (Some (summary_of w'))
  /\ structured_data w' = tables_
  /\ documents w' = map chunk_document docs
  /\ total_rows (stats w') = folder_rows folder_path files
  /\ total_documents (stats w') =
       length (folder_documents folder_path files)
  /\ total_chunks (stats w') = chunk_count docs + length tables_
  /\ data_size_mb (stats w') = tables_size tables_
  /\ (match vectorstore w' with Some _ => true | None => false end =
      match chunk_count docs + length tables_ with
      | 0 => match vectorstore w with Some _ => true | None => false end
      | S _ => true
      end).
Proof.
  intros Hex Hls Hup.
  destruct (process_all_data_run folder_path files w Hex Hls)
    as (Hv & Hf & _).
  cbv zeta in *.
  set (w1 := tables_pass folder_path files (reset w)) in *.
  set (parsed := documents_pass folder_path files (sized w1)) in *.
  destruct (tables_pass_tables folder_path files (reset w)) as [Ht1 Hr1].
  destruct (tables_pass_frame folder_path files (reset w))
    as (_ & _ & _ & _ & Hs1).
  fold w1 in Ht1, Hr1, Hs1. cbn in Ht1, Hr1, Hs1.
  destruct (sized_frame w1) as (Ht2 & _ & _ & Hr2 & _).
  pose proof (sized_size w1) as Hs2.
  destruct (documents_pass_frame folder_path files (sized w1))
    as (Ht3 & _ & Hr3 & _ & Hs3).
  fold parsed in Ht3, Hr3, Hs3.
  destruct (parsed_frame folder_path files w) as (Hvs & Hc & Hd & Hn).
  fold w1 in Hvs, Hc, Hd, Hn. fold parsed in Hvs, Hc, Hd, Hn.
  assert (Htables : structured_data parsed =
                    load_tables folder_path files (structured_data w)).
  { now rewrite Ht3, Ht2, Ht1. }
  assert (Hrows : total_rows (stats parsed) = folder_rows folder_path files).
  { now rewrite Hr3, Hr2, Hr1. }
  assert (Hsize : data_size_mb (stats parsed) =
                  tables_size
                    (load_tables folder_path files (structured_data w))).
  { rewrite Hs3, Hs2, Hs1, Ht1. lia. }
  pose proof (submitted_length parsed) as Hlen.
  rewrite Hd, Htables in Hlen.
  rewrite Hv, Hf. split; [reflexivity|].
  rewrite _create_vector_index_run.
  destruct (submitted parsed) as [|entry entries] eqn:E.
  - cbn [final fst snd chunked structured_data documents stats vectorstore].
    cbn [length] in Hlen. rewrite <- Hlen, Hc, Hd, Hvs. repeat split; auto.
  - cbv zeta. specialize (Hup (map fst (entry :: entries))
                              (map snd (entry :: entries))).
    destruct (from_texts _ _) as [vs|e]; [|discriminate].
    cbn [final fst snd chunked indexed structured_data documents stats
         vectorstore set_total_chunks total_rows total_documents total_chunks
         data_size_mb].
    rewrite length_map, Hlen, Hd. repeat split; auto.
    rewrite <- Hlen. reflexivity.
Qed.

Lemma chunk_document_again (docs : list doc_record) :
  map chunk_document (map chunk_document docs) = map chunk_document docs.
Proof. rewrite map_map. now apply map_ext. Qed.

(** C1. Ingesting a folder a second time in the same session, with the
    embedding service up, does not give the summary of the first run back:
    the document records of the folder are appended to [self.documents]
    once more, and [chunks_indexed], the number of entries given to the
    index, grows by the number of chunks of the folder's documents.  The
    other fields of the summary are those of the first run. *)
Theorem reingestion_indexes_documents_again (folder_path : string)
  (files : list string) (w : state) :
  path_exists folder_path = true ->
  listdir folder_path = Ok files ->
  (forall texts metadatas, is_ok (from_texts texts metadatas) = true) ->
  let first := process_all_data folder_path w in
  let second := process_all_data folder_path (final first) in
  let again := folder_documents folder_path files in
  exists s1 s2,
    value first = Ok (Some s1)
    /\ value second = Ok (Some s2)
    /\ sum_chunks_indexed s2 = sum_chunks_indexed s1 + chunk_count again
    /\ documents (final second) =
         (documents (final first) ++ map chunk_document again)%list
    /\ sum_structured_files s2 = sum_structured_files s1
    /\ sum_total_rows s2 = sum_total_rows s1
    /\ sum_documents s2 = sum_documents s1
    /\ sum_data_size_mb s2 = sum_data_size_mb s1
    /\ sum_ready s2 = sum_ready s1.
Proof.
  intros Hex Hls Hup. cbv zeta.
  destruct (process_all_data_up folder_path files w Hex Hls Hup)
    as (Hv1 & Ht1 & Hd1 & Hr1 & Hn1 & Hc1 & Hs1 & Hy1).
  cbv zeta in *.
  set (w1 := final (process_all_data folder_path w)) in *.
  destruct (process_all_data_up folder_path files w1 Hex Hls Hup)
    as (Hv2 & Ht2 & Hd2 & Hr2 & Hn2 & Hc2 & Hs2 & Hy2).
  cbv zeta in *.
  set (w2 := final (process_all_data folder_path w1)) in *.
  set (again := folder_documents folder_path files) in *.
  rewrite Ht1, load_tables_idempotent in Ht2, Hc2, Hs2, Hy2.
  rewrite Hd1, chunk_count_app, chunk_count_chunked in Hc2, Hy2.
  rewrite Hd1, map_app, chunk_document_again, <- Hd1 in Hd2.
  rewrite chunk_count_app in Hc1, Hy1, Hc2, Hy2.
  exists (summary_of w1), (summary_of w2).
  split; [exact Hv1|]. split; [exact Hv2|].
  unfold summary_of. cbn.
  rewrite Hc1, Hc2, Hd2, Ht1, Ht2, Hr1, Hr2, Hn1, Hn2, Hs1, Hs2, Hy1, Hy2.
  repeat split; try reflexivity; try lia.
  destruct (chunk_count (documents w) + chunk_count again
            + length (load_tables folder_path files (structured_data w)))
    as [|n] eqn:E.
  - replace (chunk_count (documents w) + chunk_count again
             + chunk_count again
             + length (load_tables folder_path files (structured_data w)))
      with 0 by lia.
    exact Hy1.
  - destruct (_ + _ + _ + _) eqn:E2; [lia | reflexivity].
Qed.

(** ** What the counters count *)

(** C3. After a run with the embedding service up, [total_rows] and
    [total_documents] are computed from the folder alone, while
    [total_chunks] also counts the chunks of the documents and the tables
    that the warehouse held before the run, and [data_size_mb] is the size
    of every table held after it, those of earlier runs included. *)
Theorem stats_count_retained_data (folder_path : string)
  (files : list string) (w : state) :
  path_exists folder_path = true ->
  listdir folder_path = Ok files ->
  (forall texts metadatas, is_ok (from_texts texts metadatas) = true) ->
  let s := stats (final (process_all_data folder_path w)) in
  total_rows s = folder_rows folder_path files
  /\ total_documents s = length (folder_documents folder_path files)
  /\ total_chunks s =
       chunk_count (documents w)
       + chunk_count (folder_documents folder_path files)
       + length (load_tables folder_path files (structured_data w))
  /\ data_size_mb s =
       tables_size (load_tables folder_path files (structured_data w)).
Proof.
  intros Hex Hls Hup.
  destruct (process_all_data_up folder_path files w Hex Hls Hup)
    as (_ & _ & _ & Hr & Hn & Hc & Hs & _).
  cbv zeta in *. rewrite chunk_count_app in Hc. auto.
Qed.

End Ingestion.

(** * The properties at work in the example world *)


(** Ingesting [data] twice: two entries, then three. *)
Lemma reingestion_indexes_documents_again_witness :
  exists s1 s2,
    value (@process_all_data _ Example.files Example.pandas
             (Example.services true) "data" (__init__ Example.store))
      = Ok (Some s1)
    /\ value (@process_all_data _ Example.files Example.pandas
                (Example.services true) "data" Example.loaded)
         = Ok (Some s2)
    /\ sum_chunks_indexed s2 = sum_chunks_indexed s1 + 1
    /\ documents
         (final (@process_all_data _ Example.files Example.pandas
                   (Example.services true) "data" Example.loaded))
       = (documents Example.loaded
          ++ [ {| filename := "notes.txt"; doc_type := "txt";
                  content := "quarterly revenue grew";
                  chunks := ["quarterly revenue grew"] |} ])%list
    /\ sum_structured_files s2 = sum_structured_files s1
    /\ sum_total_rows s2 = sum_total_rows s1
    /\ sum_documents s2 = sum_documents s1
    /\ sum_data_size_mb s2 = sum_data_size_mb s1
    /\ sum_ready s2 = sum_ready s1.
Proof.
  exact (@reingestion_indexes_documents_again _ Example.files Example.pandas
           (Example.services true) "data"
           ["notes.txt"; "blank.txt"; ".hidden.txt"; "sales.csv"]
           (__init__ Example.store) eq_refl eq_refl
           (fun _ _ => eq_refl)).
Defined.

(** The two summaries of that session, in full. *)
Lemma reingestion_summaries :
  value (@process_all_data _ Example.files Example.pandas
           (Example.services true) "data" (__init__ Example.store))
    = Ok (Some {| sum_structured_files := 1; sum_total_rows := 2;
                  sum_documents := 1; sum_chunks_indexed := 2;
                  sum_data_size_mb := 300; sum_ready := true |})
  /\ value (@process_all_data _ Example.files Example.pandas
              (Example.services true) "data" Example.loaded)
       = Ok (Some {| sum_structured_files := 1; sum_total_rows := 2;
                     sum_documents := 1; sum_chunks_indexed := 3;
                     sum_data_size_mb := 300; sum_ready := true |}).
Proof. split; vm_compute; reflexivity. Qed.

(** With the services down, a run over [data] is not fatal: it returns a
    summary. *)
Lemma failed_build_is_not_fatal :
  (forall texts metadatas,
     @from_texts _ (Example.services false) texts metadatas
     = Raise "Connection error.")
  /\ ~ fatal (value (@process_all_data _ Example.files Example.pandas
                       (Example.services false) "data" Example.loaded)).
Proof.
  split; [reflexivity|]. vm_compute. intro H. exact H.
Qed.

Lemma failed_build_keeps_previous_index_witness :
  vectorstore
    (final (@process_all_data _ Example.files Example.pandas
              (Example.services false) "data" Example.loaded))
  = vectorstore Example.loaded
  /\ total_chunks
       (stats (final (@process_all_data _ Example.files Example.pandas
                        (Example.services false) "data" Example.loaded)))
     = 0
  /\ (exists s,
        value (@process_all_data _ Example.files Example.pandas
                 (Example.services false) "data" Example.loaded)
        = Ok (Some s)
        /\ sum_chunks_indexed s = 0
        /\ sum_ready s = true)
  /\ (forall texts metadatas,
        In (call_from_texts texts metadatas)
           (trace (@process_all_data _ Example.files Example.pandas
                     (Example.services false) "data" Example.loaded)) ->
        exists e,
          In (st_error ("Error creating vector store: " ++ e))
             (trace (@process_all_data _ Example.files Example.pandas
                       (Example.services false) "data" Example.loaded))).
Proof.
  exact (@failed_build_keeps_previous_index _ Example.files Example.pandas
           (Example.services false) "data"
           ["notes.txt"; "blank.txt"; ".hidden.txt"; "sales.csv"]
           Example.loaded eq_refl eq_refl (fun _ _ => eq_refl)).
Defined.

(** Ingesting the empty folder after [data]: no row and no document, yet
    two chunks and three megabytes. *)
Lemma stats_count_retained_data_witness :
  let s :=
    stats (final (@process_all_data _ Example.files Example.pandas
                    (Example.services true) "empty" Example.loaded)) in
  total_rows s = 0
  /\ total_documents s = 0
  /\ total_chunks s = 2
  /\ data_size_mb s = 3145728%N.
Proof.
  exact (@stats_count_retained_data _ Example.files Example.pandas
           (Example.services true) "empty" [] Example.loaded
           eq_refl eq_refl (fun _ _ => eq_refl)).
Defined.

(** The same folder ingested by a warehouse that holds nothing. *)
Lemma stats_of_empty_folder :
  stats (final (@process_all_data _ Example.files Example.pandas
                  (Example.services true) "empty" (__init__ Example.store)))
  = zero_stats
  /\ stats (final (@process_all_data _ Example.files Example.pandas
                     (Example.services true) "empty" Example.loaded))
     = {| total_rows := 0; total_documents := 0; total_chunks := 2;
          data_size_mb := 3145728 |}.
Proof. split; vm_compute; reflexivity. Qed.

Lemma ask_unified_without_data_witness :
  @ask_unified _ (Example.services true) "What is the IRR?"
    (__init__ Example.store)
  = (Ok "No data available to answer this question.",
     __init__ Example.store, []).
Proof.
  exact (@ask_unified_without_data _ (Example.services true)
           "What is the IRR?" (__init__ Example.store) eq_refl eq_refl).
Defined.

Lemma search_degrades_to_empty_witness :
  @search _ (Example.services true) "revenue" 5 (__init__ Example.store)
  = (Ok [], __init__ Example.store, [])
  /\ value (@search _ (Example.services false) "revenue" 5
              Example.memo_indexed) = Ok []
  /\ trace (@search _ (Example.services false) "revenue" 5
              Example.memo_indexed)
     = [call_similarity_search "revenue" 5;
        st_error "Search error: Connection error."].
Proof.
  split.
  - exact (proj1 (@search_degrades_to_empty _ (Example.services true)
                    "revenue" 5 (__init__ Example.store)) eq_refl).
  - pose proof (proj1 (proj2 (@search_degrades_to_empty _
                   (Example.services false) "revenue" 5
                   Example.memo_indexed))
                  Example.memo_store "Connection error." eq_refl eq_refl)
      as (Hv & _ & Ht).
    split; [exact Hv | exact Ht].
Defined.

Lemma ask_structured_data_always_text_witness :
  @ask_structured_data _ (Example.services true) "How many rows?"
    (__init__ Example.store)
  = (Ok "No structured data loaded.", __init__ Example.store, [])
  /\ value (@ask_structured_data _ (Example.services false)
              "How many rows?" Example.loaded)
     = Ok "Error analyzing structured data: Connection error.".
Proof.
  split.
  - exact (proj1 (@ask_structured_data_always_text _
                    (Example.services true) "How many rows?"
                    (__init__ Example.store)) eq_refl).
  - apply (proj1 (proj2 (@ask_structured_data_always_text _
                           (Example.services false) "How many rows?"
                           Example.loaded))).
    + discriminate.
    + reflexivity.
Defined.


(** The second day in [inbox]: the emptied memo and the scan that cannot be
    opened are parsed to the empty text.  The record and the chunk of the
    memo of the first day are still held, and the chunk is submitted to the
    index again; the failure of the scan is reported. *)
Lemma emptied_file_is_indexed_and_failure_is_reported :
  @parses_to_empty_text Inbox.second_day "inbox" "memo.txt"
  /\ @parses_to_empty_text Inbox.second_day "inbox" "scan.pdf"
  /\ reachable Inbox.ingested
  /\ trace (@process_all_data _ Inbox.second_day Example.pandas
              (Example.services true) "inbox" Inbox.ingested)
     = [ st_error "Error parsing PDF inbox/scan.pdf: EOF marker not found";
         call_from_texts ["call the bank"]
           [ {| md_source := "memo.txt"; md_type := document;
                md_chunk := 0; md_total_chunks := 1 |} ] ]
  /\ documents
       (final (@process_all_data _ Inbox.second_day Example.pandas
                 (Example.services true) "inbox" Inbox.ingested))
     = [ {| filename := "memo.txt"; doc_type := "txt";
            content := "call the bank"; chunks := ["call the bank"] |} ].
Proof.
  split; [right; right; split; reflexivity|].
  split; [left; split; reflexivity|].
  split.
  - exact (@reach_ingest _ Inbox.first_day Example.pandas
             (Example.services true) "inbox" (__init__ Example.store)
             reach_init).
  - split; vm_compute; reflexivity.
Qed.

Lemma empty_text_file_is_omitted_witness :
  (value (@parse_document_file _ Inbox.second_day "inbox" "scan.pdf"
            Inbox.ingested) = Ok tt
   /\ final (@parse_document_file _ Inbox.second_day "inbox" "scan.pdf"
               Inbox.ingested) = Inbox.ingested
   /\ trace (@parse_document_file _ Inbox.second_day "inbox" "scan.pdf"
               Inbox.ingested)
      = [st_error "Error parsing PDF inbox/scan.pdf: EOF marker not found"])
  /\ documents
       (final (@process_all_data _ Inbox.second_day Example.pandas
                 (Example.services true) "inbox" Inbox.ingested))
     = map (@chunk_document _ (Example.services true))
           (documents Inbox.ingested ++ [])
  /\ total_documents
       (stats (final (@process_all_data _ Inbox.second_day Example.pandas
                        (Example.services true) "inbox" Inbox.ingested)))
     = 0.
Proof.
  pose proof (@empty_text_file_is_omitted _ Inbox.second_day Example.pandas
                (Example.services true) "inbox" "scan.pdf"
                ["memo.txt"; "scan.pdf"] Inbox.ingested
                (or_introl (conj eq_refl eq_refl)))
    as [(Hvalue & Hfinal & _ & Hpdf & _) Hrun].
  split; [exact (conj Hvalue (conj Hfinal (Hpdf eq_refl eq_refl)))|].
  destruct (Hrun eq_refl eq_refl) as (Hdocs & _ & Hcount & _).
  split; [exact Hdocs | exact Hcount].
Defined.

(** The workbook with the years in its header row, and the workbook of the
    funds. *)
Lemma dataset_description_contents_witness :
  @Labelled._create_dataset_description Workbooks.pandas "revenue.xlsx"
    Workbooks.revenue
  = Raise "sequence item 1: expected str instance, int found"
  /\ @Labelled._create_dataset_description Workbooks.pandas "funds.xlsx"
       (of_strings Workbooks.funds)
     = Ok Workbooks.funds_description
  /\ exists q : Z,
       (0 <= q)%Z
       /\ format_1f (percentage 1 3) =
            str_of_nat (Z.to_nat (q / 10)) ++ "."
            ++ str_of_nat (Z.to_nat (q mod 10))
       /\ (2 * Z.abs (q * Z.of_nat 3 - 1000 * Z.of_nat 1) <= Z.of_nat 3)%Z.
Proof.
  split; [|split].
  - apply (proj1 (@dataset_description_contents Workbooks.pandas
                    "revenue.xlsx")
             Workbooks.revenue 1 (int_label 2021) eq_refl eq_refl).
    intros j Hj. exists "company". destruct j; [reflexivity | lia].
  - apply (proj1 (proj2 (@dataset_description_contents
                           Workbooks.pandas "funds.xlsx"))
             Workbooks.funds).
    repeat constructor; cbn; intuition discriminate.
  - apply (proj1 (proj2 (proj2 (@dataset_description_contents
                                  Workbooks.pandas "funds.xlsx")))
             1 3); [lia | reflexivity].
Defined.

(** Some percentages: a third, a sixteenth, whose two decimals end in a 5
    that goes to the even neighbour, and one row in two thousand, where the
    product is just above five hundredths. *)
Lemma percentages_to_one_decimal :
  map (fun cr => format_1f (percentage (fst cr) (snd cr)))
      [(1, 3); (2, 3); (1, 16); (3, 16); (1, 2000); (7, 7)]
  = ["33.3"; "66.7"; "6.2"; "18.8"; "0.1"; "100.0"].
Proof. vm_compute. reflexivity. Qed.

(** * Further properties of the warehouse *)

Section Runs.

Variable VectorStore : Type.
Context {fs : FileSystem} {pd : Pandas} {sv : Services VectorStore}.

Local Notation "'state'" := (warehouse VectorStore).

(** ** How a run can end *)

(** X1. For a folder that does not exist, [process_all_data] returns
    [None], tells the user so, calls no service and leaves the warehouse,
    its counters included, exactly as it was. *)
Theorem missing_folder_changes_nothing (folder_path : string) (w : state) :
  path_exists folder_path = false ->
  process_all_data folder_path w =
    (Ok None, w,
     [st_error ("Folder " ++ folder_path ++ " does not exist!")]).
Proof.
  intro Hno. unfold process_all_data. rewrite Hno. reflexivity.
Qed.

(** X2. When the path exists but cannot be listed, the exception of
    [os.listdir] leaves [process_all_data]: the counters have been reset by
    then, while tables, documents and index are untouched and nothing was
    sent to a service. *)
Theorem unlistable_folder_raises (folder_path e : string) (w : state) :
  path_exists folder_path = true ->
  listdir folder_path = Raise e ->
  process_all_data folder_path w = (Raise e, reset w, []).
Proof.
  intros Hex Hls. unfold process_all_data. rewrite Hex. cbn [negb].
  rewrite (bind_ok _ _ w tt) by reflexivity.
  cbn [set_stats modify final trace value fst snd app]. fold (reset w).
  unfold _process_structured_data, bind, lift. now rewrite Hls.
Qed.

Lemma outbound_quiet (log : list event) :
  Forall quiet log -> outbound log = [].
Proof.
  unfold outbound. induction 1 as [|e l He _ IH]; cbn; [reflexivity|].
  unfold quiet in He. now rewrite He.
Qed.

Lemma outbound_app (a b : list event) :
  outbound (a ++ b) = (outbound a ++ outbound b)%list.
Proof. apply filter_app. Qed.

Lemma load_tables_of_no_table (folder_path : string) (files : list string) :
  (forall file, In file files -> new_table folder_path file = None) ->
  load_tables folder_path files [] = [].
Proof.
  unfold load_tables. induction files as [|x l IH]; intro Hnone;
    [reflexivity|].
  cbn [fold_left]. rewrite (Hnone x) by now left.
  apply IH. intros file Hin. apply Hnone. now right.
Qed.

Lemma document_entries_kind (docs : list doc_record) :
  Forall (fun m => md_type m = document)
         (map snd (index_entries docs [])).
Proof.
  unfold index_entries. cbn [map]. rewrite app_nil_r.
  apply Forall_forall. intros m Hm. apply in_map_iff in Hm.
  destruct Hm as ([t m'] & <- & Hin). apply in_flat_map in Hin.
  destruct Hin as (doc & _ & Hin). unfold document_entries in Hin.
  apply in_map_iff in Hin. destruct Hin as (ic & Heq & _).
  now inversion Heq.
Qed.

(** X3. A run over a folder that can be listed and from which no table
    comes, in a warehouse that holds no table, always returns a summary, the
    one [get_summary] gives for the warehouse it leaves: no failure of a
    reader, of a parser or of the embedding service ends the run.  The
    warehouse still holds no table.  At most one call leaves the process,
    the one that submits texts to the index, and every text it submits is a
    chunk of a document. *)
Theorem document_folder_returns_summary (folder_path : string)
  (files : list string) (w : state) :
  path_exists folder_path = true ->
  listdir folder_path = Ok files ->
  structured_data w = [] ->
  (forall file, In file files -> new_table folder_path file = None) ->
  value (process_all_data folder_path w) =
    Ok (Some (summary_of (final (process_all_data folder_path w))))
  /\ structured_data (final (process_all_data folder_path w)) = []
  /\ (outbound (trace (process_all_data folder_path w)) = []
      \/ exists texts metadatas,
           outbound (trace (process_all_data folder_path w)) =
             [call_from_texts texts metadatas]
           /\ Forall (fun m => md_type m = document) metadatas).
Proof.
  intros Hex Hls Hempty Hnone.
  destruct (process_all_data_run VectorStore folder_path files w Hex Hls)
    as (Hv & Hf & log & Ht & Hquiet).
  cbv zeta in *.
  set (w1 := tables_pass folder_path files (reset w)) in *.
  set (parsed := documents_pass folder_path files (sized w1)) in *.
  assert (Htables : structured_data parsed = []).
  { destruct (documents_pass_frame VectorStore folder_path files (sized w1))
      as (H3 & _).
    destruct (sized_frame VectorStore w1) as (H2 & _).
    destruct (tables_pass_tables VectorStore folder_path files (reset w))
      as [H1 _].
    cbv zeta in H3. fold w1 in H1. fold parsed in H3.
    rewrite H3, H2, H1. cbn [reset structured_data]. rewrite Hempty.
    now apply load_tables_of_no_table. }
  rewrite Hv, Hf, Ht. split; [reflexivity|]. split.
  - destruct (_create_vector_index_frame VectorStore parsed) as (_ & -> & _).
    exact Htables.
  - rewrite outbound_app, (outbound_quiet log Hquiet). cbn [app].
    rewrite _create_vector_index_run.
    assert (Hkind : Forall (fun m => md_type m = document)
                           (map snd (submitted parsed))).
    { unfold submitted. rewrite Htables. apply document_entries_kind. }
    destruct (submitted parsed) as [|entry entries]; [now left|].
    right. cbv zeta. destruct (from_texts _ _); cbn; eauto.
Qed.

(** X4. A run over an empty folder by a warehouse that holds nothing calls
    no service, leaves the warehouse as [__init__] built it and returns the
    all-zero summary with [ready] false. *)
Theorem empty_folder_indexes_nothing (folder_path : string) :
  path_exists folder_path = true ->
  listdir folder_path = Ok [] ->
  process_all_data folder_path (__init__ VectorStore) =
    (Ok (Some empty_summary), __init__ VectorStore, []).
Proof.
  intros Hex Hls. unfold process_all_data. rewrite Hex. cbn [negb].
  unfold bind, set_stats, modify, _process_structured_data,
    _process_documents, lift.
  rewrite Hls. reflexivity.
Qed.

End Runs.

(** ** Extensions *)

Lemma endswith_nth_last (s suf : string) (k : nat) :
  endswith s suf = true ->
  k < String.length suf ->
  String.get (String.length s - 1 - k) s =
  String.get (String.length suf - 1 - k) suf.
Proof.
  unfold endswith. intros H Hk.
  apply andb_true_iff in H. destruct H as [Hle Heq].
  apply Nat.leb_le in Hle. apply String.eqb_eq in Heq.
  set (n := String.length s) in *. set (m := String.length suf) in *.
  replace (String.get (m - 1 - k) suf)
    with (String.get (m - 1 - k) (substring (n - m) m s)) by now rewrite Heq.
  rewrite substring_correct1 by lia. f_equal. lia.
Qed.

Lemma endswith_differs (s a b : string) (k : nat) :
  k < String.length a -> k < String.length b ->
  String.get (String.length a - 1 - k) a <>
  String.get (String.length b - 1 - k) b ->
  endswith s a = true -> endswith s b = false.
Proof.
  intros Ha Hb Hdiff H. destruct (endswith s b) eqn:E; [|reflexivity].
  exfalso. apply Hdiff.
  rewrite <- (endswith_nth_last s a k H Ha).
  now apply endswith_nth_last.
Qed.

(** A table extension excludes every document extension. *)
Lemma table_extension_is_no_document_extension (file : string) :
  endswith file ".csv" = true
  \/ endswith file ".xlsx" = true
  \/ endswith file ".xls" = true ->
  endswith file ".pdf" = false
  /\ endswith file ".docx" = false
  /\ endswith file ".txt" = false.
Proof.
  intros [H|[H|H]]; repeat split;
    first [ apply (endswith_differs file _ _ 0) with (4 := H);
            cbn; solve [lia | congruence]
          | apply (endswith_differs file _ _ 1) with (4 := H);
            cbn; solve [lia | congruence] ].
Qed.

Section Kinds.

Context {fs : FileSystem} {pd : Pandas}.

Lemma new_table_name (folder_path file : string) (df : DataFrame) :
  new_table folder_path file = Some df -> table_name file.
Proof.
  unfold new_table, load_structured_file, table_name.
  destruct (startswith file "."); [discriminate|].
  unfold try_except.
  destruct (endswith file ".csv") eqn:Ecsv; [intros _; auto|].
  destruct (endswith file ".xlsx") eqn:Ex; [intros _; auto|].
  destruct (endswith file ".xls") eqn:Es; [intros _; auto|].
  discriminate.
Qed.

Lemma new_document_name (folder_path file : string) (d : doc_record) :
  new_document folder_path file = Some d ->
  filename d = file
  /\ document_name file (doc_type d)
  /\ nonempty (content d) = true.
Proof.
  unfold new_document, parse_document_file, document_name.
  destruct (startswith file "."); [discriminate|].
  unfold try_except.
  destruct (endswith file ".pdf") eqn:Ep;
    [|destruct (endswith file ".docx") eqn:Ed;
      [|destruct (endswith file ".txt") eqn:Et]];
    unfold bind, lift, _parse_pdf, _parse_docx, append_document.
  - destruct (pdf_try (path_join folder_path file)) as [text [e|]]; cbn;
      destruct (nonempty text) eqn:E; cbn; intro H; inversion H; subst; cbn; intuition.
  - destruct (docx_try (path_join folder_path file)) as [text [e|]]; cbn;
      destruct (nonempty text) eqn:E; cbn; intro H; inversion H; subst; cbn;
      intuition.
  - destruct (read_text (path_join folder_path file)) as [text|e]; cbn;
      [|discriminate].
    destruct (nonempty text) eqn:E; cbn; intro H; inversion H; subst; cbn; intuition.
  - discriminate.
Qed.

Lemma document_extension_is_no_table_extension (file kind : string) :
  document_name file kind ->
  endswith file ".csv" = false
  /\ endswith file ".xlsx" = false
  /\ endswith file ".xls" = false.
Proof.
  intros [_ Hdoc].
  assert (Hnot : endswith file ".csv" = true
                 \/ endswith file ".xlsx" = true
                 \/ endswith file ".xls" = true -> False).
  { intro Hext.
    destruct (table_extension_is_no_document_extension file Hext)
      as (Hp & Hd & Ht).
    destruct Hdoc as [[_ H]|[[_ H]|[_ H]]]; congruence. }
  repeat split.
  - destruct (endswith file ".csv"); [exfalso; auto | reflexivity].
  - destruct (endswith file ".xlsx"); [exfalso; auto | reflexivity].
  - destruct (endswith file ".xls"); [exfalso; auto | reflexivity].
Qed.

(** X5. The two passes never take the same file.  An entry with a table
    extension passes through the document pass without a parser being
    tried, without a warning and without a change to the warehouse; an
    entry with a document extension passes through the structured pass the
    same way. *)
Theorem passes_take_disjoint_files {VS : Type} (folder_path file : string)
  (w : warehouse VS) :
  (table_name file ->
   parse_document_file folder_path file w = (Ok tt, w, []))
  /\ (forall kind,
        document_name file kind ->
        load_structured_file folder_path file w = (Ok tt, w, [])).
Proof.
  split.
  - intros [Hvisible Hext].
    destruct (table_extension_is_no_document_extension file Hext)
      as (Hp & Hd & Ht).
    unfold parse_document_file. now rewrite Hvisible, Hp, Hd, Ht.
  - intros kind Hdoc.
    destruct (document_extension_is_no_table_extension file kind Hdoc)
      as (Hc & Hx & Hs).
    destruct Hdoc as [Hvisible _].
    unfold load_structured_file. now rewrite Hvisible, Hc, Hx, Hs.
Qed.

End Kinds.

(** ** Keys of a dictionary *)

Lemma dict_keys_set_In {V} (k k0 : string) (v : V) (d : list (string * V)) :
  In k0 (dict_keys (dict_set k v d)) <-> k0 = k \/ In k0 (dict_keys d).
Proof.
  unfold dict_keys. induction d as [|[k' v'] d IH]; cbn.
  - intuition.
  - destruct (String.eqb k' k) eqn:E; cbn.
    + apply String.eqb_eq in E. subst k'. intuition.
    + rewrite IH. intuition.
Qed.

Lemma dict_keys_set_NoDup {V} (k : string) (v : V) (d : list (string * V)) :
  NoDup (dict_keys d) -> NoDup (dict_keys (dict_set k v d)).
Proof.
  unfold dict_keys. induction d as [|[k' v'] d IH]; cbn; intro H.
  - constructor; [intros [] | constructor].
  - inversion H as [|? ? Hnotin Hnd]; subst.
    destruct (String.eqb k' k) eqn:E; cbn.
    + apply String.eqb_eq in E. subst k'. now constructor.
    + constructor; [|now apply IH].
      intro Hin. apply (dict_keys_set_In k k' v d) in Hin.
      destruct Hin as [->|Hin]; [|contradiction].
      rewrite String.eqb_refl in E. discriminate.
Qed.

Section State.

Variable VectorStore : Type.
Context {fs : FileSystem} {pd : Pandas} {sv : Services VectorStore}.

Local Notation "'state'" := (warehouse VectorStore).

(** ** The warehouse a run leaves *)

Lemma process_all_data_state (folder_path : string) (files : list string)
  (w : state) :
  path_exists folder_path = true ->
  listdir folder_path = Ok files ->
  let w' := final (process_all_data folder_path w) in
  structured_data w' = load_tables folder_path files (structured_data w)
  /\ documents w' =
       map chunk_document
           (documents w ++ folder_documents folder_path files)
  /\ total_rows (stats w') = folder_rows folder_path files
  /\ total_documents (stats w') =
       length (folder_documents folder_path files)
  /\ data_size_mb (stats w') =
       tables_size (load_tables folder_path files (structured_data w))
  /\ ((vectorstore w' = vectorstore w /\ total_chunks (stats w') = 0)
      \/ (exists vs, vectorstore w' = Some vs)).
Proof.
  intros Hex Hls.
  destruct (process_all_data_run VectorStore folder_path files w Hex Hls)
    as (_ & Hf & _).
  cbv zeta in *.
  set (w1 := tables_pass folder_path files (reset w)) in *.
  set (parsed := documents_pass folder_path files (sized w1)) in *.
  destruct (tables_pass_tables VectorStore folder_path files (reset w))
    as [Ht1 Hr1].
  destruct (tables_pass_frame VectorStore folder_path files (reset w))
    as (_ & _ & _ & _ & Hs1).
  fold w1 in Ht1, Hr1, Hs1. cbn in Ht1, Hr1, Hs1.
  destruct (sized_frame VectorStore w1) as (Ht2 & _ & _ & Hr2 & _).
  pose proof (sized_size VectorStore w1) as Hs2.
  destruct (documents_pass_frame VectorStore folder_path files (sized w1))
    as (Ht3 & _ & Hr3 & _ & Hs3).
  fold parsed in Ht3, Hr3, Hs3.
  destruct (parsed_frame VectorStore folder_path files w)
    as (Hvs & Hc & Hd & Hn).
  fold w1 in Hvs, Hc, Hd, Hn. fold parsed in Hvs, Hc, Hd, Hn.
  destruct (_create_vector_index_frame VectorStore parsed)
    as (Hd4 & Ht4 & Hr4 & Hn4 & Hs4).
  rewrite Hf, Hd4, Ht4, Hr4, Hn4, Hs4.
  rewrite Ht3, Ht2, Ht1, Hd, Hr3, Hr2, Hr1, Hn, Hs3, Hs2, Hs1, Ht1.
  repeat split; try reflexivity; try lia.
  rewrite _create_vector_index_run.
  destruct (submitted parsed) as [|entry entries]; [left; now cbn|].
  cbv zeta. destruct (from_texts _ _) as [vs|e]; cbn.
  - right. now exists vs.
  - left. now split.
Qed.

Lemma process_all_data_ends (folder_path : string) (w : state) :
  final (process_all_data folder_path w) = w
  \/ final (process_all_data folder_path w) = reset w
  \/ exists files,
       path_exists folder_path = true /\ listdir folder_path = Ok files.
Proof.
  destruct (path_exists folder_path) eqn:Hex.
  - destruct (listdir folder_path) as [files|e] eqn:Hls.
    + right. right. now exists files.
    + right. left. unfold process_all_data. rewrite Hex. cbn [negb].
      rewrite (bind_ok _ _ w tt) by reflexivity.
      cbn [set_stats modify final trace value fst snd app]. fold (reset w).
      unfold _process_structured_data, bind, lift. now rewrite Hls.
  - left. unfold process_all_data. now rewrite Hex.
Qed.

End State.

(** ** What every warehouse of a session satisfies *)

Lemma load_tables_keys {fs : FileSystem} {pd : Pandas}
  (folder_path : string) (files : list string)
  (d : list (string * DataFrame)) :
  (NoDup (dict_keys d) ->
   NoDup (dict_keys (load_tables folder_path files d)))
  /\ (forall k,
        In k (dict_keys (load_tables folder_path files d)) ->
        In k (dict_keys d)
        \/ exists df, In k files /\ new_table folder_path k = Some df).
Proof.
  unfold load_tables. revert d.
  induction files as [|x l IH]; intro d; cbn [fold_left];
    [split; auto|].
  destruct (new_table folder_path x) as [df|] eqn:E.
  - destruct (IH (dict_set x df d)) as [Hnd Hin]. split.
    + intro H. apply Hnd. now apply dict_keys_set_NoDup.
    + intros k Hk. destruct (Hin k Hk) as [Hk'|(df' & Hl & Hdf)].
      * apply dict_keys_set_In in Hk'. destruct Hk' as [->|Hk']; [|now left].
        right. exists df. split; [now left | exact E].
      * right. exists df'. split; [now right | exact Hdf].
  - destruct (IH d) as [Hnd Hin]. split; [exact Hnd|].
    intros k Hk. destruct (Hin k Hk) as [Hk'|(df' & Hl & Hdf)];
      [now left|].
    right. exists df'. split; [now right | exact Hdf].
Qed.

(** X6. In every warehouse of a session, the table dictionary holds each
    file name once, and every name in it is the name of a visible file with
    a table extension. *)
Theorem tables_are_named_table_files {VS : Type} (w : warehouse VS) :
  reachable w ->
  NoDup (dict_keys (structured_data w))
  /\ forall file, In file (dict_keys (structured_data w)) -> table_name file.
Proof.
  induction 1 as [|fs pd sv folder_path w Hw [IHnd IHname]].
  - split; [constructor | intros file []].
  - destruct (@process_all_data_ends VS fs pd sv folder_path w)
      as [->|[->|(files & Hex & Hls)]]; [now split | now split |].
    destruct (@process_all_data_state VS fs pd sv folder_path files w
                Hex Hls) as (Ht & _).
    cbv zeta in Ht. rewrite Ht.
    destruct (load_tables_keys folder_path files (structured_data w))
      as [Hnd Hin].
    split; [now apply Hnd|].
    intros file Hfile. destruct (Hin file Hfile) as [Hold|(df & _ & Hdf)].
    + now apply IHname.
    + now apply (new_table_name folder_path file df).
Qed.

(** X7. In every warehouse of a session, each document record has a
    non-empty text, the name of a visible file, and the ['type'] that goes
    with the extension of that name. *)
Theorem documents_are_named_document_files {VS : Type} (w : warehouse VS) :
  reachable w ->
  forall d,
    In d (documents w) ->
    document_name (filename d) (doc_type d)
    /\ nonempty (content d) = true.
Proof.
  induction 1 as [|fs pd sv folder_path w Hw IH].
  - intros d [].
  - destruct (@process_all_data_ends VS fs pd sv folder_path w)
      as [->|[->|(files & Hex & Hls)]]; [exact IH | exact IH |].
    destruct (@process_all_data_state VS fs pd sv folder_path files w
                Hex Hls) as (_ & Hd & _).
    cbv zeta in Hd. rewrite Hd. intros d Hin.
    apply in_map_iff in Hin. destruct Hin as (d0 & <- & Hin). cbn.
    apply in_app_or in Hin. destruct Hin as [Hin|Hin]; [now apply IH|].
    apply folder_documents_In in Hin. destruct Hin as (file & _ & Hnew).
    destruct (new_document_name folder_path file d0 Hnew)
      as (-> & Hname & Htext).
    now split.
Qed.

(** X8. In every warehouse of a session, a positive [total_chunks] means
    that an index is held: without an index the counter is 0, so a
    summary with [chunks_indexed] above 0 has [ready] true. *)
Theorem chunks_counted_only_with_index {VS : Type} (w : warehouse VS) :
  reachable w ->
  vectorstore w = None -> total_chunks (stats w) = 0.
Proof.
  induction 1 as [|fs pd sv folder_path w Hw IH]; [reflexivity|].
  destruct (@process_all_data_ends VS fs pd sv folder_path w)
    as [->|[->|(files & Hex & Hls)]]; [exact IH | reflexivity |].
  destruct (@process_all_data_state VS fs pd sv folder_path files w
              Hex Hls) as (_ & _ & _ & _ & _ & [[_ Hc]|[vs Hvs]]).
  - intros _. exact Hc.
  - cbv zeta in Hvs. rewrite Hvs. discriminate.
Qed.

(** ** Index entries *)

Lemma combine_seq_nth {A} (l : list A) (start i : nat) (c : A) :
  In (i, c) (combine (seq start (length l)) l) ->
  start <= i /\ nth_error l (i - start) = Some c.
Proof.
  revert start. induction l as [|c0 l IH]; intros start Hin;
    [contradiction|].
  cbn in Hin. destruct Hin as [Heq|Hin].
  - inversion Heq; subst. rewrite Nat.sub_diag. now split.
  - destruct (IH (S start) Hin) as [Hle Hnth]. split; [lia|].
    replace (i - start) with (S (i - S start)) by lia. exact Hnth.
Qed.

Section Entries.

Context {pd : Pandas}.

Lemma document_entries_nth (doc : doc_record) (t : string) (m : metadata) :
  In (t, m) (document_entries doc) ->
  md_source m = filename doc
  /\ md_type m = document
  /\ md_total_chunks m = length (chunks doc)
  /\ nth_error (chunks doc) (md_chunk m) = Some t.
Proof.
  unfold document_entries. intro H. apply in_map_iff in H.
  destruct H as ([i c] & Heq & Hin). inversion Heq; subst. cbn.
  repeat split.
  apply combine_seq_nth in Hin. destruct Hin as [_ Hnth].
  now rewrite Nat.sub_0_r in Hnth.
Qed.

(** X9. Every entry built for the index is either a chunk of a held
    document or the description of a held table.  A chunk entry names its
    document as source, gives the number of chunks of that document as
    [total_chunks] and has for [chunk] the position, from 0, at which its
    text stands among them.  A table entry names its table, carries the
    description of that table and has [chunk] 0 of [total_chunks] 1.  In
    both cases [chunk] is below [total_chunks]. *)
Theorem index_entries_locate_their_text (docs : list doc_record)
  (tables_ : list (string * DataFrame)) (t : string) (m : metadata) :
  In (t, m) (index_entries docs tables_) ->
  md_chunk m < md_total_chunks m
  /\ ((md_type m = document
       /\ exists doc,
            In doc docs
            /\ md_source m = filename doc
            /\ md_total_chunks m = length (chunks doc)
            /\ nth_error (chunks doc) (md_chunk m) = Some t)
      \/ (md_type m = structured_data_kind
          /\ md_chunk m = 0
          /\ md_total_chunks m = 1
          /\ exists df,
               In (md_source m, df) tables_
               /\ t = _create_dataset_description (md_source m) df)).
Proof.
  unfold index_entries. intro H. apply in_app_or in H.
  destruct H as [H|H].
  - apply in_flat_map in H. destruct H as (doc & Hdoc & Hin).
    destruct (document_entries_nth doc t m Hin) as (Hs & Hk & Hn & Hnth).
    split.
    + rewrite Hn. apply nth_error_Some. now rewrite Hnth.
    + left. split; [exact Hk|]. now exists doc.
  - apply in_map_iff in H. destruct H as ([k df] & Heq & Hin).
    inversion Heq; subst. cbn. split; [lia|].
    right. repeat split. now exists df.
Qed.

(** The chunks of a document enter the index in their order. *)
Lemma document_entries_in_order (doc : doc_record) :
  map fst (document_entries doc) = chunks doc
  /\ map (fun e => md_chunk (snd e)) (document_entries doc) =
       seq 0 (length (chunks doc)).
Proof.
  unfold document_entries. rewrite !map_map. cbn.
  generalize 0 as start. intro start. revert start.
  induction (chunks doc) as [|c l IH]; intro start; cbn; [now split|].
  destruct (IH (S start)) as [H1 H2]. now rewrite H1, H2.
Qed.

End Entries.

Section RunResults.

Variable VectorStore : Type.
Context {fs : FileSystem} {pd : Pandas} {sv : Services VectorStore}.

Local Notation "'state'" := (warehouse VectorStore).

Lemma index_entries_texts (docs : list doc_record)
  (tables_ : list (string * DataFrame)) :
  map fst (index_entries docs tables_) =
  (flat_map chunks docs
   ++ map (fun kv => _create_dataset_description (fst kv) (snd kv))
          tables_)%list.
Proof.
  unfold index_entries. rewrite map_app, map_map. f_equal.
  induction docs as [|d docs IH]; cbn; [reflexivity|].
  rewrite map_app, IH. f_equal. apply document_entries_in_order.
Qed.

Lemma process_all_data_submits (folder_path : string)
  (files : list string) (w : state) (texts : list string)
  (metadatas : list metadata) :
  path_exists folder_path = true ->
  listdir folder_path = Ok files ->
  In (call_from_texts texts metadatas)
     (trace (process_all_data folder_path w)) ->
  let w' := final (process_all_data folder_path w) in
  texts =
    (flat_map chunks (documents w')
     ++ map (fun kv => _create_dataset_description (fst kv) (snd kv))
            (structured_data w'))%list
  /\ length metadatas = length texts.
Proof.
  intros Hex Hls Hcall.
  destruct (process_all_data_run VectorStore folder_path files w Hex Hls)
    as (_ & Hf & log & Ht & Hquiet).
  cbv zeta in *.
  set (parsed := documents_pass folder_path files
                   (sized (tables_pass folder_path files (reset w)))) in *.
  rewrite Ht in Hcall. apply in_app_or in Hcall.
  destruct Hcall as [Hcall|Hcall].
  { rewrite Forall_forall in Hquiet. apply Hquiet in Hcall. discriminate. }
  apply _create_vector_index_calls in Hcall. destruct Hcall as [-> ->].
  destruct (_create_vector_index_frame VectorStore parsed)
    as (Hd & Hs & _).
  rewrite Hf, Hd, Hs. split; [|now rewrite !length_map].
  unfold submitted. apply index_entries_texts.
Qed.

(** X10. What a run submits to the index is read off the warehouse it
    leaves: the chunks of every document record, record by record and in
    chunk order, followed by the description of every table in dictionary
    order, with one metadata dictionary per text. *)
Theorem submitted_texts_are_chunks_then_tables (folder_path : string)
  (files : list string) (w : state) (texts : list string)
  (metadatas : list metadata) :
  path_exists folder_path = true ->
  listdir folder_path = Ok files ->
  In (call_from_texts texts metadatas)
     (trace (process_all_data folder_path w)) ->
  let w' := final (process_all_data folder_path w) in
  texts =
    (flat_map chunks (documents w')
     ++ map (fun kv => _create_dataset_description (fst kv) (snd kv))
            (structured_data w'))%list
  /\ length metadatas = length texts.
Proof. apply process_all_data_submits. Qed.

(** X11. After a run over a folder that can be listed, the [chunks] of
    every document record, old or new, are what the splitter makes of its
    [content], whether or not the index could be built. *)
Theorem every_record_is_chunked (folder_path : string)
  (files : list string) (w : state) :
  path_exists folder_path = true ->
  listdir folder_path = Ok files ->
  forall d,
    In d (documents (final (process_all_data folder_path w))) ->
    chunks d = split_text (content d).
Proof.
  intros Hex Hls d Hin.
  destruct (process_all_data_state VectorStore folder_path files w Hex Hls)
    as (_ & Hd & _).
  cbv zeta in Hd. rewrite Hd in Hin. apply in_map_iff in Hin.
  now destruct Hin as (d0 & <- & _).
Qed.

(** X12. A run never drops or reorders a document record: the records the
    warehouse held come first, with their name, type and text unchanged,
    followed by the records of this run, which are as many as
    [total_documents] says and bear names of entries of the folder. *)
Theorem records_are_kept_and_counted (folder_path : string)
  (files : list string) (w : state) :
  path_exists folder_path = true ->
  listdir folder_path = Ok files ->
  let w' := final (process_all_data folder_path w) in
  exists new,
    documents w' = (map chunk_document (documents w) ++ new)%list
    /\ length new = total_documents (stats w')
    /\ forall d, In d new -> In (filename d) files.
Proof.
  intros Hex Hls.
  destruct (process_all_data_state VectorStore folder_path files w Hex Hls)
    as (_ & Hd & _ & Hn & _).
  cbv zeta in *.
  exists (map chunk_document (folder_documents folder_path files)).
  rewrite Hd, Hn, map_app, length_map. repeat split.
  intros d Hin. apply in_map_iff in Hin. destruct Hin as (d0 & <- & Hin).
  cbn. apply folder_documents_In in Hin.
  destruct Hin as (file & Hfile & Hnew).
  destruct (new_document_is_of_file folder_path file d0 Hnew) as (-> & _).
  exact Hfile.
Qed.

(** X13. Ingesting a folder a second time leaves the tables as the first
    run left them: the dictionary is the same, entry for entry, and so are
    [total_rows] and [data_size_mb], whether or not the index could be
    built. *)
Theorem reingestion_keeps_tables (folder_path : string)
  (files : list string) (w : state) :
  path_exists folder_path = true ->
  listdir folder_path = Ok files ->
  let w1 := final (process_all_data folder_path w) in
  let w2 := final (process_all_data folder_path w1) in
  structured_data w2 = structured_data w1
  /\ total_rows (stats w2) = total_rows (stats w1)
  /\ data_size_mb (stats w2) = data_size_mb (stats w1).
Proof.
  intros Hex Hls. cbv zeta.
  destruct (process_all_data_state VectorStore folder_path files w Hex Hls)
    as (Ht1 & _ & Hr1 & _ & Hs1 & _).
  cbv zeta in *.
  set (w1 := final (process_all_data folder_path w)) in *.
  destruct (process_all_data_state VectorStore folder_path files w1 Hex Hls)
    as (Ht2 & _ & Hr2 & _ & Hs2 & _).
  cbv zeta in *.
  rewrite Ht1, load_tables_idempotent in Ht2, Hs2.
  now rewrite Ht2, Hr2, Hs2, Ht1, Hr1, Hs1.
Qed.

End RunResults.

(** ** Answers *)

Section Answers.

Variable VectorStore : Type.
Context {sv : Services VectorStore}.

Local Notation "'state'" := (warehouse VectorStore).

(** What [document_context] does, by the outcome of the search. *)
Lemma document_context_run (question : string) (w : state) :
  document_context question w =
    match vectorstore w with
    | None => (Ok [], w, [])
    | Some vs =>
        match similarity_search vs question 3 with
        | Ok [] => (Ok [], w, [call_similarity_search question 3])
        | Ok (doc :: docs) =>
            (Ok ["**Relevant document excerpts:**" ++ nl
                 ++ join nl (map (fun d => take 500 (page_content d))
                                 (doc :: docs))],
             w, [call_similarity_search question 3])
        | Raise e =>
            (Ok [], w,
             [call_similarity_search question 3;
              st_error ("Search error: " ++ e)])
        end
    end.
Proof.
  unfold document_context, bind at 1, get.
  destruct (vectorstore w) as [vs|] eqn:Hvs; [|reflexivity].
  cbn [app]. unfold try_except, bind at 1, search, bind, get.
  rewrite Hvs. cbn. unfold try_except, remote.
  destruct (similarity_search vs question 3) as [[|doc docs]|e];
    reflexivity.
Qed.

(** What [ask_unified] does once the context is known. *)
Lemma ask_unified_run (question : string) (w : state) :
  ask_unified question w =
    let found := document_context question w in
    match value found with
    | Raise e => (Raise e, w, trace found)
    | Ok from_documents =>
        match (from_documents ++ dataset_context w)%list with
        | [] => (Ok no_data_message, w, trace found)
        | part :: parts =>
            let prompt := system_prompt (join (nl ++ nl) (part :: parts)) in
            (Ok match chat_completion prompt question with
                | Ok answer => answer
                | Raise e => "Error generating response: " ++ e
                end,
             w,
             (trace found ++ [call_chat_completion prompt question])%list)
        end
    end.
Proof.
  unfold ask_unified, bind at 1. rewrite document_context_run.
  destruct (vectorstore w) as [vs|]; cbn -[system_prompt join].
  - destruct (similarity_search vs question 3) as [[|doc docs]|e];
      cbn -[system_prompt join];
      unfold bind, get; cbn -[system_prompt join];
      try (destruct (dataset_context w) as [|part parts];
           cbn -[system_prompt join]; [reflexivity|]);
      unfold try_except, remote;
      destruct (chat_completion _ question); reflexivity.
  - unfold bind, get. cbn -[system_prompt join].
    destruct (dataset_context w) as [|part parts];
      cbn -[system_prompt join]; [reflexivity|].
    unfold try_except, remote.
    destruct (chat_completion _ question); reflexivity.
Qed.

(** X14. With no table loaded, [ask_unified] always returns text and leaves
    the warehouse as it was.  What leaves the process is at most one
    similarity search, for the question with [k] 3, followed by at most one
    chat completion for the question; the pandas agent and the retrieval
    chain are not used. *)
Theorem ask_unified_of_documents_returns_text (question : string)
  (w : state) :
  structured_data w = [] ->
  (exists text, value (ask_unified question w) = Ok text)
  /\ final (ask_unified question w) = w
  /\ (outbound (trace (ask_unified question w)) = []
      \/ outbound (trace (ask_unified question w)) =
           [call_similarity_search question 3]
      \/ (exists prompt,
            outbound (trace (ask_unified question w)) =
              [call_similarity_search question 3;
               call_chat_completion prompt question])).
Proof.
  intro Hnone. rewrite ask_unified_run, document_context_run. cbv zeta.
  unfold dataset_context. rewrite Hnone.
  destruct (vectorstore w) as [vs|]; cbn -[system_prompt join].
  - destruct (similarity_search vs question 3) as [[|doc docs]|e];
      cbn -[system_prompt join];
      (split; [eexists; reflexivity|]); (split; [reflexivity|]); eauto 6.
  - (split; [eexists; reflexivity|]); (split; [reflexivity|]); eauto.
Qed.

Lemma take_prefix (n : nat) (s : string) : String.prefix (take n s) s = true.
Proof.
  revert n. induction s as [|c s IH]; intro n; [reflexivity|].
  cbn [take]. destruct (continuation c).
  - cbn. destruct (Ascii.ascii_dec c c); [apply IH | contradiction].
  - destruct n; [reflexivity|]. cbn.
    destruct (Ascii.ascii_dec c c); [apply IH | contradiction].
Qed.

Lemma take_len (n : nat) (s : string) : len (take n s) = Nat.min n (len s).
Proof.
  revert n. induction s as [|c s IH]; intro n; cbn [take len].
  - now rewrite Nat.min_0_r.
  - destruct (continuation c) eqn:E; cbn [len]; rewrite ?E.
    + apply IH.
    + destruct n; [reflexivity|]. cbn [len]. rewrite E, IH. reflexivity.
Qed.

(** Characters are counted, not bytes: the first three characters of a
    text whose first two take two and three bytes. *)
Lemma take_counts_characters :
  take 3 "é€ab" = "é€a" /\ len "é€ab" = 4 /\ String.length "é€ab" = 7.
Proof. repeat split. Qed.

(** What [take] leaves out begins with a character: a character is never
    cut between its bytes. *)
Lemma take_cut (n : nat) (s : string) :
  exists rest,
    s = take n s ++ rest
    /\ forall c tl, rest = String c tl -> continuation c = false.
Proof.
  revert n. induction s as [|c s IH]; intro n; cbn [take].
  - exists "". split; [reflexivity | discriminate].
  - destruct (continuation c) eqn:E.
    + destruct (IH n) as (rest & Hs & Hrest). exists rest.
      split; [cbn; f_equal; exact Hs | exact Hrest].
    + destruct n as [|n].
      * exists (String c s). split; [reflexivity|].
        intros c' tl [= <- _]. exact E.
      * destruct (IH n) as (rest & Hs & Hrest). exists rest.
        split; [cbn; f_equal; exact Hs | exact Hrest].
Qed.

(** X15. When the search finds chunks and no table is loaded, [ask_unified]
    calls the chat model once.  The system prompt holds one block, the
    heading [**Relevant document excerpts:**] followed by one excerpt per
    chunk found, in the order of the search; an excerpt is the beginning of
    its chunk, the whole chunk if it has at most 500 characters and its
    first 500 characters otherwise, whole characters only.  The text the
    model generates is returned as it is, and a failure of the call comes
    back as the text of an error message. *)
Theorem ask_unified_prompt_holds_the_excerpts (question : string)
  (w : state) (vs : VectorStore) (doc : Document) (docs : list Document) :
  vectorstore w = Some vs ->
  structured_data w = [] ->
  similarity_search vs question 3 = Ok (doc :: docs) ->
  exists excerpts,
    Forall2 (fun d e =>
               len e = Nat.min 500 (len (page_content d))
               /\ exists rest,
                    page_content d = e ++ rest
                    /\ forall c tl,
                         rest = String c tl -> continuation c = false)
            (doc :: docs) excerpts
    /\ let prompt :=
         "You are a private equity analyst with access to company data and documents."
         ++ nl ++ nl ++ "Based on this context:" ++ nl
         ++ "**Relevant document excerpts:**" ++ nl ++ join nl excerpts
         ++ nl ++ nl
         ++ "Provide specific, quantitative answers when possible. Cite sources when available." in
       value (ask_unified question w) =
         Ok match chat_completion prompt question with
            | Ok answer => answer
            | Raise e => "Error generating response: " ++ e
            end
       /\ trace (ask_unified question w) =
            [call_similarity_search question 3;
             call_chat_completion prompt question].
Proof.
  intros Hvs Hnone Hfound.
  exists (map (fun d => take 500 (page_content d)) (doc :: docs)). split.
  - generalize (doc :: docs) as l. clear.
    induction l as [|d l IH]; cbn [map]; constructor; [|exact IH].
    split; [apply take_len | apply take_cut].
  - rewrite ask_unified_run, document_context_run. cbv zeta.
    unfold dataset_context. rewrite Hvs, Hnone, Hfound.
    cbn -[join nl take system_prompt]. unfold system_prompt.
    split; reflexivity.
Qed.

(** X16. When an index is held but the search for the question raises or
    finds nothing, and no table is loaded, [ask_unified] returns the fixed
    no-data message: the search is the only call that leaves the process
    and the chat model is not asked. *)
Theorem ask_unified_with_nothing_found (question : string) (w : state)
  (vs : VectorStore) :
  vectorstore w = Some vs ->
  structured_data w = [] ->
  similarity_search vs question 3 = Ok []
  \/ (exists e, similarity_search vs question 3 = Raise e) ->
  value (ask_unified question w) =
    Ok "No data available to answer this question."
  /\ outbound (trace (ask_unified question w)) =
       [call_similarity_search question 3].
Proof.
  intros Hvs Htables Hsearch.
  rewrite ask_unified_run, document_context_run. cbv zeta.
  unfold dataset_context. rewrite Hvs, Htables.
  destruct Hsearch as [->|[e ->]]; now cbn.
Qed.

Lemma ask_documents_run (question : string) (w : state) :
  ask_documents question w =
    match vectorstore w with
    | None => (Ok "No documents indexed.", w, [])
    | Some vs =>
        (Ok match retrieval_qa vs question with
            | Ok (answer, docs) =>
                match set_order (sources_of docs) with
                | [] => answer
                | f :: fs =>
                    answer ++ sources_prefix ++ join ", " (f :: fs)
                end
            | Raise e => "Error searching documents: " ++ e
            end,
         w, [call_retrieval_qa question])
    end.
Proof.
  unfold ask_documents, bind, get.
  destruct (vectorstore w) as [vs|]; [|reflexivity].
  cbn [app]. unfold try_except, remote.
  destruct (retrieval_qa vs question) as [[answer docs]|e]; [|reflexivity].
  cbn [fst snd]. fold (sources_of docs).
  destruct (set_order (sources_of docs)); reflexivity.
Qed.

(** X17. [ask_documents] always returns text and leaves the warehouse as it
    was.  Without an index it answers with a fixed message and calls
    nothing; with an index it runs the retrieval chain once, and a failure
    of the chain comes back as the text of an error message. *)
Theorem ask_documents_always_text (question : string) (w : state) :
  (exists text, value (ask_documents question w) = Ok text)
  /\ final (ask_documents question w) = w
  /\ (vectorstore w = None ->
      ask_documents question w = (Ok "No documents indexed.", w, []))
  /\ (forall vs,
        vectorstore w = Some vs ->
        trace (ask_documents question w) = [call_retrieval_qa question]
        /\ forall e,
             retrieval_qa vs question = Raise e ->
             value (ask_documents question w) =
               Ok ("Error searching documents: " ++ e)).
Proof.
  rewrite ask_documents_run.
  destruct (vectorstore w) as [vs|]; cbn.
  - split; [eexists; reflexivity|]. split; [reflexivity|].
    split; [discriminate|].
    intros vs' Hvs'. inversion Hvs'; subst vs'. split; [reflexivity|].
    intros e He. now rewrite He.
  - split; [eexists; reflexivity|]. split; [reflexivity|].
    split; [reflexivity|]. discriminate.
Qed.

End Answers.

(** ** Parsers *)

Lemma append_empty (a b : string) : a ++ b = "" <-> a = "" /\ b = "".
Proof.
  destruct a; cbn; [intuition|].
  split; [discriminate | intros [H _]; discriminate].
Qed.

Lemma append_empty_r (a : string) : a ++ "" = a.
Proof. induction a as [|c a IH]; cbn; [reflexivity | now rewrite IH]. Qed.

Lemma append_assoc (a b c : string) : (a ++ b) ++ c = a ++ b ++ c.
Proof. induction a as [|x a IH]; cbn; [reflexivity | now rewrite IH]. Qed.

Lemma concat_empty (l : list string) :
  String.concat "" l = "" <-> Forall (fun s => s = "") l.
Proof.
  induction l as [|x l IH]; cbn; [split; auto|].
  destruct l as [|y l].
  - split; [intros ->; auto | intro H; now inversion H].
  - change (x ++ String.concat "" (y :: l) = ""
            <-> Forall (fun s => s = "") (x :: y :: l)).
    rewrite append_empty, IH. split.
    + intros [-> H]. now constructor.
    + intro H. inversion H. now split.
Qed.

Lemma concat_cons (x : string) (l : list string) :
  String.concat "" (x :: l) = x ++ String.concat "" l.
Proof.
  destruct l; cbn; [now rewrite append_empty_r | reflexivity].
Qed.

Lemma page_block_empty (page_num : nat) (page_text : string) :
  page_block page_num page_text = "" <-> page_text = "".
Proof.
  unfold page_block, nonempty.
  destruct (String.eqb page_text "") eqn:E; cbn.
  - apply String.eqb_eq in E. intuition.
  - apply String.eqb_neq in E. split; [discriminate | contradiction].
Qed.

Lemma pdf_pages_readable (texts : list string) (rest : list (result string))
  (page_num : nat) (text : string) :
  pdf_pages (map Ok texts ++ rest) page_num text =
  pdf_pages rest (page_num + length texts)
    (text ++ String.concat ""
               (map (fun it => page_block (fst it) (snd it))
                    (combine (seq page_num (length texts)) texts))).
Proof.
  revert page_num text.
  induction texts as [|t texts IH]; intros page_num text.
  - cbn. now rewrite Nat.add_0_r, append_empty_r.
  - cbn [map app pdf_pages length seq combine]. rewrite IH.
    rewrite concat_cons. cbn [fst snd].
    replace (S page_num + length texts)
      with (page_num + S (length texts)) by lia.
    f_equal. unfold page_block.
    destruct (nonempty t); cbn [append];
      now rewrite ?append_assoc.
Qed.

Section Parsers.

Variable VectorStore : Type.
Context {fs : FileSystem}.

Local Notation "'state'" := (warehouse VectorStore).

Lemma readable_prefix (pages : list (result string)) :
  exists texts rest,
    pages = (map Ok texts ++ rest)%list
    /\ (rest = [] \/ exists e tl, rest = Raise e :: tl).
Proof.
  induction pages as [|[t|e] pages (texts & rest & Heq & Hrest)].
  - exists [], []. split; [reflexivity | now left].
  - exists (t :: texts), rest. split; [cbn; now rewrite Heq | exact Hrest].
  - exists [], (Raise e :: pages). split; [reflexivity|].
    right. now exists e, pages.
Qed.

(** X18. [_parse_pdf] never raises and does not touch the warehouse,
    whatever the file: the only events of a call are reports of an error to
    the user, at most one.  A file that cannot be opened as a PDF gives the
    empty text and the report of that failure.  For a file that opens, the
    pages are those up to the first one that cannot be read, or all of
    them, and with the texts [texts] of these pages the call returns one
    block per page with a non-empty text, headed by the position of the
    page in the file counted from 1, pages without text keeping their
    number; what was read before a failing page is returned, and the failure
    is reported once. *)
Theorem _parse_pdf_keeps_what_it_read (file_path : string) (w : state) :
  (exists text, value (_parse_pdf file_path w) = Ok text)
  /\ final (_parse_pdf file_path w) = w
  /\ (trace (_parse_pdf file_path w) = []
      \/ exists e,
           trace (_parse_pdf file_path w) =
             [st_error ("Error parsing PDF " ++ file_path ++ ": " ++ e)])
  /\ (forall e,
        PdfReader file_path = Raise e ->
        _parse_pdf file_path w =
          (Ok "", w,
           [st_error ("Error parsing PDF " ++ file_path ++ ": " ++ e)]))
  /\ (forall pages,
        PdfReader file_path = Ok pages ->
        exists texts rest,
          pages = (map Ok texts ++ rest)%list
          /\ (rest = [] \/ exists e tl, rest = Raise e :: tl)
          /\ value (_parse_pdf file_path w) =
               Ok (String.concat ""
                     (map (fun it => page_block (fst it) (snd it))
                          (enumerate texts)))
          /\ (rest = [] -> trace (_parse_pdf file_path w) = [])
          /\ (forall e tl,
                rest = Raise e :: tl ->
                trace (_parse_pdf file_path w) =
                  [st_error ("Error parsing PDF " ++ file_path ++ ": "
                             ++ e)])).
Proof.
  assert (Hopen : forall pages,
            PdfReader file_path = Ok pages ->
            exists texts rest,
              pages = (map Ok texts ++ rest)%list
              /\ (rest = [] \/ exists e tl, rest = Raise e :: tl)
              /\ value (_parse_pdf file_path w) =
                   Ok (String.concat ""
                         (map (fun it => page_block (fst it) (snd it))
                              (enumerate texts)))
              /\ final (_parse_pdf file_path w) = w
              /\ (rest = [] -> trace (_parse_pdf file_path w) = [])
              /\ (forall e tl,
                    rest = Raise e :: tl ->
                    trace (_parse_pdf file_path w) =
                      [st_error ("Error parsing PDF " ++ file_path ++ ": "
                                 ++ e)])).
  { intros pages Hpdf.
    destruct (readable_prefix pages) as (texts & rest & Heq & Hrest).
    exists texts, rest. split; [exact Heq|]. split; [exact Hrest|].
    unfold _parse_pdf, pdf_try. rewrite Hpdf, Heq.
    rewrite pdf_pages_readable. cbn [append]. fold (enumerate texts).
    destruct Hrest as [->|(e & tl & ->)]; cbn.
    - repeat split. intros e tl. discriminate.
    - repeat split; [discriminate|].
      intros e' tl' H. now inversion H. }
  assert (Hclosed : forall e,
            PdfReader file_path = Raise e ->
            _parse_pdf file_path w =
              (Ok "", w,
               [st_error ("Error parsing PDF " ++ file_path ++ ": " ++ e)])).
  { intros e He. unfold _parse_pdf, pdf_try. now rewrite He. }
  destruct (PdfReader file_path) as [pages|e] eqn:Hpdf.
  - destruct (Hopen pages eq_refl)
      as (texts & rest & Heq & Hrest & Hv & Hf & Hnone & Hone).
    split; [eexists; exact Hv|]. split; [exact Hf|]. split.
    + destruct Hrest as [->|(e & tl & ->)];
        [left; now apply Hnone | right; exists e; now apply (Hone e tl)].
    + split; [discriminate|].
      intros pages' Hp. inversion Hp; subst pages'.
      exists texts, rest. auto.
  - rewrite (Hclosed e eq_refl). cbn.
    split; [eexists; reflexivity|]. split; [reflexivity|]. split.
    + right. now exists e.
    + split; [intros e' He'; now inversion He' | discriminate].
Qed.

(** X19. The text [_parse_pdf] returns is empty exactly when the file
    cannot be opened as a PDF or no page read before the first failure has
    text. *)
Theorem pdf_text_is_empty_when_no_page_has_text (file_path : string) :
  (forall e, PdfReader file_path = Raise e ->
             fst (pdf_try file_path) = "")
  /\ (forall texts rest,
        PdfReader file_path = Ok (map Ok texts ++ rest)%list ->
        rest = [] \/ (exists e tl, rest = Raise e :: tl) ->
        (fst (pdf_try file_path) = "" <->
         forall t, In t texts -> t = "")).
Proof.
  unfold pdf_try. split.
  - intros e ->. reflexivity.
  - intros texts rest -> Hrest. rewrite pdf_pages_readable. cbn [append].
    assert (Hfst : forall r n t, r = [] \/ (exists e tl, r = Raise e :: tl) ->
                                 fst (pdf_pages r n t) = t).
    { intros r n t [->|(e & tl & ->)]; reflexivity. }
    rewrite (Hfst rest _ _ Hrest), concat_empty, Forall_forall.
    split.
    + intros H t Ht.
      destruct (In_nth texts t "" Ht) as (i & Hi & Hnth).
      apply (page_block_empty i).
      apply (H (page_block i t)). apply in_map_iff.
      exists (i, t). split; [reflexivity|].
      rewrite <- Hnth.
      replace i with (nth i (seq 0 (length texts)) 0) at 1
        by (rewrite seq_nth; lia).
      rewrite <- combine_nth by now rewrite length_seq.
      apply nth_In. rewrite length_combine, length_seq. lia.
    + intros H b Hb. apply in_map_iff in Hb.
      destruct Hb as ([i t] & <- & Hin). cbn.
      apply page_block_empty. apply H. now apply in_combine_r in Hin.
Qed.

End Parsers.



Section WordDocuments.

Variable VectorStore : Type.
Context {fs : FileSystem}.

Local Notation "'state'" := (warehouse VectorStore).


End WordDocuments.

(** ** A build that succeeds *)

Section Builds.

Variable VectorStore : Type.
Context {fs : FileSystem} {pd : Pandas} {sv : Services VectorStore}.

Local Notation "'state'" := (warehouse VectorStore).

(** X21. When the texts a run submits are accepted, the store that was
    returned becomes the index of the warehouse, and the summary has
    [ready] true and, as [chunks_indexed], the number of texts submitted:
    one per chunk of every document held and one per table held. *)
Theorem accepted_build_is_counted (folder_path : string)
  (files : list string) (w : state) (texts : list string)
  (metadatas : list metadata) (vs : VectorStore) :
  path_exists folder_path = true ->
  listdir folder_path = Ok files ->
  In (call_from_texts texts metadatas)
     (trace (process_all_data folder_path w)) ->
  from_texts texts metadatas = Ok vs ->
  let w' := final (process_all_data folder_path w) in
  vectorstore w' = Some vs
  /\ total_chunks (stats w') = length texts
  /\ length texts =
       length (flat_map chunks (documents w')) + length (structured_data w')
  /\ exists s,
       value (process_all_data folder_path w) = Ok (Some s)
       /\ sum_ready s = true
       /\ sum_chunks_indexed s = length texts.
Proof.
  intros Hex Hls Hcall Hok.
  destruct (process_all_data_submits VectorStore folder_path
              files w texts metadatas Hex Hls Hcall) as [Htexts _].
  destruct (process_all_data_run VectorStore folder_path files w Hex Hls)
    as (Hv & Hf & log & Ht & Hquiet).
  cbv zeta in *.
  set (parsed := documents_pass folder_path files
                   (sized (tables_pass folder_path files (reset w)))) in *.
  assert (Hlen : length texts =
                 length (flat_map chunks
                           (documents (final (process_all_data folder_path w))))
                 + length (structured_data
                             (final (process_all_data folder_path w)))).
  { rewrite Htexts at 1. now rewrite length_app, length_map. }
  rewrite Ht in Hcall. apply in_app_or in Hcall.
  destruct Hcall as [Hcall|Hcall].
  { rewrite Forall_forall in Hquiet. apply Hquiet in Hcall. discriminate. }
  pose proof (_create_vector_index_calls VectorStore parsed texts metadatas
                Hcall) as [Ht' Hm'].
  rewrite Hv. rewrite Hf in *.
  rewrite _create_vector_index_run in *.
  destruct (submitted parsed) as [|entry entries] eqn:E;
    [contradiction|].
  cbv zeta in *. rewrite <- Ht', <- Hm', Hok in *.
  cbn in *. repeat split; try assumption.
  eexists. split; [reflexivity|]. now cbn.
Qed.

End Builds.

(** ** Sample tickers *)

Lemma letter_code (n : nat) : n < 26 -> nat_of_ascii (letter n) = 65 + n.
Proof. intro H. unfold letter. apply nat_ascii_embedding. lia. Qed.

Lemma letter_inj (a b : nat) : a < 26 -> b < 26 -> letter a = letter b -> a = b.
Proof.
  intros Ha Hb H. apply (f_equal nat_of_ascii) in H.
  rewrite !letter_code in H by assumption. lia.
Qed.

Lemma string_cons_inj (a b : ascii) (s t : string) :
  String a s = String b t -> a = b /\ s = t.
Proof. intro H. now inversion H. Qed.

Lemma ticker_inj (i j : nat) :
  i < 676 * 26 -> j < 676 * 26 -> ticker i = ticker j -> i = j.
Proof.
  intros Hi Hj H. unfold ticker in H.
  apply string_cons_inj in H. destruct H as [H0 H].
  apply string_cons_inj in H. destruct H as [H1 H].
  apply string_cons_inj in H. destruct H as [H2 _].
  assert (Hmod : forall n, n mod 26 < 26)
    by (intro n; apply Nat.mod_upper_bound; lia).
  apply letter_inj in H0; [|apply Hmod|apply Hmod].
  apply letter_inj in H1; [|apply Hmod|apply Hmod].
  apply letter_inj in H2; [|apply Hmod|apply Hmod].
  assert (Hhigh : forall n, n < 676 * 26 -> (n / 676) mod 26 = n / 676).
  { intros n Hn. apply Nat.mod_small.
    apply Nat.Div0.div_lt_upper_bound. lia. }
  rewrite !Hhigh in H2 by assumption.
  assert (Hdec : forall n, n = 676 * (n / 676) + 26 * ((n / 26) mod 26)
                               + n mod 26).
  { intro n. pose proof (Nat.div_mod_eq n 26) as H26.
    pose proof (Nat.div_mod_eq (n / 26) 26) as H676.
    rewrite Nat.Div0.div_div in H676. change (26 * 26) with 676 in H676.
    lia. }
  rewrite (Hdec i), (Hdec j). now rewrite H0, H1, H2.
Qed.

(** X24. The tickers [create_sample_data] gives its 500 sample companies
    are pairwise distinct, and each is made of three capital letters; two
    positions below 17576 never share a ticker. *)
Theorem sample_tickers_are_distinct :
  NoDup tickers
  /\ (forall t, In t tickers ->
        String.length t = 3
        /\ forall k c, String.get k t = Some c ->
                       65 <= nat_of_ascii c <= 90)
  /\ (forall i j, i < 676 * 26 -> j < 676 * 26 -> ticker i = ticker j -> i = j).
Proof.
  split; [|split; [|exact ticker_inj]].
  - unfold tickers. apply NoDup_map_NoDup_ForallPairs; [|apply seq_NoDup].
    intros i j Hi Hj. apply in_seq in Hi, Hj. apply ticker_inj; lia.
  - intros t Ht. unfold tickers in Ht. apply in_map_iff in Ht.
    destruct Ht as (i & <- & _). split; [reflexivity|].
    assert (Hmod : forall n, n mod 26 < 26)
      by (intro n; apply Nat.mod_upper_bound; lia).
    intros k c Hget. unfold ticker in Hget.
    destruct k as [|[|[|k]]]; cbn [String.get] in Hget;
      try (destruct k; discriminate);
      match type of Hget with
      | Some (letter (?m mod 26)) = Some c =>
          assert (Hc : c = letter (m mod 26)) by congruence;
          rewrite Hc, letter_code by apply Hmod;
          pose proof (Hmod m); lia
      end.
Qed.

(** * The further properties at work in the example worlds *)

Lemma missing_folder_changes_nothing_witness :
  @process_all_data _ Example.files Example.pandas (Example.services true)
    "nowhere" Example.loaded
  = (Ok None, Example.loaded,
     [st_error "Folder nowhere does not exist!"]).
Proof.
  exact (@missing_folder_changes_nothing _ Example.files Example.pandas
           (Example.services true) "nowhere" Example.loaded eq_refl).
Defined.

Lemma unlistable_folder_raises_witness :
  @process_all_data _ Scenes.files Example.pandas (Example.services true)
    "report.txt" Example.loaded
  = (Raise "Not a directory", reset Example.loaded, []).
Proof.
  exact (@unlistable_folder_raises _ Scenes.files Example.pandas
           (Example.services true) "report.txt" "Not a directory"
           Example.loaded eq_refl eq_refl).
Defined.

(** The first day in [inbox], with the embedding service down. *)
Lemma document_folder_returns_summary_witness :
  let run := @process_all_data _ Inbox.first_day Example.pandas
               (Example.services false) "inbox" (__init__ Example.store) in
  value run = Ok (Some (summary_of (final run)))
  /\ structured_data (final run) = []
  /\ (outbound (trace run) = []
      \/ exists texts metadatas,
           outbound (trace run) = [call_from_texts texts metadatas]
           /\ Forall (fun m => md_type m = document) metadatas).
Proof.
  apply (@document_folder_returns_summary _ Inbox.first_day Example.pandas
           (Example.services false) "inbox" ["memo.txt"; "scan.pdf"]
           (__init__ Example.store) eq_refl eq_refl eq_refl).
  intros file [<-|[<-|[]]]; reflexivity.
Defined.

Lemma empty_folder_indexes_nothing_witness :
  @process_all_data _ Example.files Example.pandas (Example.services true)
    "empty" (__init__ Example.store)
  = (Ok (Some empty_summary), __init__ Example.store, []).
Proof.
  exact (@empty_folder_indexes_nothing _ Example.files Example.pandas
           (Example.services true) "empty" eq_refl eq_refl).
Defined.

Lemma passes_take_disjoint_files_witness :
  @parse_document_file _ Example.files "data" "sales.csv" Example.loaded
  = (Ok tt, Example.loaded, [])
  /\ @load_structured_file _ Example.pandas "data" "notes.txt"
       Example.loaded
     = (Ok tt, Example.loaded, []).
Proof.
  split.
  - apply (proj1 (@passes_take_disjoint_files Example.files Example.pandas
                    _ "data" "sales.csv" Example.loaded)).
    split; [reflexivity | left; reflexivity].
  - apply (proj2 (@passes_take_disjoint_files Example.files Example.pandas
                    _ "data" "notes.txt" Example.loaded) "txt").
    split; [reflexivity | right; right; split; reflexivity].
Defined.

Lemma loaded_is_reachable : reachable Example.loaded.
Proof.
  exact (@reach_ingest _ Example.files Example.pandas
           (Example.services true) "data" (__init__ Example.store)
           reach_init).
Qed.

Lemma tables_are_named_table_files_witness :
  NoDup (dict_keys (structured_data Example.loaded))
  /\ forall file,
       In file (dict_keys (structured_data Example.loaded)) ->
       table_name file.
Proof.
  exact (tables_are_named_table_files Example.loaded loaded_is_reachable).
Defined.

Lemma documents_are_named_document_files_witness :
  document_name "notes.txt" "txt"
  /\ nonempty "quarterly revenue grew" = true.
Proof.
  apply (documents_are_named_document_files Example.loaded
           loaded_is_reachable
           {| filename := "notes.txt"; doc_type := "txt";
              content := "quarterly revenue grew";
              chunks := ["quarterly revenue grew"] |}).
  left. reflexivity.
Defined.

Lemma chunks_counted_only_with_index_witness :
  total_chunks
    (stats (final (@process_all_data _ Example.files Example.pandas
                     (Example.services false) "data"
                     (__init__ Example.store)))) = 0.
Proof.
  apply chunks_counted_only_with_index; [|reflexivity].
  exact (@reach_ingest _ Example.files Example.pandas
           (Example.services false) "data" (__init__ Example.store)
           reach_init).
Defined.

(** The chunk of [notes.txt] in the index of the loaded warehouse. *)
Lemma index_entries_locate_their_text_witness :
  let m := {| md_source := "notes.txt"; md_type := document;
              md_chunk := 0; md_total_chunks := 1 |} in
  md_chunk m < md_total_chunks m
  /\ ((md_type m = document
       /\ exists doc,
            In doc (documents Example.loaded)
            /\ md_source m = filename doc
            /\ md_total_chunks m = length (chunks doc)
            /\ nth_error (chunks doc) (md_chunk m)
               = Some "quarterly revenue grew")
      \/ (md_type m = structured_data_kind
          /\ md_chunk m = 0
          /\ md_total_chunks m = 1
          /\ exists df,
               In (md_source m, df) (structured_data Example.loaded)
               /\ "quarterly revenue grew"
                  = @_create_dataset_description Example.pandas
                      (md_source m) df)).
Proof.
  apply (@index_entries_locate_their_text Example.pandas
           (documents Example.loaded) (structured_data Example.loaded)).
  left. reflexivity.
Defined.

(** The texts and metadata that the first run over [data] submits. *)
Lemma submitted_texts_are_chunks_then_tables_witness :
  let run := @process_all_data _ Example.files Example.pandas
               (Example.services true) "data" (__init__ Example.store) in
  let texts := map fst (@submitted Example.pandas _ (Example.services true)
                          (final run)) in
  let metadatas := map snd (@submitted Example.pandas _
                              (Example.services true) (final run)) in
  texts =
    (flat_map chunks (documents (final run))
     ++ map (fun kv => @_create_dataset_description Example.pandas
                         (fst kv) (snd kv))
            (structured_data (final run)))%list
  /\ length metadatas = length texts.
Proof.
  cbv zeta.
  apply (@submitted_texts_are_chunks_then_tables _ Example.files
           Example.pandas (Example.services true) "data"
           ["notes.txt"; "blank.txt"; ".hidden.txt"; "sales.csv"]
           (__init__ Example.store)); [reflexivity | reflexivity |].
  left. reflexivity.
Defined.

Lemma every_record_is_chunked_witness :
  ["quarterly revenue grew"]
  = @split_text _ (Example.services true) "quarterly revenue grew".
Proof.
  apply (@every_record_is_chunked _ Example.files Example.pandas
           (Example.services true) "data"
           ["notes.txt"; "blank.txt"; ".hidden.txt"; "sales.csv"]
           (__init__ Example.store) eq_refl eq_refl
           {| filename := "notes.txt"; doc_type := "txt";
              content := "quarterly revenue grew";
              chunks := ["quarterly revenue grew"] |}).
  left. reflexivity.
Defined.

Lemma records_are_kept_and_counted_witness :
  let w' := final (@process_all_data _ Example.files Example.pandas
                     (Example.services true) "data" Example.loaded) in
  exists new,
    documents w'
    = (map (@chunk_document _ (Example.services true))
           (documents Example.loaded) ++ new)%list
    /\ length new = total_documents (stats w')
    /\ forall d,
         In d new ->
         In (filename d)
            ["notes.txt"; "blank.txt"; ".hidden.txt"; "sales.csv"].
Proof.
  exact (@records_are_kept_and_counted _ Example.files Example.pandas
           (Example.services true) "data"
           ["notes.txt"; "blank.txt"; ".hidden.txt"; "sales.csv"]
           Example.loaded eq_refl eq_refl).
Defined.

Lemma reingestion_keeps_tables_witness :
  let w1 := final (@process_all_data _ Example.files Example.pandas
                     (Example.services false) "data"
                     (__init__ Example.store)) in
  let w2 := final (@process_all_data _ Example.files Example.pandas
                     (Example.services false) "data" w1) in
  structured_data w2 = structured_data w1
  /\ total_rows (stats w2) = total_rows (stats w1)
  /\ data_size_mb (stats w2) = data_size_mb (stats w1).
Proof.
  exact (@reingestion_keeps_tables _ Example.files Example.pandas
           (Example.services false) "data"
           ["notes.txt"; "blank.txt"; ".hidden.txt"; "sales.csv"]
           (__init__ Example.store) eq_refl eq_refl).
Defined.

Lemma ask_unified_of_documents_returns_text_witness :
  (exists text,
     value (@ask_unified _ (Example.services false) "What grew?"
              Example.memo_indexed) = Ok text)
  /\ final (@ask_unified _ (Example.services false) "What grew?"
              Example.memo_indexed) = Example.memo_indexed
  /\ (outbound (trace (@ask_unified _ (Example.services false) "What grew?"
                         Example.memo_indexed)) = []
      \/ outbound (trace (@ask_unified _ (Example.services false)
                            "What grew?" Example.memo_indexed))
         = [call_similarity_search "What grew?" 3]
      \/ (exists prompt,
            outbound (trace (@ask_unified _ (Example.services false)
                               "What grew?" Example.memo_indexed))
            = [call_similarity_search "What grew?" 3;
               call_chat_completion prompt "What grew?"])).
Proof.
  exact (@ask_unified_of_documents_returns_text _ (Example.services false)
           "What grew?" Example.memo_indexed eq_refl).
Defined.

(** The two chunks of the memo are found and make the context. *)
Lemma ask_unified_prompt_holds_the_excerpts_witness :
  exists excerpts,
    Forall2 (fun d e =>
               len e = Nat.min 500 (len (page_content d))
               /\ exists rest,
                    page_content d = e ++ rest
                    /\ forall c tl,
                         rest = String c tl -> continuation c = false)
            (Example.as_documents Example.memo_store) excerpts
    /\ let prompt :=
         "You are a private equity analyst with access to company data and documents."
         ++ nl ++ nl ++ "Based on this context:" ++ nl
         ++ "**Relevant document excerpts:**" ++ nl ++ join nl excerpts
         ++ nl ++ nl
         ++ "Provide specific, quantitative answers when possible. Cite sources when available." in
       value (@ask_unified _ (Example.services true) "What grew?"
                Example.memo_indexed)
       = Ok "Revenue grew."
       /\ trace (@ask_unified _ (Example.services true) "What grew?"
                   Example.memo_indexed)
          = [call_similarity_search "What grew?" 3;
             call_chat_completion prompt "What grew?"].
Proof.
  exact (@ask_unified_prompt_holds_the_excerpts _ (Example.services true)
           "What grew?" Example.memo_indexed Example.memo_store
           {| page_content := "a";
              doc_metadata := {| md_source := "memo.pdf"; md_type := document;
                                 md_chunk := 0; md_total_chunks := 2 |} |}
           [ {| page_content := "b";
                doc_metadata := {| md_source := "memo.pdf";
                                   md_type := document;
                                   md_chunk := 1; md_total_chunks := 2 |} |} ]
           eq_refl eq_refl eq_refl).
Defined.

Lemma ask_unified_with_nothing_found_witness :
  value (@ask_unified _ (Example.services false) "What grew?"
           Example.memo_indexed)
  = Ok "No data available to answer this question."
  /\ outbound (trace (@ask_unified _ (Example.services false) "What grew?"
                        Example.memo_indexed))
     = [call_similarity_search "What grew?" 3].
Proof.
  apply (@ask_unified_with_nothing_found _ (Example.services false)
           "What grew?" Example.memo_indexed Example.memo_store
           eq_refl eq_refl).
  right. exists "Connection error.". reflexivity.
Defined.

Lemma ask_documents_always_text_witness :
  @ask_documents _ (Example.services true) "What grew?"
    (__init__ Example.store)
  = (Ok "No documents indexed.", __init__ Example.store, [])
  /\ trace (@ask_documents _ (Example.services false) "What grew?"
              Example.memo_indexed)
     = [call_retrieval_qa "What grew?"]
  /\ value (@ask_documents _ (Example.services false) "What grew?"
              Example.memo_indexed)
     = Ok "Error searching documents: Connection error.".
Proof.
  split.
  - exact (proj1 (proj2 (proj2
             (@ask_documents_always_text _ (Example.services true)
                "What grew?" (__init__ Example.store)))) eq_refl).
  - destruct (proj2 (proj2 (proj2
               (@ask_documents_always_text _ (Example.services false)
                  "What grew?" Example.memo_indexed)))
               Example.memo_store eq_refl) as [Htrace Hraise].
    split; [exact Htrace|].
    exact (Hraise "Connection error." eq_refl).
Defined.

(** A file that is not a PDF, and the memo, whose fourth page fails. *)
Lemma _parse_pdf_keeps_what_it_read_witness :
  @_parse_pdf _ Scenes.files "docs/missing.pdf" (__init__ unit)
  = (Ok "", __init__ unit,
     [st_error "Error parsing PDF docs/missing.pdf: EOF marker not found"])
  /\ exists texts rest,
       Scenes.memo_pages = (map Ok texts ++ rest)%list
       /\ (rest = [] \/ exists e tl, rest = Raise e :: tl)
       /\ value (@_parse_pdf _ Scenes.files "docs/memo.pdf" (__init__ unit))
          = Ok (String.concat ""
                  (map (fun it => page_block (fst it) (snd it))
                       (enumerate texts)))
       /\ (rest = [] ->
           trace (@_parse_pdf _ Scenes.files "docs/memo.pdf" (__init__ unit))
           = [])
       /\ (forall e tl,
             rest = Raise e :: tl ->
             trace (@_parse_pdf _ Scenes.files "docs/memo.pdf"
                      (__init__ unit))
             = [st_error ("Error parsing PDF docs/memo.pdf: " ++ e)]).
Proof.
  split.
  - exact (proj1 (proj2 (proj2 (proj2
             (@_parse_pdf_keeps_what_it_read unit Scenes.files
                "docs/missing.pdf" (__init__ unit)))))
             "EOF marker not found" eq_refl).
  - exact (proj2 (proj2 (proj2 (proj2
             (@_parse_pdf_keeps_what_it_read unit Scenes.files
                "docs/memo.pdf" (__init__ unit)))))
             Scenes.memo_pages eq_refl).
Defined.

(** What the call returns for the memo: pages 1 and 3 are kept, page 2 has
    no text, page 4 fails. *)
Lemma memo_text :
  @_parse_pdf _ Scenes.files "docs/memo.pdf" (__init__ unit)
  = (Ok (nl ++ "--- Page 1 ---" ++ nl ++ "Intro"
         ++ nl ++ "--- Page 3 ---" ++ nl ++ "Terms"),
     __init__ unit,
     [st_error "Error parsing PDF docs/memo.pdf: bad page"]).
Proof. reflexivity. Qed.

Lemma pdf_text_is_empty_when_no_page_has_text_witness :
  @pdf_try Scenes.files "docs/missing.pdf" = ("", Some "EOF marker not found")
  /\ (fst (@pdf_try Scenes.files "docs/memo.pdf") = "" ->
      forall t, In t ["Intro"; ""; "Terms"] -> t = "").
Proof.
  split; [reflexivity|].
  apply (proj2 (@pdf_text_is_empty_when_no_page_has_text Scenes.files
                  "docs/memo.pdf")
           ["Intro"; ""; "Terms"] [Raise "bad page"; Ok "Annex"] eq_refl).
  right. exists "bad page", [Ok "Annex"]. reflexivity.
Defined.


Lemma accepted_build_is_counted_witness :
  let run := @process_all_data _ Example.files Example.pandas
               (Example.services true) "data" (__init__ Example.store) in
  let texts := map fst (@submitted Example.pandas _ (Example.services true)
                          (final run)) in
  vectorstore (final run)
  = Some (combine texts
            (map snd (@submitted Example.pandas _ (Example.services true)
                        (final run))))
  /\ total_chunks (stats (final run)) = length texts
  /\ length texts =
       length (flat_map chunks (documents (final run)))
       + length (structured_data (final run))
  /\ exists s,
       value run = Ok (Some s)
       /\ sum_ready s = true
       /\ sum_chunks_indexed s = length texts.
Proof.
  cbv zeta.
  apply (@accepted_build_is_counted _ Example.files Example.pandas
           (Example.services true) "data"
           ["notes.txt"; "blank.txt"; ".hidden.txt"; "sales.csv"]
           (__init__ Example.store)
           _ (map snd (@submitted Example.pandas _ (Example.services true)
                         Example.loaded)));
    [reflexivity | reflexivity | left; reflexivity | reflexivity].
Defined.

(** The company at position 27 has the ticker [BBA]. *)
Lemma sample_tickers_are_distinct_witness :
  String.length "BBA" = 3
  /\ forall k c, String.get k "BBA" = Some c -> 65 <= nat_of_ascii c <= 90.
Proof.
  apply (proj1 (proj2 sample_tickers_are_distinct) "BBA").
  unfold tickers. apply in_map_iff. exists 27.
  split; [reflexivity | apply in_seq; lia].
Defined.
